(** * ApiPosture (Node.js): classification, rules, suppression, registry

    A shallow embedding of the analysis core of the ApiPosture scanner:
    the shared data model, the classification function, the four
    framework discoverers' route normalisation, the authorization
    extractors, the mount registry, the rule catalogue with its engine
    and the suppression matcher.  JavaScript strings are modelled as
    [string] (sequences of 8-bit characters).  Case conversion and
    trimming are modelled on ASCII text, where JavaScript maps the
    letters A to Z and strips the blank and the characters 9 to 13;
    on other characters JavaScript follows the Unicode tables, which
    are not modelled.  Statements whose content is the case or the
    white space of a text are therefore made for ASCII texts
    ([Js.isAscii]). *)

From Stdlib Require Import Bool Arith ZArith Lia List Permutation Sorted.
From Stdlib Require Import Strings.Ascii Strings.String.
From Stdlib Require Import Numbers.DecimalString.
Import ListNotations.

Local Open Scope bool_scope.
Local Open Scope list_scope.
Local Open Scope string_scope.

(* ================================================================= *)
(** ** JavaScript string primitives used by the sources *)

Module Js.

Definition slash : ascii := "/"%char.

(** The double-quote character, and a text between double quotes. *)
Definition dquote : ascii := ascii_of_nat 34.
Definition quoted (s : string) : string :=
  String dquote (s ++ String dquote EmptyString).

Definition is_slash (c : ascii) : bool := Ascii.eqb c slash.

Definition is_upper (c : ascii) : bool :=
  let n := nat_of_ascii c in ((65 <=? n) && (n <=? 90))%nat.

Definition is_lower (c : ascii) : bool :=
  let n := nat_of_ascii c in ((97 <=? n) && (n <=? 122))%nat.

Definition lower_char (c : ascii) : ascii :=
  if is_upper c then ascii_of_nat (nat_of_ascii c + 32) else c.

Definition upper_char (c : ascii) : ascii :=
  if is_lower c then ascii_of_nat (nat_of_ascii c - 32) else c.

Fixpoint map_chars (f : ascii -> ascii) (s : string) : string :=
  match s with
  | EmptyString => EmptyString
  | String c t => String (f c) (map_chars f t)
  end.

(** Texts of ASCII characters, the domain on which the case
    conversions and [trim] below are those of JavaScript. *)
Definition is_ascii (c : ascii) : bool := (nat_of_ascii c <? 128)%nat.

Fixpoint isAscii (s : string) : bool :=
  match s with
  | EmptyString => true
  | String c t => is_ascii c && isAscii t
  end.

(** [s.toLowerCase()] and [s.toUpperCase()] on ASCII text. *)
Definition toLowerCase : string -> string := map_chars lower_char.
Definition toUpperCase : string -> string := map_chars upper_char.

(** Two texts that differ at most in the case of their ASCII
    letters. *)
Fixpoint eqIgnoreCase (a b : string) : bool :=
  match a, b with
  | EmptyString, EmptyString => true
  | String x a', String y b' =>
      Ascii.eqb (lower_char x) (lower_char y) && eqIgnoreCase a' b'
  | _, _ => false
  end.

(** [s.startsWith(p)]. *)
Definition startsWith (s p : string) : bool := String.prefix p s.

(** [s.endsWith("/")], the only use of [endsWith] in the sources. *)
Fixpoint endsWithChar (s : string) (c : ascii) : bool :=
  match s with
  | EmptyString => false
  | String x EmptyString => Ascii.eqb x c
  | String _ t => endsWithChar t c
  end.

(** [s.slice(0, -1)]: everything but the last character. *)
Fixpoint dropLast (s : string) : string :=
  match s with
  | EmptyString => EmptyString
  | String _ EmptyString => EmptyString
  | String c t => String c (dropLast t)
  end.

(** [s.includes(sub)]. *)
Fixpoint includes (s sub : string) : bool :=
  if String.prefix sub s then true
  else match s with
       | EmptyString => false
       | String _ t => includes t sub
       end.

(** [s.split(c)] for a one-character separator: never empty. *)
Fixpoint split (sep : ascii) (s : string) : list string :=
  match s with
  | EmptyString => [EmptyString]
  | String c t =>
      if Ascii.eqb c sep then EmptyString :: split sep t
      else match split sep t with
           | [] => [String c EmptyString]
           | p :: ps => String c p :: ps
           end
  end.

(** [xs.pop()] on a fresh array: its last element. *)
Definition lastPart (xs : list string) : string := List.last xs EmptyString.

(** White space removed by [trim] (ASCII part). *)
Definition is_space (c : ascii) : bool :=
  let n := nat_of_ascii c in ((n =? 32) || ((9 <=? n) && (n <=? 13)))%nat.

Fixpoint trimStart (s : string) : string :=
  match s with
  | String c t => if is_space c then trimStart t else s
  | EmptyString => EmptyString
  end.

Fixpoint trimEnd (s : string) : string :=
  match s with
  | EmptyString => EmptyString
  | String c t =>
      match trimEnd t with
      | EmptyString => if is_space c then EmptyString else String c EmptyString
      | t' => String c t'
      end
  end.

(** [s.trim()] on ASCII text. *)
Definition trim (s : string) : string := trimEnd (trimStart s).

(** [xs.join(sep)]. *)
Definition join (sep : string) (xs : list string) : string :=
  String.concat sep xs.

(** Template rendering of a number, as in [`${roles.length}`]. *)
Definition ofNat (n : nat) : string :=
  NilEmpty.string_of_uint (Nat.to_uint n).

(** A string is falsy exactly when it is empty. *)
Definition truthy (s : string) : bool :=
  match s with EmptyString => false | _ => true end.

(** An optional string property is falsy when absent or empty. *)
Definition truthyOpt (o : option string) : bool :=
  match o with None => false | Some s => truthy s end.

(** The names that pass an [if (name)] test (or [.filter(Boolean)]):
    neither [null] nor empty. *)
Definition truthyNames (names : list (option string)) : list string :=
  flat_map (fun n => match n with
                     | Some s => if truthy s then [s] else []
                     | None => []
                     end) names.

(** The results that are not [null], in order. *)
Definition somes {A} (xs : list (option A)) : list A :=
  flat_map (fun x => match x with Some a => [a] | None => [] end) xs.

End Js.

(* ================================================================= *)
(** ** Core models *)

(** [core/models/http-method.ts] *)
Inductive HttpMethod :=
  GET | POST | PUT | DELETE | PATCH | OPTIONS | HEAD | ALL.

Definition HttpMethod_value (m : HttpMethod) : string :=
  match m with
  | GET => "GET" | POST => "POST" | PUT => "PUT" | DELETE => "DELETE"
  | PATCH => "PATCH" | OPTIONS => "OPTIONS" | HEAD => "HEAD" | ALL => "ALL"
  end.

Definition allHttpMethods : list HttpMethod :=
  [GET; POST; PUT; DELETE; PATCH; OPTIONS; HEAD; ALL].

Definition isWriteMethod (m : HttpMethod) : bool :=
  match m with
  | POST | PUT | DELETE | PATCH => true
  | _ => false
  end.

Definition parseHttpMethod (value : string) : option HttpMethod :=
  let normalized := Js.toUpperCase value in
  List.find (fun m => String.eqb (HttpMethod_value m) normalized) allHttpMethods.

(** [core/models/endpoint-type.ts] *)
Inductive EndpointType := Express | NestJS | Fastify | Koa.

(** [core/models/severity.ts] *)
Inductive Severity := Info | Low | Medium | High | Critical.

(** [core/models/security-classification.ts] *)
Inductive SecurityClassification :=
  Public | Authenticated | RoleRestricted | PolicyRestricted.

(** [core/models/source-location.ts] *)
Module SourceLocation.
Record t := mk { filePath : string; line : nat; column : nat }.
End SourceLocation.

(** [core/models/authorization-info.ts] *)
Module AuthorizationInfo.
Record t := mk {
  isAuthenticated : bool;
  isExplicitlyPublic : bool;
  roles : list string;
  policies : list string;
  middlewareChain : list string;
  guardNames : list string;
  classification : SecurityClassification
}.

Definition set_isAuthenticated (b : bool) (a : t) : t :=
  mk b (isExplicitlyPublic a) (roles a) (policies a)
     (middlewareChain a) (guardNames a) (classification a).
Definition set_isExplicitlyPublic (b : bool) (a : t) : t :=
  mk (isAuthenticated a) b (roles a) (policies a)
     (middlewareChain a) (guardNames a) (classification a).
Definition set_roles (r : list string) (a : t) : t :=
  mk (isAuthenticated a) (isExplicitlyPublic a) r (policies a)
     (middlewareChain a) (guardNames a) (classification a).
Definition set_policies (p : list string) (a : t) : t :=
  mk (isAuthenticated a) (isExplicitlyPublic a) (roles a) p
     (middlewareChain a) (guardNames a) (classification a).
Definition set_middlewareChain (m : list string) (a : t) : t :=
  mk (isAuthenticated a) (isExplicitlyPublic a) (roles a) (policies a)
     m (guardNames a) (classification a).
Definition set_guardNames (g : list string) (a : t) : t :=
  mk (isAuthenticated a) (isExplicitlyPublic a) (roles a) (policies a)
     (middlewareChain a) g (classification a).
Definition set_classification (c : SecurityClassification) (a : t) : t :=
  mk (isAuthenticated a) (isExplicitlyPublic a) (roles a) (policies a)
     (middlewareChain a) (guardNames a) c.
End AuthorizationInfo.

Definition createDefaultAuthorizationInfo : AuthorizationInfo.t :=
  AuthorizationInfo.mk false false [] [] [] [] Public.

(** The argument type omits [classification]; the field of the record
    passed in is never read. *)
Definition determineClassification (auth : AuthorizationInfo.t)
  : SecurityClassification :=
  if (0 <? List.length (AuthorizationInfo.policies auth))%nat then PolicyRestricted
  else if (0 <? List.length (AuthorizationInfo.roles auth))%nat then RoleRestricted
  else if AuthorizationInfo.isAuthenticated auth then Authenticated
  else Public.

(** [core/models/endpoint.ts] *)
Module Endpoint.
Record t := mk {
  route : string;
  method : HttpMethod;
  handlerName : string;
  controllerName : option string;
  type : EndpointType;
  location : SourceLocation.t;
  authorization : AuthorizationInfo.t
}.
End Endpoint.

(** [createEndpoint]: the optional parts default to ['anonymous'] and to
    the default authorization. *)
Definition createEndpoint (route : string) (method : HttpMethod)
    (handlerName : option string) (controllerName : option string)
    (type : EndpointType) (location : SourceLocation.t)
    (authorization : option AuthorizationInfo.t) : Endpoint.t :=
  Endpoint.mk route method
    (match handlerName with Some h => h | None => "anonymous" end)
    controllerName type location
    (match authorization with
     | Some a => a
     | None => createDefaultAuthorizationInfo
     end).

(** [core/models/finding.ts] *)
Module Finding.
Record t := mk {
  ruleId : string;
  ruleName : string;
  severity : Severity;
  message : string;
  endpoint : Endpoint.t;
  location : SourceLocation.t;
  recommendation : string;
  suppressed : bool;
  suppressionReason : option string
}.
End Finding.

(** [createFinding] as every rule calls it: [suppressed] and
    [suppressionReason] are not supplied. *)
Definition createFinding (ruleId ruleName : string) (severity : Severity)
    (message : string) (endpoint : Endpoint.t) (location : SourceLocation.t)
    (recommendation : string) : Finding.t :=
  Finding.mk ruleId ruleName severity message endpoint location
             recommendation false None.

(* ================================================================= *)
(** ** Regular expressions

    Every regular expression of the sources is a sequence of quantified
    one-character atoms, at most one capture group, optionally anchored
    at either end.  [run] is the backtracking matcher: a greedy
    quantifier first tries to take one more character, a lazy one first
    tries to stop. *)

Module Regex.

Inductive quant := One | Opt | Star | Plus.

Record item := mkItem {
  accepts : ascii -> bool;
  rep : quant;
  greedy : bool;
  captured : bool
}.

Record t := mk { fromStart : bool; items : list item; toEnd : bool }.

Definition keep (it : item) (c : ascii) (r : option string) : option string :=
  if captured it then option_map (String c) r else r.

(** [more it k s]: the item [it] any number of times, then the rest of
    the expression [k]. *)
Fixpoint more (it : item) (k : string -> option string) (s : string)
  : option string :=
  match s with
  | String c s' =>
      if accepts it c then
        if greedy it then
          match keep it c (more it k s') with
          | Some r => Some r
          | None => k s
          end
        else
          match k s with
          | Some r => Some r
          | None => keep it c (more it k s')
          end
      else k s
  | EmptyString => k s
  end.

(** One quantified item in front of the rest [k]. *)
Definition step (it : item) (k : string -> option string) (s : string)
  : option string :=
  match rep it with
  | One =>
      match s with
      | String c s' => if accepts it c then keep it c (k s') else None
      | EmptyString => None
      end
  | Opt =>
      match s with
      | String c s' =>
          if accepts it c then
            if greedy it then
              match keep it c (k s') with
              | Some r => Some r
              | None => k s
              end
            else
              match k s with
              | Some r => Some r
              | None => keep it c (k s')
              end
          else k s
      | EmptyString => k s
      end
  | Star => more it k s
  | Plus =>
      match s with
      | String c s' => if accepts it c then keep it c (more it k s') else None
      | EmptyString => None
      end
  end.

(** [run fin its s]: match [its] against a prefix of [s], the rest of
    the input having to satisfy [fin]; the result is the text taken by
    the captured items. *)
Fixpoint run (fin : string -> bool) (its : list item) : string -> option string :=
  match its with
  | [] => fun s => if fin s then Some EmptyString else None
  | it :: rest => step it (run fin rest)
  end.

Definition atEnd (s : string) : bool :=
  match s with EmptyString => true | _ => false end.

Definition fin_of (r : t) : string -> bool :=
  if toEnd r then atEnd else fun _ => true.

(** Leftmost match: every start position in turn. *)
Fixpoint search (fin : string -> bool) (its : list item) (s : string)
  : option string :=
  match run fin its s with
  | Some r => Some r
  | None =>
      match s with
      | EmptyString => None
      | String _ s' => search fin its s'
      end
  end.

(** [s.match(r)] for a regular expression without the [g] flag,
    reduced to what the callers read: group 1 of the leftmost match
    (the empty string when the expression has no group). *)
Definition exec (r : t) (s : string) : option string :=
  if fromStart r then run (fin_of r) (items r) s
  else search (fin_of r) (items r) s.

(** [r.test(s)]. *)
Definition test (r : t) (s : string) : bool :=
  match exec r s with Some _ => true | None => false end.

(** Atoms. *)
Definition chr (c : ascii) : item := mkItem (Ascii.eqb c) One true false.

(** A letter under the [i] flag. *)
Definition chr_i (c : ascii) : item :=
  mkItem (fun x => Ascii.eqb (Js.lower_char x) (Js.lower_char c)) One true false.

Fixpoint word_i (w : string) : list item :=
  match w with
  | EmptyString => []
  | String c t => chr_i c :: word_i t
  end.

(** [/w/i], [/^w/i] and [/^w$/i] for a literal word [w]. *)
Definition contains_i (w : string) : t := mk false (word_i w) false.
Definition starts_i (w : string) : t := mk true (word_i w) false.
Definition whole_i (w : string) : t := mk true (word_i w) true.

(** [patterns.some((p) => p.test(s))]. *)
Definition some (patterns : list t) (s : string) : bool :=
  existsb (fun p => test p s) patterns.

(** *** [new RegExp(source)]

    The sources build one expression at run time (the suppression
    matcher).  Its text is made of literal characters, backslash
    escapes of syntax characters, the quantifiers [*] and [?] (each
    possibly followed by the lazy mark [?]), a leading [^] and a
    trailing [$]; [compile] covers exactly this fragment. *)

Inductive token := TLit (c : ascii) | TStar | TQuest | TCaret | TDollar | TOther.

Definition is_syntax_char (c : ascii) : bool :=
  existsb (Ascii.eqb c)
    ["^"; "$"; "\"; "."; "*"; "+"; "?"; "("; ")"; "["; "]"; "{"; "}"; "|"; "/"]%char.

Inductive compiled :=
| Compiled (r : t)
| SyntaxError
| OutsideFragment.

(** The token of a character that follows a backslash: only the
    escapes of syntax characters are in the fragment. *)
Definition escapedToken (e : ascii) : token :=
  if is_syntax_char e then TLit e else TOther.

(** The token of a character that no backslash precedes. *)
Definition plainToken (c : ascii) : token :=
  if Ascii.eqb c "*"%char then TStar
  else if Ascii.eqb c "?"%char then TQuest
  else if Ascii.eqb c "^"%char then TCaret
  else if Ascii.eqb c "$"%char then TDollar
  else if is_syntax_char c && negb (Ascii.eqb c "/"%char) then TOther
  else TLit c.

(** [None]: a backslash ends the pattern. *)
Fixpoint tokenize (s : string) : option (list token) :=
  match s with
  | EmptyString => Some []
  | String c t =>
      if Ascii.eqb c "\"%char then
        match t with
        | EmptyString => None
        | String e t' => option_map (cons (escapedToken e)) (tokenize t')
        end
      else option_map (cons (plainToken c)) (tokenize t)
  end.

Inductive terms :=
| Terms (its : list item) (toEnd : bool)
| BadTerms (outside : bool).

Definition consTerm (it : item) (r : terms) : terms :=
  match r with
  | Terms its e => Terms (it :: its) e
  | BadTerms o => BadTerms o
  end.

Definition lit (c : ascii) (q : quant) (g : bool) : item :=
  mkItem (Ascii.eqb c) q g false.

(** A quantifier with nothing to repeat is a syntax error. *)
Fixpoint parseTerms (ts : list token) : terms :=
  match ts with
  | [] => Terms [] false
  | TLit c :: rest =>
      match rest with
      | TStar :: TQuest :: rest' => consTerm (lit c Star false) (parseTerms rest')
      | TStar :: rest' => consTerm (lit c Star true) (parseTerms rest')
      | TQuest :: TQuest :: rest' => consTerm (lit c Opt false) (parseTerms rest')
      | TQuest :: rest' => consTerm (lit c Opt true) (parseTerms rest')
      | _ => consTerm (lit c One true) (parseTerms rest)
      end
  | TStar :: _ => BadTerms false
  | TQuest :: _ => BadTerms false
  | [TDollar] => Terms [] true
  | _ => BadTerms true
  end.

Definition compileTokens (ts : list token) : compiled :=
  let '(start, body) :=
    match ts with
    | TCaret :: rest => (true, rest)
    | _ => (false, ts)
    end in
  match parseTerms body with
  | Terms its e => Compiled (mk start its e)
  | BadTerms true => OutsideFragment
  | BadTerms false => SyntaxError
  end.

Definition compile (source : string) : compiled :=
  match tokenize source with
  | None => SyntaxError
  | Some ts => compileTokens ts
  end.

End Regex.

(* ================================================================= *)
(** ** Rule catalogue ([rules/]) *)

(** [rules/rule-interface.ts] *)
Module SecurityRule.
Record t := mk {
  id : string;
  name : string;
  description : string;
  severity : Severity;
  evaluate : Endpoint.t -> list Finding.t
}.
End SecurityRule.

Module RuleConfig.
Record t := mk { enabled : bool; severity : option Severity }.
End RuleConfig.

(** The text [`${endpoint.method} ${endpoint.route}`] every message
    starts with. *)
Definition methodAndRoute (endpoint : Endpoint.t) : string :=
  HttpMethod_value (Endpoint.method endpoint) ++ " " ++ Endpoint.route endpoint.

(** AP001, [rules/exposure/public-without-explicit-intent.ts] *)
Module PublicWithoutExplicitIntent.
Definition id := "AP001".
Definition name := "Public without explicit intent".
Definition description :=
  "Endpoint is publicly accessible without explicit @Public or allowAnonymous marker".
Definition severity := High.

Definition getRecommendation (endpoint : Endpoint.t) : string :=
  match Endpoint.type endpoint with
  | Express =>
      "Add authentication middleware (e.g., passport.authenticate) or " ++
      "mark as explicitly public with allowAnonymous middleware if intentional."
  | NestJS =>
      "Add @UseGuards(AuthGuard) to require authentication, or " ++
      "add @Public() decorator if public access is intentional."
  | Fastify =>
      "Add preHandler hook for authentication or " ++
      "mark as explicitly public if intentional."
  | Koa =>
      "Add authentication middleware or " ++
      "mark as explicitly public if intentional."
  end.

Definition evaluate (endpoint : Endpoint.t) : list Finding.t :=
  let auth := Endpoint.authorization endpoint in
  match AuthorizationInfo.classification auth with
  | Public =>
      if negb (AuthorizationInfo.isExplicitlyPublic auth)
         && negb (AuthorizationInfo.isAuthenticated auth)
         && (List.length (AuthorizationInfo.guardNames auth) =? 0)%nat
      then
        [createFinding id name severity
           (methodAndRoute endpoint ++ " is publicly accessible without explicit intent")
           endpoint (Endpoint.location endpoint) (getRecommendation endpoint)]
      else []
  | _ => []
  end.

Definition rule : SecurityRule.t :=
  SecurityRule.mk id name description severity evaluate.
End PublicWithoutExplicitIntent.

(** AP002, [rules/exposure/allow-anonymous-on-write.ts] *)
Module AllowAnonymousOnWrite.
Definition id := "AP002".
Definition name := "AllowAnonymous on write operation".
Definition description :=
  "Write operation (POST/PUT/DELETE/PATCH) is explicitly marked as public".
Definition severity := High.

Definition getRecommendation (endpoint : Endpoint.t) : string :=
  "Write operations like " ++ HttpMethod_value (Endpoint.method endpoint) ++
  " typically require authentication. " ++
  "If public access is truly needed (e.g., user registration, contact form), " ++
  "consider adding rate limiting and input validation. " ++
  "Otherwise, remove the public marker and add authentication.".

Definition evaluate (endpoint : Endpoint.t) : list Finding.t :=
  let auth := Endpoint.authorization endpoint in
  if isWriteMethod (Endpoint.method endpoint)
     && AuthorizationInfo.isExplicitlyPublic auth
  then
    [createFinding id name severity
       (methodAndRoute endpoint ++ " is a write operation explicitly marked as public")
       endpoint (Endpoint.location endpoint) (getRecommendation endpoint)]
  else [].

Definition rule : SecurityRule.t :=
  SecurityRule.mk id name description severity evaluate.
End AllowAnonymousOnWrite.

(** AP003, [rules/consistency/controller-action-conflict.ts] *)
Module ControllerActionConflict.
Definition id := "AP003".
Definition name := "Controller/action authorization conflict".
Definition description :=
  "Method-level public marker overrides class-level authentication guards".
Definition severity := Medium.

Definition evaluate (endpoint : Endpoint.t) : list Finding.t :=
  match Endpoint.type endpoint with
  | NestJS =>
      let auth := Endpoint.authorization endpoint in
      if AuthorizationInfo.isAuthenticated auth
         && AuthorizationInfo.isExplicitlyPublic auth
      then
        [createFinding id name severity
           (methodAndRoute endpoint ++ " has @Public overriding class-level guards")
           endpoint (Endpoint.location endpoint)
           ("This endpoint has @Public decorator that overrides class-level @UseGuards. " ++
            "Ensure this is intentional. If the endpoint should be public, consider " ++
            "documenting why. If not, remove the @Public decorator.")]
      else []
  | _ => []
  end.

Definition rule : SecurityRule.t :=
  SecurityRule.mk id name description severity evaluate.
End ControllerActionConflict.

(** AP004, [rules/consistency/missing-auth-on-writes.ts] *)
Module MissingAuthOnWrites.
Definition id := "AP004".
Definition name := "Missing authentication on write operations".
Definition description :=
  "Write operation has no authentication and no explicit public marker".
Definition severity := Critical.

Definition getRecommendation (endpoint : Endpoint.t) : string :=
  match Endpoint.type endpoint with
  | Express =>
      "CRITICAL: Add authentication middleware immediately. " ++
      "Example: router.post(" ++ Js.quoted "/path" ++
      ", passport.authenticate(" ++ Js.quoted "jwt" ++ "), handler)"
  | NestJS =>
      "CRITICAL: Add @UseGuards(AuthGuard) decorator immediately. " ++
      "If this endpoint must be public, add @Public() to make intent explicit."
  | Fastify =>
      "CRITICAL: Add authentication via preHandler hook. " ++
      "Example: { preHandler: [fastify.authenticate] }"
  | Koa => "CRITICAL: Add authentication middleware before the route handler."
  end.

Definition evaluate (endpoint : Endpoint.t) : list Finding.t :=
  let auth := Endpoint.authorization endpoint in
  if isWriteMethod (Endpoint.method endpoint) then
    match AuthorizationInfo.classification auth with
    | Public =>
        if negb (AuthorizationInfo.isAuthenticated auth)
           && negb (AuthorizationInfo.isExplicitlyPublic auth)
        then
          [createFinding id name severity
             (methodAndRoute endpoint ++ " is an unprotected write operation")
             endpoint (Endpoint.location endpoint) (getRecommendation endpoint)]
        else []
    | _ => []
    end
  else [].

Definition rule : SecurityRule.t :=
  SecurityRule.mk id name description severity evaluate.
End MissingAuthOnWrites.

(** AP005, [rules/privilege/excessive-role-access.ts] *)
Module ExcessiveRoleAccess.
Definition id := "AP005".
Definition name := "Excessive role access".
Definition description := "Endpoint allows more than 3 roles".
Definition severity := Low.
Definition maxRoles : nat := 3.

Definition evaluate (endpoint : Endpoint.t) : list Finding.t :=
  let roles := AuthorizationInfo.roles (Endpoint.authorization endpoint) in
  if (maxRoles <? List.length roles)%nat then
    [createFinding id name severity
       (methodAndRoute endpoint ++ " allows " ++ Js.ofNat (List.length roles) ++
        " roles: " ++ Js.join ", " roles)
       endpoint (Endpoint.location endpoint)
       ("This endpoint allows " ++ Js.ofNat (List.length roles) ++
        " different roles which may indicate " ++
        "overly permissive access. Consider: (1) Creating a permission-based system " ++
        "instead of role-based, (2) Creating role hierarchies, or (3) Using policies " ++
        "to combine related access patterns.")]
  else [].

Definition rule : SecurityRule.t :=
  SecurityRule.mk id name description severity evaluate.
End ExcessiveRoleAccess.

(** AP006, [rules/privilege/weak-role-naming.ts] *)
Module WeakRoleNaming.
Definition id := "AP006".
Definition name := "Weak role naming".
Definition description := "Role names are too generic or weak".
Definition severity := Low.

Definition weakPatterns : list Regex.t :=
  map Regex.whole_i
    ["user"; "admin"; "guest"; "member"; "moderator"; "manager"; "superuser";
     "root"; "default"; "basic"; "standard"; "premium"; "vip"].

(** [weakRoles[0]] inside a template: the array is non-empty where it
    is read. *)
Definition first (xs : list string) : string := List.hd EmptyString xs.

Definition evaluate (endpoint : Endpoint.t) : list Finding.t :=
  let roles := AuthorizationInfo.roles (Endpoint.authorization endpoint) in
  let weakRoles := filter (Regex.some weakPatterns) roles in
  if (0 <? List.length weakRoles)%nat then
    [createFinding id name severity
       (methodAndRoute endpoint ++ " uses generic role names: " ++
        Js.join ", " weakRoles)
       endpoint (Endpoint.location endpoint)
       ("Consider using more descriptive role names that indicate specific permissions " ++
        "or responsibilities. Instead of " ++ Js.quoted (first weakRoles) ++
        ", consider names like " ++
        Js.quoted "billing-admin" ++ ", " ++ Js.quoted "content-editor" ++ ", " ++
        Js.quoted "inventory-manager" ++ ", or " ++ Js.quoted "read-only-analyst" ++ ".")]
  else [].

Definition rule : SecurityRule.t :=
  SecurityRule.mk id name description severity evaluate.
End WeakRoleNaming.

(** AP007, [rules/surface/sensitive-route-keywords.ts] *)
Module SensitiveRouteKeywords.
Definition id := "AP007".
Definition name := "Sensitive route keywords".
Definition description := "Public route contains sensitive keywords".
Definition severity := Medium.

Definition sensitiveKeywords : list string :=
  ["admin"; "debug"; "internal"; "export"; "import"; "backup"; "config";
   "settings"; "system"; "management"; "dashboard"; "metrics"; "logs";
   "audit"; "secret"; "private"; "hidden"; "test"; "dev"; "staging"].

Definition evaluate (endpoint : Endpoint.t) : list Finding.t :=
  let auth := Endpoint.authorization endpoint in
  match AuthorizationInfo.classification auth with
  | Public =>
      let routeLower := Js.toLowerCase (Endpoint.route endpoint) in
      let foundKeywords := filter (Js.includes routeLower) sensitiveKeywords in
      if (0 <? List.length foundKeywords)%nat then
        [createFinding id name severity
           (methodAndRoute endpoint ++
            " is public but contains sensitive keywords: " ++
            Js.join ", " foundKeywords)
           endpoint (Endpoint.location endpoint)
           ("Routes containing " ++ Js.quoted (WeakRoleNaming.first foundKeywords) ++
            " typically indicate sensitive functionality " ++
            "that should require authentication. Add authentication middleware or guards, " ++
            "or rename the route if it is truly meant to be public.")]
      else []
  | _ => []
  end.

Definition rule : SecurityRule.t :=
  SecurityRule.mk id name description severity evaluate.
End SensitiveRouteKeywords.

(** AP008, [rules/surface/unprotected-endpoint.ts] *)
Module UnprotectedEndpoint.
Definition id := "AP008".
Definition name := "Unprotected endpoint".
Definition description := "Endpoint has no middleware chain for protection".
Definition severity := High.

Definition getRecommendation (endpoint : Endpoint.t) : string :=
  match Endpoint.type endpoint with
  | Express =>
      "This endpoint has no middleware. Consider adding: " ++
      "(1) Authentication middleware, (2) Rate limiting, (3) Input validation, " ++
      "(4) Request logging. Example: app.get(" ++ Js.quoted "/path" ++
      ", auth, validate, handler)"
  | NestJS =>
      "This endpoint has no guards or interceptors. Consider adding: " ++
      "(1) @UseGuards() for authentication, (2) @UseInterceptors() for logging, " ++
      "(3) @UsePipes() for validation."
  | Fastify =>
      "This endpoint has no hooks. Consider adding preHandler hooks for " ++
      "authentication, validation, and logging."
  | Koa =>
      "This endpoint has no middleware chain. Consider adding middleware for " ++
      "authentication, validation, and error handling."
  end.

Definition evaluate (endpoint : Endpoint.t) : list Finding.t :=
  let auth := Endpoint.authorization endpoint in
  match AuthorizationInfo.classification auth with
  | Public =>
      if (List.length (AuthorizationInfo.middlewareChain auth) =? 0)%nat
         && (List.length (AuthorizationInfo.guardNames auth) =? 0)%nat
         && negb (AuthorizationInfo.isExplicitlyPublic auth)
      then
        [createFinding id name severity
           (methodAndRoute endpoint ++ " has no middleware chain")
           endpoint (Endpoint.location endpoint) (getRecommendation endpoint)]
      else []
  | _ => []
  end.

Definition rule : SecurityRule.t :=
  SecurityRule.mk id name description severity evaluate.
End UnprotectedEndpoint.

(** [rules/rule-engine.ts] *)
Module RuleEngine.

(** [config?.rules]: a lookup from rule id to its configuration. *)
Definition RuleEngineConfig := option (string -> option RuleConfig.t).

Definition allRules : list SecurityRule.t :=
  [ PublicWithoutExplicitIntent.rule;
    AllowAnonymousOnWrite.rule;
    ControllerActionConflict.rule;
    MissingAuthOnWrites.rule;
    ExcessiveRoleAccess.rule;
    WeakRoleNaming.rule;
    SensitiveRouteKeywords.rule;
    UnprotectedEndpoint.rule ].

Definition ruleConfigOf (config : RuleEngineConfig) (id : string)
  : option RuleConfig.t :=
  match config with
  | None => None
  | Some rules => rules id
  end.

(** [ruleConfig?.enabled === false] *)
Definition disabled (c : option RuleConfig.t) : bool :=
  match c with
  | Some rc => negb (RuleConfig.enabled rc)
  | None => false
  end.

(** The constructor: the engine's state is its list of rules. *)
Definition initializeRules (config : RuleEngineConfig) : list SecurityRule.t :=
  filter (fun rule => negb (disabled (ruleConfigOf config (SecurityRule.id rule))))
         allRules.

Definition evaluate (rules : list SecurityRule.t) (endpoints : list Endpoint.t)
  : list Finding.t :=
  flat_map
    (fun endpoint => flat_map (fun rule => SecurityRule.evaluate rule endpoint) rules)
    endpoints.

Definition getRules (rules : list SecurityRule.t) : list SecurityRule.t := rules.

Definition getRuleById (rules : list SecurityRule.t) (id : string)
  : option SecurityRule.t :=
  List.find (fun r => String.eqb (SecurityRule.id r) id) rules.

End RuleEngine.

(* ================================================================= *)
(** ** Suppression matcher ([core/config/]) *)

Module SuppressionConfig.
Record t := mk {
  ruleId : option string;
  route : option string;
  routePattern : option string;
  method : option string;
  reason : string
}.
End SuppressionConfig.

Module SuppressionMatcher.

(** [s.replace(/lit/g, by)] for a literal, non-empty text [lit]:
    occurrences are replaced from the left, without overlap.  [skip]
    counts the characters of the current occurrence still to pass. *)
Fixpoint replaceFrom (lit by_ : string) (skip : nat) (s : string) : string :=
  match s with
  | EmptyString => EmptyString
  | String c t =>
      match skip with
      | S k => replaceFrom lit by_ k t
      | O =>
          if String.prefix lit s
          then by_ ++ replaceFrom lit by_ (String.length lit - 1) t
          else String c (replaceFrom lit by_ O t)
      end
  end.

Definition replaceAll (lit by_ : string) (s : string) : string :=
  replaceFrom lit by_ O s.

(** The class [[.+^${}()|[\]\\]]. *)
Definition isEscaped (c : ascii) : bool :=
  existsb (Ascii.eqb c)
    ["."; "+"; "^"; "$"; "{"; "}"; "("; ")"; "|"; "["; "]"; "\"]%char.

(** [s.replace(/[.+^${}()|[\]\\]/g, '\\$&')]: a backslash before
    every character of the class. *)
Fixpoint escapeSpecials (s : string) : string :=
  match s with
  | EmptyString => EmptyString
  | String c t =>
      if isEscaped c then String "\"%char (String c (escapeSpecials t))
      else String c (escapeSpecials t)
  end.

(** The text handed to [new RegExp]. *)
Definition regexSource (pattern : string) : string :=
  let regexPattern :=
    replaceAll "<<<DOUBLE_STAR>>>" ".*"
      (replaceAll "*" "[^/]+"
         (replaceAll "**" "<<<DOUBLE_STAR>>>" pattern)) in
  let regexPattern := escapeSpecials regexPattern in
  "^" ++ regexPattern ++ "$".

(** [try { new RegExp(..).test(route) } catch { false }].  A source
    text outside the modelled fragment cannot arise, see
    [regexSource_in_fragment]. *)
Definition matchesRoutePattern (pattern route : string) : bool :=
  match Regex.compile (regexSource pattern) with
  | Regex.Compiled regex => Regex.test regex route
  | Regex.SyntaxError => false
  | Regex.OutsideFragment => false
  end.

Definition matchesEndpoint (suppression : SuppressionConfig.t)
    (endpoint : Endpoint.t) (ruleId : string) : bool :=
  match SuppressionConfig.ruleId suppression with
  | Some r => negb (Js.truthy r && negb (String.eqb r ruleId))
  | None => true
  end
  &&
  match SuppressionConfig.method suppression with
  | Some m =>
      negb (Js.truthy m &&
            negb (String.eqb (Js.toUpperCase m)
                             (HttpMethod_value (Endpoint.method endpoint))))
  | None => true
  end
  &&
  match SuppressionConfig.route suppression with
  | Some r => negb (Js.truthy r && negb (String.eqb r (Endpoint.route endpoint)))
  | None => true
  end
  &&
  match SuppressionConfig.routePattern suppression with
  | Some p =>
      if Js.truthy p then matchesRoutePattern p (Endpoint.route endpoint)
      else true
  | None => true
  end.

Definition matchesFinding (suppression : SuppressionConfig.t)
    (finding : Finding.t) : bool :=
  matchesEndpoint suppression (Finding.endpoint finding) (Finding.ruleId finding).

(** The matcher's state is its list of suppressions. *)
Definition findMatchingSuppression (suppressions : list SuppressionConfig.t)
    (finding : Finding.t) : option SuppressionConfig.t :=
  List.find (fun s => matchesFinding s finding) suppressions.

Definition isEndpointSuppressed (suppressions : list SuppressionConfig.t)
    (endpoint : Endpoint.t) (ruleId : string) : option SuppressionConfig.t :=
  List.find (fun s => matchesEndpoint s endpoint ruleId) suppressions.

(** [{ ...finding, suppressed: true, suppressionReason: reason }] *)
Definition suppress (finding : Finding.t) (reason : string) : Finding.t :=
  Finding.mk (Finding.ruleId finding) (Finding.ruleName finding)
    (Finding.severity finding) (Finding.message finding)
    (Finding.endpoint finding) (Finding.location finding)
    (Finding.recommendation finding) true (Some reason).

Definition applySuppressionsToFindings
    (suppressions : list SuppressionConfig.t) (findings : list Finding.t)
  : list Finding.t :=
  map (fun finding =>
         match findMatchingSuppression suppressions finding with
         | Some suppression => suppress finding (SuppressionConfig.reason suppression)
         | None => finding
         end)
      findings.

End SuppressionMatcher.

(* ================================================================= *)
(** ** Mount registry ([core/discovery/route-group-registry.ts]) *)

Module RouteGroup.
Record t := mk {
  prefix : string;
  middlewares : list string;
  variableName : string;
  filePath : string
}.
End RouteGroup.

Module Mount.
Record t := mk { prefix : string; routerName : string }.
End Mount.

Module RouteGroupRegistry.

(** A JavaScript [Map] from keys to arrays, entries in insertion
    order. *)
Definition jsmap (V : Type) := list (string * list V).

Fixpoint get {V} (m : jsmap V) (key : string) : option (list V) :=
  match m with
  | [] => None
  | (k, vs) :: rest => if String.eqb k key then Some vs else get rest key
  end.

(** [if (!m.has(key)) m.set(key, []); m.get(key).push(v)] *)
Fixpoint push {V} (m : jsmap V) (key : string) (v : V) : jsmap V :=
  match m with
  | [] => [(key, [v])]
  | (k, vs) :: rest =>
      if String.eqb k key then (k, (vs ++ [v])%list) :: rest
      else (k, vs) :: push rest key v
  end.

Record t := mk {
  groups : jsmap RouteGroup.t;
  routerMounts : jsmap Mount.t
}.

Definition empty : t := mk [] [].

Definition makeKey (filePath variableName : string) : string :=
  filePath ++ "::" ++ variableName.

Definition registerGroup (reg : t) (filePath variableName prefix : string)
    (middlewares : list string) : t :=
  let key := makeKey filePath variableName in
  let group := RouteGroup.mk prefix middlewares variableName filePath in
  mk (push (groups reg) key group) (routerMounts reg).

Definition registerRouterMount (reg : t)
    (filePath appVariableName prefix routerName : string) : t :=
  let key := makeKey filePath appVariableName in
  mk (groups reg) (push (routerMounts reg) key (Mount.mk prefix routerName)).

(** [groups?.[groups.length - 1]] *)
Definition getGroup (reg : t) (filePath variableName : string)
  : option RouteGroup.t :=
  match get (groups reg) (makeKey filePath variableName) with
  | Some gs => List.last (map Some gs) None
  | None => None
  end.

(** The loop over the map's entries; [filePath] is not consulted. *)
Fixpoint scanMounts (entries : jsmap Mount.t) (routerName : string) : string :=
  match entries with
  | [] => EmptyString
  | (_, mounts) :: rest =>
      match List.find (fun m => String.eqb (Mount.routerName m) routerName) mounts with
      | Some mount => Mount.prefix mount
      | None => scanMounts rest routerName
      end
  end.

Definition getRouterPrefix (reg : t) (filePath routerName : string) : string :=
  scanMounts (routerMounts reg) routerName.

Definition getAllMiddlewares (reg : t) (filePath variableName : string)
  : list string :=
  match getGroup reg filePath variableName with
  | Some group => RouteGroup.middlewares group
  | None => []
  end.

Definition clear (reg : t) : t := empty.

End RouteGroupRegistry.

(* ================================================================= *)
(** ** Parsed source units

    The part of the TypeScript syntax tree the discoverers look at.  A
    property access keeps the text [getText] returns for it; a call
    node keeps the zero-based line and character of its start. *)

Module Ts.

#[warnings="-register-all"]
Inductive Expression :=
| Identifier (text : string)
| StringLiteral (text : string)
| NoSubstitutionTemplateLiteral (text : string)
| TemplateExpression (head : string) (spanLiterals : list string)
| PropertyAccessExpression (expression : Expression) (name : string)
                           (sourceText : string)
| CallExpression (expression : Expression) (arguments : list Expression)
| ArrayLiteralExpression (elements : list Expression)
| ObjectLiteralExpression (properties : list Property)
| ArrowFunction
| FunctionExpression
| OtherExpression
with Property :=
| PropertyAssignment (identifierName : option string) (initializer : Expression)
| OtherProperty.

Module CallNode.
Record t := mk {
  expression : Expression;
  arguments : list Expression;
  line : nat;
  character : nat
}.
End CallNode.

Module Decorator.
Record t := mk { expression : Expression }.
End Decorator.

Inductive Name :=
| IdentifierName (text : string)
| OtherName (sourceText : string).

Module MethodDeclaration.
Record t := mk {
  name : Name;
  decorators : list Decorator.t;
  line : nat;
  character : nat
}.
End MethodDeclaration.

Inductive ClassElement :=
| Method (m : MethodDeclaration.t)
| OtherElement.

Module ClassDeclaration.
Record t := mk {
  name : option string;
  decorators : list Decorator.t;
  members : list ClassElement
}.
End ClassDeclaration.

Inductive Statement :=
| Class (c : ClassDeclaration.t)
| OtherStatement.

End Ts.

(** [core/analysis/source-file-loader.ts], the tree helpers. *)
Module Loader.
Import Ts.

Definition getLineAndColumn (line character : nat) : nat * nat :=
  (line + 1, character + 1).

Definition getDecoratorName (decorator : Decorator.t) : option string :=
  match Decorator.expression decorator with
  | Identifier text => Some text
  | CallExpression (Identifier text) _ => Some text
  | _ => None
  end.

Definition getDecoratorArguments (decorator : Decorator.t) : list Expression :=
  match Decorator.expression decorator with
  | CallExpression _ arguments => arguments
  | _ => []
  end.

Definition getStringLiteralValue (node : Expression) : option string :=
  match node with
  | StringLiteral text => Some text
  | NoSubstitutionTemplateLiteral text => Some text
  | _ => None
  end.

Definition getArrayLiteralElements (node : Expression) : list Expression :=
  match node with
  | ArrayLiteralExpression elements => elements
  | _ => []
  end.

(** [new Set([...]).has(name)] *)
Definition has (set : list string) (name : string) : bool :=
  existsb (String.eqb name) set.

End Loader.

(* ================================================================= *)
(** ** Authorization extractors ([core/authorization/]) *)

Module NestJSAuthExtractor.
Import Ts Loader.

Definition AUTH_GUARD_PATTERNS : list Regex.t :=
  map Regex.contains_i
    ["AuthGuard"; "JwtAuthGuard"; "LocalAuthGuard"; "SessionGuard";
     "BearerGuard"; "TokenGuard"].

Definition PUBLIC_DECORATORS : list string :=
  ["Public"; "AllowAnonymous"; "SkipAuth"; "NoAuth"; "IsPublic"].

Definition ROLE_DECORATORS : list string :=
  ["Roles"; "RequireRoles"; "HasRoles"; "Authorize"].

Definition POLICY_DECORATORS : list string :=
  ["Policies"; "RequirePolicies"; "CheckPolicies"].

Module NestJSAuthContext.
Record t := mk {
  classGuards : option (list string);
  classRoles : option (list string);
  isPublic : option bool
}.
End NestJSAuthContext.

Definition isAuthGuard (guardName : string) : bool :=
  Regex.some AUTH_GUARD_PATTERNS guardName.

(** The two steps every guard name goes through at method level. *)
Definition addGuard (guardName : string) (auth : AuthorizationInfo.t)
  : AuthorizationInfo.t :=
  let auth :=
    if isAuthGuard guardName
    then AuthorizationInfo.set_isAuthenticated true auth
    else auth in
  AuthorizationInfo.set_guardNames
    (AuthorizationInfo.guardNames auth ++ [guardName])%list auth.

(** One argument of a method-level [@UseGuards]. *)
Definition useGuardsArg (auth : AuthorizationInfo.t) (arg : Expression)
  : AuthorizationInfo.t :=
  match arg with
  | Identifier guardName => addGuard guardName auth
  | CallExpression (Identifier guardName) _ => addGuard guardName auth
  | _ => auth
  end.

Definition addRole (value : option string) (auth : AuthorizationInfo.t)
  : AuthorizationInfo.t :=
  match value with
  | Some v =>
      if Js.truthy v then
        AuthorizationInfo.set_isAuthenticated true
          (AuthorizationInfo.set_roles (AuthorizationInfo.roles auth ++ [v])%list auth)
      else auth
  | None => auth
  end.

Definition addPolicy (value : option string) (auth : AuthorizationInfo.t)
  : AuthorizationInfo.t :=
  match value with
  | Some v =>
      if Js.truthy v then
        AuthorizationInfo.set_isAuthenticated true
          (AuthorizationInfo.set_policies
             (AuthorizationInfo.policies auth ++ [v])%list auth)
      else auth
  | None => auth
  end.

(** One argument of a role (or policy) decorator: the argument itself
    when it is a string, then the elements of an array literal. *)
Definition literalArg (add : option string -> AuthorizationInfo.t -> AuthorizationInfo.t)
    (auth : AuthorizationInfo.t) (arg : Expression) : AuthorizationInfo.t :=
  let auth := add (getStringLiteralValue arg) auth in
  fold_left (fun auth elem => add (getStringLiteralValue elem) auth)
            (getArrayLiteralElements arg) auth.

Definition processDecorator (decorator : Decorator.t) (auth : AuthorizationInfo.t)
  : AuthorizationInfo.t :=
  match getDecoratorName decorator with
  | None => auth
  | Some name =>
      if negb (Js.truthy name) then auth
      else if has PUBLIC_DECORATORS name then
        AuthorizationInfo.set_isExplicitlyPublic true auth
      else if String.eqb name "UseGuards" then
        fold_left useGuardsArg (getDecoratorArguments decorator) auth
      else if has ROLE_DECORATORS name then
        fold_left (literalArg addRole) (getDecoratorArguments decorator) auth
      else if has POLICY_DECORATORS name then
        fold_left (literalArg addPolicy) (getDecoratorArguments decorator) auth
      else auth
  end.

(** A class-level guard counts only when it is an auth guard. *)
Definition classGuard (auth : AuthorizationInfo.t) (guard : string)
  : AuthorizationInfo.t :=
  if isAuthGuard guard then
    AuthorizationInfo.set_guardNames
      (AuthorizationInfo.guardNames auth ++ [guard])%list
      (AuthorizationInfo.set_isAuthenticated true auth)
  else auth.

Definition isPublicDecorator (d : Decorator.t) : bool :=
  match getDecoratorName d with
  | Some name => Js.truthy name && has PUBLIC_DECORATORS name
  | None => false
  end.

(** The authorization before [classification] is assigned. *)
Definition collect (decorators : list Decorator.t)
    (context : option NestJSAuthContext.t) : AuthorizationInfo.t :=
  let auth := createDefaultAuthorizationInfo in
  let auth :=
    match context with
    | Some (NestJSAuthContext.mk (Some classGuards) _ _) =>
        fold_left classGuard classGuards auth
    | _ => auth
    end in
  let auth :=
    match context with
    | Some (NestJSAuthContext.mk _ (Some classRoles) _) =>
        let auth :=
          AuthorizationInfo.set_roles
            (AuthorizationInfo.roles auth ++ classRoles)%list auth in
        if (0 <? List.length classRoles)%nat
        then AuthorizationInfo.set_isAuthenticated true auth
        else auth
    | _ => auth
    end in
  let auth :=
    match context with
    | Some (NestJSAuthContext.mk _ _ (Some true)) =>
        AuthorizationInfo.set_isExplicitlyPublic true auth
    | _ => auth
    end in
  let auth := fold_left (fun auth d => processDecorator d auth) decorators auth in
  let hasMethodPublic := existsb isPublicDecorator decorators in
  if hasMethodPublic then AuthorizationInfo.set_isExplicitlyPublic true auth
  else auth.

Definition extract (decorators : list Decorator.t)
    (context : option NestJSAuthContext.t) : AuthorizationInfo.t :=
  let auth := collect decorators context in
  AuthorizationInfo.set_classification (determineClassification auth) auth.

End NestJSAuthExtractor.

Module ExpressAuthExtractor.

Definition AUTH_MIDDLEWARE_PATTERNS : list Regex.t :=
  Regex.starts_i "passport.authenticate" ::
  map Regex.whole_i
    ["jwt"; "expressjwt"; "requireAuth"; "ensureAuthenticated";
     "isAuthenticated"; "authenticate"; "authMiddleware"; "checkAuth";
     "verifyToken"; "validateToken"; "bearerToken"; "auth"; "protected"].

Definition PUBLIC_PATTERNS : list Regex.t :=
  map Regex.whole_i ["allowAnonymous"; "public"; "skipAuth"; "noAuth"; "optional"].

Definition ROLE_PATTERNS : list Regex.t :=
  map Regex.whole_i
    ["requireRole"; "hasRole"; "roles"; "checkRole"; "authorize"; "can"; "permit"].

Module AuthorizationExtractorContext.
Record t := mk {
  isRouter : option bool;
  routerMiddlewares : option (list string);
  classGuards : option (list string);
  classRoles : option (list string)
}.
End AuthorizationExtractorContext.

Definition dot : ascii := "."%char.

Definition matchesPatterns (name : string) (patterns : list Regex.t) : bool :=
  let funcName :=
    if Js.includes name "." then Js.lastPart (Js.split dot name) else name in
  Regex.some patterns funcName.

Definition containsAuthKeyword (name : string) : bool :=
  let keywords := ["auth"; "jwt"; "token"; "session"; "login"; "secure"] in
  let lower := Js.toLowerCase name in
  existsb (fun kw => Js.includes lower kw) keywords.

Definition isQuote (c : ascii) : bool :=
  Ascii.eqb c "'"%char || Ascii.eqb c Js.dquote.

(** The expression of [extractRolesFromMiddleware]: an opening
    parenthesis, an optional quote (single or double), group 1 made
    of one or more characters that are neither a quote nor a closing
    parenthesis nor a closing bracket, an optional quote, and a
    closing bracket. *)
Definition roleArgument : Regex.t :=
  Regex.mk false
    [ Regex.chr "("%char;
      Regex.mkItem isQuote Regex.Opt true false;
      Regex.mkItem
        (fun c => negb (isQuote c || Ascii.eqb c ")"%char || Ascii.eqb c "]"%char))
        Regex.Plus true true;
      Regex.mkItem isQuote Regex.Opt true false;
      Regex.chr "]"%char ]
    false.

(** [r.replace] removing every quote, single or double. *)
Fixpoint dropQuotes (s : string) : string :=
  match s with
  | EmptyString => EmptyString
  | String c t => if isQuote c then dropQuotes t else String c (dropQuotes t)
  end.

Definition extractRolesFromMiddleware (middleware : string) : list string :=
  match Regex.exec roleArgument middleware with
  | Some group1 =>
      map (fun r => dropQuotes (Js.trim r)) (Js.split ","%char group1)
  | None =>
      if Js.includes middleware "." then
        let parts := Js.split dot middleware in
        let lastPart := Js.lastPart parts in
        if negb (matchesPatterns lastPart AUTH_MIDDLEWARE_PATTERNS)
        then [lastPart]
        else []
      else []
  end.

Definition processMiddleware (middleware : string) (auth : AuthorizationInfo.t)
  : AuthorizationInfo.t :=
  let normalizedName := Js.trim middleware in
  if matchesPatterns normalizedName PUBLIC_PATTERNS then
    AuthorizationInfo.set_isExplicitlyPublic true auth
  else if matchesPatterns normalizedName AUTH_MIDDLEWARE_PATTERNS then
    AuthorizationInfo.set_guardNames
      (AuthorizationInfo.guardNames auth ++ [normalizedName])%list
      (AuthorizationInfo.set_isAuthenticated true auth)
  else if matchesPatterns normalizedName ROLE_PATTERNS then
    let auth := AuthorizationInfo.set_isAuthenticated true auth in
    let roles := extractRolesFromMiddleware normalizedName in
    AuthorizationInfo.set_roles (AuthorizationInfo.roles auth ++ roles)%list auth
  else if containsAuthKeyword normalizedName then
    AuthorizationInfo.set_guardNames
      (AuthorizationInfo.guardNames auth ++ [normalizedName])%list
      (AuthorizationInfo.set_isAuthenticated true auth)
  else auth.

Definition extract (middlewares : list string)
    (context : option AuthorizationExtractorContext.t) : AuthorizationInfo.t :=
  let allMiddlewares :=
    (match context with
     | Some (AuthorizationExtractorContext.mk _ (Some routerMiddlewares) _ _) =>
         routerMiddlewares
     | _ => []
     end ++ middlewares)%list in
  let auth :=
    AuthorizationInfo.set_middlewareChain allMiddlewares
      createDefaultAuthorizationInfo in
  let auth := fold_left (fun auth m => processMiddleware m auth) allMiddlewares auth in
  AuthorizationInfo.set_classification (determineClassification auth) auth.

End ExpressAuthExtractor.

(* ================================================================= *)
(** ** Framework discoverers ([core/discovery/]) *)

Module Paths.

(** [path.replace(/\/+/g, '/')]: every run of slashes becomes one
    slash.  [inRun] tells that the previous character was a slash of
    the run being replaced. *)
Fixpoint collapseFrom (inRun : bool) (s : string) : string :=
  match s with
  | EmptyString => EmptyString
  | String c t =>
      if Js.is_slash c then
        if inRun then collapseFrom true t
        else String Js.slash (collapseFrom true t)
      else String c (collapseFrom false t)
  end.

Definition collapseSlashes (s : string) : string := collapseFrom false s.

(** The private [normalizePath] of the Express, Fastify and Koa
    discoverers (three identical copies). *)
Definition normalizePath (path : string) : string :=
  let path := if negb (Js.startsWith path "/") then "/" ++ path else path in
  let path := collapseSlashes path in
  if (1 <? String.length path)%nat && Js.endsWithChar path Js.slash
  then Js.dropLast path
  else path.

End Paths.

Module ExpressDiscoverer.
Import Ts.

Definition EXPRESS_HTTP_METHODS : list string :=
  ["get"; "post"; "put"; "delete"; "patch"; "options"; "head"; "all"].

Definition EXPRESS_IDENTIFIERS : list string := ["app"; "router"; "express"].

Definition normalizePath := Paths.normalizePath.

Definition getCallerName (expression : Expression) : option string :=
  match expression with
  | Identifier text => Some text
  | _ => None
  end.

Definition isExpressIdentifier (name : string) : bool :=
  if Loader.has EXPRESS_IDENTIFIERS name then true
  else Js.includes (Js.toLowerCase name) "router"
       || Js.includes (Js.toLowerCase name) "app".

Definition extractRoutePath (node : Expression) : option string :=
  match node with
  | StringLiteral text => Some text
  | NoSubstitutionTemplateLiteral text => Some text
  | TemplateExpression head spanLiterals =>
      Some (fold_left (fun path literal => path ++ ":param" ++ literal)
                      spanLiterals head)
  | _ => None
  end.

Fixpoint extractMiddlewareName (node : Expression) : option string :=
  match node with
  | Identifier text => Some text
  | CallExpression (PropertyAccessExpression (Identifier obj) method _) _ =>
      Some (obj ++ "." ++ method)
  | CallExpression (Identifier text) _ => Some text
  | PropertyAccessExpression _ _ sourceText => Some sourceText
  | ArrayLiteralExpression elements =>
      Some (Js.join "," (Js.truthyNames (map extractMiddlewareName elements)))
  | _ => None
  end.

Definition isPathLiteral (arg : Expression) : bool :=
  match arg with
  | StringLiteral _ => true
  | TemplateExpression _ _ => true
  | _ => false
  end.

(** The loop over [args[0 .. length - 2]]. *)
Definition extractMiddlewares (args : list Expression) : list string :=
  match removelast args with
  | [] => []
  | first :: others =>
      Js.truthyNames
        ((if isPathLiteral first then [] else [extractMiddlewareName first])
         ++ map extractMiddlewareName others)%list
  end.

Definition extractHandlerName (node : Expression) : string :=
  match node with
  | Identifier text => text
  | PropertyAccessExpression _ _ sourceText => sourceText
  | ArrowFunction => "anonymous"
  | FunctionExpression => "anonymous"
  | _ => "unknown"
  end.

(** One step of [collectRouterMounts]. *)
Definition collectRouterMount (filePath : string) (registry : RouteGroupRegistry.t)
    (callExpr : CallNode.t) : RouteGroupRegistry.t :=
  match CallNode.expression callExpr with
  | PropertyAccessExpression target methodName _ =>
      if negb (String.eqb methodName "use") then registry
      else
        match CallNode.arguments callExpr with
        | StringLiteral prefix :: Identifier routerName :: _ =>
            let appName :=
              match target with
              | Identifier text => text
              | _ => EmptyString
              end in
            if Js.truthy appName
            then RouteGroupRegistry.registerRouterMount
                   registry filePath appName prefix routerName
            else registry
        | _ => registry
        end
  | _ => registry
  end.

Definition collectRouterMounts (registry : RouteGroupRegistry.t)
    (filePath : string) (callExpressions : list CallNode.t)
  : RouteGroupRegistry.t :=
  fold_left (collectRouterMount filePath) callExpressions registry.

Definition processCallExpression (registry : RouteGroupRegistry.t)
    (callExpr : CallNode.t) (filePath : string) : option Endpoint.t :=
  match CallNode.expression callExpr with
  | PropertyAccessExpression target name _ =>
      let methodName := Js.toLowerCase name in
      if negb (Loader.has EXPRESS_HTTP_METHODS methodName) then None
      else
        match getCallerName target with
        | None => None
        | Some callerName =>
            if negb (Js.truthy callerName) || negb (isExpressIdentifier callerName)
            then None
            else
              match CallNode.arguments callExpr with
              | [] => None
              | first :: _ =>
                  let args := CallNode.arguments callExpr in
                  match extractRoutePath first with
                  | None => None
                  | Some routePath =>
                      if negb (Js.truthy routePath) then None
                      else
                        let prefix :=
                          RouteGroupRegistry.getRouterPrefix
                            registry filePath callerName in
                        let fullRoute := normalizePath (prefix ++ routePath) in
                        let middlewares := extractMiddlewares args in
                        let handlerName :=
                          extractHandlerName (List.last args OtherExpression) in
                        let location :=
                          Loader.getLineAndColumn (CallNode.line callExpr)
                                                  (CallNode.character callExpr) in
                        let authorization :=
                          ExpressAuthExtractor.extract middlewares
                            (Some (ExpressAuthExtractor.AuthorizationExtractorContext.mk
                                     (Some (negb (String.eqb callerName "app")))
                                     (Some (RouteGroupRegistry.getAllMiddlewares
                                              registry filePath callerName))
                                     None None)) in
                        Some (createEndpoint fullRoute
                                (match parseHttpMethod (Js.toUpperCase methodName) with
                                 | Some m => m
                                 | None => GET
                                 end)
                                (Some handlerName) None Express
                                (SourceLocation.mk filePath (fst location) (snd location))
                                (Some authorization))
                  end
              end
        end
  | _ => None
  end.

(** [discover]: the registry outlives the call; [callExpressions] is
    what [findNodes] returns for the file. *)
Definition discover (registry : RouteGroupRegistry.t) (filePath : string)
    (callExpressions : list CallNode.t)
  : RouteGroupRegistry.t * list Endpoint.t :=
  let registry := collectRouterMounts registry filePath callExpressions in
  (registry,
   Js.somes (map (fun c => processCallExpression registry c filePath) callExpressions)).

End ExpressDiscoverer.

Module KoaDiscoverer.
Import Ts.

Definition KOA_HTTP_METHODS : list string :=
  ["get"; "post"; "put"; "delete"; "patch"; "options"; "head"; "all"].

Definition KOA_ROUTER_IDENTIFIERS : list string :=
  ["router"; "koaRouter"; "apiRouter"].

Definition AUTH_MIDDLEWARE_PATTERNS : list Regex.t :=
  map Regex.contains_i
    ["authenticate"; "auth"; "jwt"; "passport"; "protect"; "guard"; "verify"].

Definition normalizePath := Paths.normalizePath.

Definition isAuthMiddleware (name : string) : bool :=
  Regex.some AUTH_MIDDLEWARE_PATTERNS name.

Definition buildAuthorizationInfo (middlewares : list string)
  : AuthorizationInfo.t :=
  let auth :=
    AuthorizationInfo.set_middlewareChain middlewares
      createDefaultAuthorizationInfo in
  let auth :=
    fold_left
      (fun auth middleware =>
         if isAuthMiddleware middleware then
           AuthorizationInfo.set_guardNames
             (AuthorizationInfo.guardNames auth ++ [middleware])%list
             (AuthorizationInfo.set_isAuthenticated true auth)
         else auth)
      middlewares auth in
  AuthorizationInfo.set_classification (determineClassification auth) auth.

Definition getCallerName (expression : Expression) : option string :=
  match expression with
  | Identifier text => Some text
  | _ => None
  end.

Definition isKoaRouterIdentifier (name : string) : bool :=
  if Loader.has KOA_ROUTER_IDENTIFIERS name then true
  else
    let lower := Js.toLowerCase name in
    Js.includes lower "router" || Js.includes lower "koa".

Definition extractStringValue (node : Expression) : option string :=
  match node with
  | StringLiteral text => Some text
  | NoSubstitutionTemplateLiteral text => Some text
  | _ => None
  end.

Definition extractMiddlewareName (node : Expression) : option string :=
  match node with
  | Identifier text => Some text
  | PropertyAccessExpression _ _ sourceText => Some sourceText
  | CallExpression (Identifier text) _ => Some text
  | CallExpression (PropertyAccessExpression _ _ sourceText) _ => Some sourceText
  | _ => None
  end.

Definition processRouteCall (callExpr : CallNode.t) (filePath : string)
  : option Endpoint.t :=
  match CallNode.expression callExpr with
  | PropertyAccessExpression target name _ =>
      let methodName := Js.toLowerCase name in
      if negb (Loader.has KOA_HTTP_METHODS methodName) then None
      else
        match getCallerName target with
        | None => None
        | Some callerName =>
            if negb (Js.truthy callerName) || negb (isKoaRouterIdentifier callerName)
            then None
            else
              match CallNode.arguments callExpr with
              | [] => None
              | first :: rest =>
                  match extractStringValue first with
                  | None => None
                  | Some routePath =>
                      if negb (Js.truthy routePath) then None
                      else
                        let middlewares :=
                          Js.truthyNames
                            (map extractMiddlewareName (removelast rest)) in
                        let handlerName :=
                          match rest with
                          | [] => "anonymous"
                          | _ =>
                              match extractMiddlewareName
                                      (List.last rest OtherExpression) with
                              | Some n => n
                              | None => "anonymous"
                              end
                          end in
                        let authorization := buildAuthorizationInfo middlewares in
                        let location :=
                          Loader.getLineAndColumn (CallNode.line callExpr)
                                                  (CallNode.character callExpr) in
                        Some (createEndpoint (normalizePath routePath)
                                (match parseHttpMethod (Js.toUpperCase methodName) with
                                 | Some m => m
                                 | None => GET
                                 end)
                                (Some handlerName) None Koa
                                (SourceLocation.mk filePath (fst location) (snd location))
                                (Some authorization))
                  end
              end
        end
  | _ => None
  end.

Definition discover (filePath : string) (callExpressions : list CallNode.t)
  : list Endpoint.t :=
  Js.somes
    (map (fun c => processRouteCall c filePath) callExpressions).

End KoaDiscoverer.

Module FastifyDiscoverer.
Import Ts.

Definition FASTIFY_HTTP_METHODS : list string :=
  ["get"; "post"; "put"; "delete"; "patch"; "options"; "head"; "all"].

Definition FASTIFY_IDENTIFIERS : list string :=
  ["fastify"; "server"; "app"; "instance"].

Definition AUTH_HOOK_PATTERNS : list Regex.t :=
  map Regex.contains_i
    ["authenticate"; "verify"; "jwt"; "auth"; "guard"; "protected"].

Definition normalizePath := Paths.normalizePath.

Definition isAuthHook (hookName : string) : bool :=
  Regex.some AUTH_HOOK_PATTERNS hookName.

Definition getCallerName (expression : Expression) : option string :=
  match expression with
  | Identifier text => Some text
  | _ => None
  end.

Definition isFastifyIdentifier (name : string) : bool :=
  if Loader.has FASTIFY_IDENTIFIERS (Js.toLowerCase name) then true
  else Js.includes (Js.toLowerCase name) "fastify".

Definition extractStringValue (node : Expression) : option string :=
  match node with
  | StringLiteral text => Some text
  | NoSubstitutionTemplateLiteral text => Some text
  | _ => None
  end.

Definition extractHandlerName (node : Expression) : string :=
  match node with
  | Identifier text => text
  | PropertyAccessExpression _ _ sourceText => sourceText
  | ArrowFunction => "anonymous"
  | FunctionExpression => "anonymous"
  | _ => "unknown"
  end.

Definition extractHookName (node : Expression) : option string :=
  match node with
  | Identifier text => Some text
  | PropertyAccessExpression _ _ sourceText => Some sourceText
  | CallExpression (Identifier text) _ => Some text
  | CallExpression (PropertyAccessExpression _ _ sourceText) _ => Some sourceText
  | _ => None
  end.

Definition extractHooksAuth (node : Expression) (auth : AuthorizationInfo.t)
  : AuthorizationInfo.t :=
  let hooks :=
    match node with
    | ArrayLiteralExpression elements =>
        Js.truthyNames (map extractHookName elements)
    | _ => Js.truthyNames [extractHookName node]
    end in
  let auth :=
    AuthorizationInfo.set_middlewareChain
      (AuthorizationInfo.middlewareChain auth ++ hooks)%list auth in
  fold_left
    (fun auth hook =>
       if isAuthHook hook then
         AuthorizationInfo.set_guardNames
           (AuthorizationInfo.guardNames auth ++ [hook])%list
           (AuthorizationInfo.set_isAuthenticated true auth)
       else auth)
    hooks auth.

Definition isHookProperty (propName : string) : bool :=
  String.eqb propName "preHandler" || String.eqb propName "onRequest".

Definition extractAuthFromOptions (properties : list Property)
  : AuthorizationInfo.t :=
  fold_left
    (fun auth prop =>
       match prop with
       | PropertyAssignment (Some propName) initializer =>
           if isHookProperty propName then extractHooksAuth initializer auth
           else auth
       | _ => auth
       end)
    properties createDefaultAuthorizationInfo.

Definition processShorthandRoute (callExpr : CallNode.t) (filePath : string)
  : option Endpoint.t :=
  match CallNode.expression callExpr with
  | PropertyAccessExpression target name _ =>
      let methodName := Js.toLowerCase name in
      if negb (Loader.has FASTIFY_HTTP_METHODS methodName) then None
      else
        match getCallerName target with
        | None => None
        | Some callerName =>
            if negb (Js.truthy callerName) || negb (isFastifyIdentifier callerName)
            then None
            else
              match CallNode.arguments callExpr with
              | [] => None
              | first :: rest =>
                  match extractStringValue first with
                  | None => None
                  | Some routePath =>
                      if negb (Js.truthy routePath) then None
                      else
                        let '(handlerName, authorization) :=
                          match rest with
                          | ObjectLiteralExpression properties :: after =>
                              (match after with
                               | third :: _ => extractHandlerName third
                               | [] => "anonymous"
                               end,
                               extractAuthFromOptions properties)
                          | second :: _ =>
                              (extractHandlerName second,
                               createDefaultAuthorizationInfo)
                          | [] => ("anonymous", createDefaultAuthorizationInfo)
                          end in
                        let authorization :=
                          AuthorizationInfo.set_classification
                            (determineClassification authorization) authorization in
                        let location :=
                          Loader.getLineAndColumn (CallNode.line callExpr)
                                                  (CallNode.character callExpr) in
                        Some (createEndpoint (normalizePath routePath)
                                (match parseHttpMethod (Js.toUpperCase methodName) with
                                 | Some m => m
                                 | None => GET
                                 end)
                                (Some handlerName) None Fastify
                                (SourceLocation.mk filePath (fst location) (snd location))
                                (Some authorization))
                  end
              end
        end
  | _ => None
  end.

(** The state of the loop over the options object's properties. *)
Module RouteOptions.
Record t := mk {
  method : option HttpMethod;
  url : option string;
  handlerName : string;
  authorization : AuthorizationInfo.t
}.
End RouteOptions.

Definition routeProperty (st : RouteOptions.t) (prop : Property) : RouteOptions.t :=
  match prop with
  | PropertyAssignment (Some propName) initializer =>
      let st :=
        if String.eqb propName "method" then
          match extractStringValue initializer with
          | Some methodStr =>
              if Js.truthy methodStr then
                RouteOptions.mk (parseHttpMethod (Js.toUpperCase methodStr))
                  (RouteOptions.url st) (RouteOptions.handlerName st)
                  (RouteOptions.authorization st)
              else st
          | None => st
          end
        else st in
      let st :=
        if String.eqb propName "url" then
          RouteOptions.mk (RouteOptions.method st) (extractStringValue initializer)
            (RouteOptions.handlerName st) (RouteOptions.authorization st)
        else st in
      let st :=
        if String.eqb propName "handler" then
          RouteOptions.mk (RouteOptions.method st) (RouteOptions.url st)
            (extractHandlerName initializer) (RouteOptions.authorization st)
        else st in
      if isHookProperty propName then
        RouteOptions.mk (RouteOptions.method st) (RouteOptions.url st)
          (RouteOptions.handlerName st)
          (extractHooksAuth initializer (RouteOptions.authorization st))
      else st
  | _ => st
  end.

Definition processRouteMethod (callExpr : CallNode.t) (filePath : string)
  : option Endpoint.t :=
  match CallNode.expression callExpr with
  | PropertyAccessExpression target name _ =>
      if negb (String.eqb name "route") then None
      else
        match getCallerName target with
        | None => None
        | Some callerName =>
            if negb (Js.truthy callerName) || negb (isFastifyIdentifier callerName)
            then None
            else
              match CallNode.arguments callExpr with
              | ObjectLiteralExpression properties :: _ =>
                  let st :=
                    fold_left routeProperty properties
                      (RouteOptions.mk None None "handler"
                         createDefaultAuthorizationInfo) in
                  match RouteOptions.method st, RouteOptions.url st with
                  | Some method, Some url =>
                      if negb (Js.truthy url) then None
                      else
                        let authorization := RouteOptions.authorization st in
                        let authorization :=
                          AuthorizationInfo.set_classification
                            (determineClassification authorization) authorization in
                        let location :=
                          Loader.getLineAndColumn (CallNode.line callExpr)
                                                  (CallNode.character callExpr) in
                        Some (createEndpoint (normalizePath url) method
                                (Some (RouteOptions.handlerName st)) None Fastify
                                (SourceLocation.mk filePath (fst location) (snd location))
                                (Some authorization))
                  | _, _ => None
                  end
              | _ => None
              end
        end
  | _ => None
  end.

(** One call site yields at most one endpoint, the shorthand form
    first. *)
Definition processCall (filePath : string) (callExpr : CallNode.t)
  : option Endpoint.t :=
  match processShorthandRoute callExpr filePath with
  | Some shorthandEndpoint => Some shorthandEndpoint
  | None => processRouteMethod callExpr filePath
  end.

Definition discover (filePath : string) (callExpressions : list CallNode.t)
  : list Endpoint.t :=
  Js.somes (map (processCall filePath) callExpressions).

End FastifyDiscoverer.

Module NestJSDiscoverer.
Import Ts Loader.

Definition NESTJS_HTTP_DECORATORS : list (string * HttpMethod) :=
  [("Get", GET); ("Post", POST); ("Put", PUT); ("Delete", DELETE);
   ("Patch", PATCH); ("Options", OPTIONS); ("Head", HEAD); ("All", ALL)].

Definition httpDecorator (name : string) : option HttpMethod :=
  option_map snd
    (List.find (fun entry => String.eqb (fst entry) name) NESTJS_HTTP_DECORATORS).

Module ClassAuthInfo.
Record t := mk {
  guards : list string;
  roles : list string;
  isPublic : bool
}.
End ClassAuthInfo.

(** [extractControllerPath] and [extractRoutePath] have the same
    body. *)
Definition extractControllerPath (decorator : Decorator.t) : string :=
  match getDecoratorArguments decorator with
  | [] => EmptyString
  | firstArg :: _ =>
      match getStringLiteralValue firstArg with
      | Some path => path
      | None => EmptyString
      end
  end.

Definition extractRoutePath (decorator : Decorator.t) : string :=
  match getDecoratorArguments decorator with
  | [] => EmptyString
  | firstArg :: _ =>
      match getStringLiteralValue firstArg with
      | Some path => path
      | None => EmptyString
      end
  end.

Definition buildRoute (controllerPath methodPath : string) : string :=
  let route :=
    if Js.truthy controllerPath then
      if Js.startsWith controllerPath "/" then controllerPath
      else "/" ++ controllerPath
    else "/" in
  let route :=
    if Js.truthy methodPath then
      let normalizedMethodPath :=
        if Js.startsWith methodPath "/" then methodPath else "/" ++ methodPath in
      if String.eqb route "/" then normalizedMethodPath
      else route ++ normalizedMethodPath
    else route in
  let route := Paths.collapseSlashes route in
  let route := if negb (Js.startsWith route "/") then "/" ++ route else route in
  if (1 <? String.length route)%nat && Js.endsWithChar route Js.slash
  then Js.dropLast route
  else route.

Definition identifierTexts (args : list Expression) : list string :=
  flat_map (fun arg => match arg with Identifier text => [text] | _ => [] end) args.

Definition stringValues (args : list Expression) : list string :=
  Js.truthyNames (map getStringLiteralValue args).

Definition classDecorator (info : ClassAuthInfo.t) (decorator : Decorator.t)
  : ClassAuthInfo.t :=
  let name := getDecoratorName decorator in
  let named (n : string) :=
    match name with Some x => String.eqb x n | None => false end in
  let info :=
    if named "UseGuards" then
      ClassAuthInfo.mk
        (ClassAuthInfo.guards info
         ++ identifierTexts (getDecoratorArguments decorator))%list
        (ClassAuthInfo.roles info) (ClassAuthInfo.isPublic info)
    else info in
  let info :=
    if named "Roles" then
      ClassAuthInfo.mk (ClassAuthInfo.guards info)
        (ClassAuthInfo.roles info
         ++ stringValues (getDecoratorArguments decorator))%list
        (ClassAuthInfo.isPublic info)
    else info in
  if named "Public" || named "AllowAnonymous" || named "SkipAuth" then
    ClassAuthInfo.mk (ClassAuthInfo.guards info) (ClassAuthInfo.roles info) true
  else info.

Definition extractClassAuthInfo (decorators : list Decorator.t) : ClassAuthInfo.t :=
  fold_left classDecorator decorators (ClassAuthInfo.mk [] [] false).

(** The first HTTP-verb decorator with its path argument. *)
Fixpoint findHttpDecorator (decorators : list Decorator.t)
  : option (HttpMethod * string) :=
  match decorators with
  | [] => None
  | decorator :: rest =>
      match getDecoratorName decorator with
      | Some decoratorName =>
          match (if Js.truthy decoratorName then httpDecorator decoratorName
                 else None) with
          | Some httpMethod => Some (httpMethod, extractRoutePath decorator)
          | None => findHttpDecorator rest
          end
      | None => findHttpDecorator rest
      end
  end.

Definition processMethod (methodNode : MethodDeclaration.t) (filePath : string)
    (controllerPath controllerName : string) (classAuth : ClassAuthInfo.t)
  : option Endpoint.t :=
  let decorators := MethodDeclaration.decorators methodNode in
  let methodName :=
    match MethodDeclaration.name methodNode with
    | IdentifierName text => text
    | OtherName sourceText => sourceText
    end in
  match findHttpDecorator decorators with
  | None => None
  | Some (httpMethod, routePath) =>
      let fullRoute := buildRoute controllerPath routePath in
      let location :=
        getLineAndColumn (MethodDeclaration.line methodNode)
                         (MethodDeclaration.character methodNode) in
      let authorization :=
        NestJSAuthExtractor.extract decorators
          (Some (NestJSAuthExtractor.NestJSAuthContext.mk
                   (Some (ClassAuthInfo.guards classAuth))
                   (Some (ClassAuthInfo.roles classAuth))
                   (Some (ClassAuthInfo.isPublic classAuth)))) in
      Some (createEndpoint fullRoute httpMethod (Some methodName)
              (Some controllerName) NestJS
              (SourceLocation.mk filePath (fst location) (snd location))
              (Some authorization))
  end.

Definition isController (d : Decorator.t) : bool :=
  match getDecoratorName d with
  | Some n => String.eqb n "Controller"
  | None => false
  end.

Definition processClass (classNode : ClassDeclaration.t) (filePath : string)
  : list Endpoint.t :=
  let decorators := ClassDeclaration.decorators classNode in
  match List.find isController decorators with
  | None => []
  | Some controllerDecorator =>
      let controllerPath := extractControllerPath controllerDecorator in
      let controllerName :=
        match ClassDeclaration.name classNode with
        | Some text => text
        | None => "UnknownController"
        end in
      let classAuth := extractClassAuthInfo decorators in
      Js.somes
        (map (fun member =>
                match member with
                | Method m =>
                    processMethod m filePath controllerPath controllerName classAuth
                | OtherElement => None
                end)
             (ClassDeclaration.members classNode))
  end.

Definition discover (filePath : string) (statements : list Statement)
  : list Endpoint.t :=
  flat_map (fun node =>
              match node with
              | Class c => processClass c filePath
              | OtherStatement => []
              end)
           statements.

End NestJSDiscoverer.

(* ================================================================= *)
(** ** Definitions that follow the specification's words

    They are compared below with the definitions taken from the
    sources. *)

Module Spec.

Definition nonEmpty {A} (xs : list A) : bool :=
  match xs with [] => false | _ :: _ => true end.

(** The classification rule as the data model states it:
    PolicyRestricted if [policies] is non-empty, else RoleRestricted
    if [roles] is non-empty, else Authenticated if [isAuthenticated],
    else Public. *)
Definition classificationRule (isAuthenticated : bool)
    (roles policies : list string) : SecurityClassification :=
  if nonEmpty policies then PolicyRestricted
  else if nonEmpty roles then RoleRestricted
  else if isAuthenticated then Authenticated
  else Public.

(** A path segment: one or more characters, none of them a slash. *)
Fixpoint slashFree (s : string) : bool :=
  match s with
  | EmptyString => true
  | String c t => negb (Js.is_slash c) && slashFree t
  end.

Definition isSegment (g : string) : Prop :=
  g <> EmptyString /\ slashFree g = true.

(** The text of the group [(/[^/]+)*] for the segments it matched. *)
Fixpoint moreSegments (gs : list string) : string :=
  match gs with
  | [] => EmptyString
  | g :: rest => String Js.slash (g ++ moreSegments rest)
  end.

(** The language of the expression of the testable properties: a
    slash, then nothing or a segment followed by any number of
    slash-segment pairs, up to the end of the text. *)
Definition matchesRouteRegex (route : string) : Prop :=
  route = String Js.slash EmptyString
  \/ exists g gs,
       isSegment g /\ Forall isSegment gs
       /\ route = String Js.slash (g ++ moreSegments gs).

(** The same invariant in the data model's words. *)
Definition routeInvariant (route : string) : Prop :=
  Js.startsWith route "/" = true
  /\ Js.includes route "//" = false
  /\ (Js.endsWithChar route Js.slash = true -> route = "/").

(** What the suppression design says of a route pattern: [**] stands
    for any rest of the path, a single [*] for exactly one segment
    (one or more characters other than a slash), the whole route
    being matched. *)
Fixpoint glob (pattern : string) : string -> bool :=
  match pattern with
  | EmptyString => Regex.atEnd
  | String "*" (String "*" p') =>
      fix anyRest (route : string) : bool :=
        glob p' route
        || match route with
           | EmptyString => false
           | String _ r' => anyRest r'
           end
  | String "*" p' =>
      fix segment (route : string) : bool :=
        match route with
        | EmptyString => false
        | String c r' => negb (Js.is_slash c) && (glob p' r' || segment r')
        end
  | String x p' =>
      fun route =>
        match route with
        | EmptyString => false
        | String c r' => Ascii.eqb x c && glob p' r'
        end
  end.

End Spec.

(* ================================================================= *)
(** ** Observations used in the statements *)

(** What a report shows of a finding. *)
Definition idAndSeverity (f : Finding.t) : string * Severity :=
  (Finding.ruleId f, Finding.severity f).

(** [g] is [f] up to the two suppression fields. *)
Definition sameButSuppression (f g : Finding.t) : Prop :=
  Finding.ruleId g = Finding.ruleId f
  /\ Finding.ruleName g = Finding.ruleName f
  /\ Finding.severity g = Finding.severity f
  /\ Finding.message g = Finding.message f
  /\ Finding.endpoint g = Finding.endpoint f
  /\ Finding.location g = Finding.location f
  /\ Finding.recommendation g = Finding.recommendation f.


(** Every mount of the registry, in the order the prefix lookup visits
    them. *)
Definition allMounts (reg : RouteGroupRegistry.t) : list Mount.t :=
  flat_map snd (RouteGroupRegistry.routerMounts reg).

(** A suppression with the mandatory reason only. *)
Definition reasonOnly (reason : string) : SuppressionConfig.t :=
  SuppressionConfig.mk None None None None reason.

(* ================================================================= *)
(** ** Concrete inputs used by the examples *)

Module Sample.

Definition location : SourceLocation.t := SourceLocation.mk "src/app.ts" 12 1.

Definition ordersRoute : Endpoint.t :=
  Endpoint.mk "/api/orders" POST "createOrder" None Express location
    createDefaultAuthorizationInfo.

Definition productsRoute : Endpoint.t :=
  Endpoint.mk "/api/products" GET "listProducts" None Express location
    createDefaultAuthorizationInfo.

Definition ordersFindings : list Finding.t :=
  RuleEngine.evaluate (RuleEngine.initializeRules None) [ordersRoute].

Definition productsFindings : list Finding.t :=
  RuleEngine.evaluate (RuleEngine.initializeRules None) [productsRoute].

(** The second finding of [ordersFindings]. *)
Definition ordersAP004 : Finding.t :=
  createFinding "AP004" "Missing authentication on write operations" Critical
    "POST /api/orders is an unprotected write operation" ordersRoute location
    (MissingAuthOnWrites.getRecommendation ordersRoute).

(** [app.post('/api/orders', createOrder)] at line 12 of src/app.ts. *)
Definition ordersCall : Ts.CallNode.t :=
  Ts.CallNode.mk
    (Ts.PropertyAccessExpression (Ts.Identifier "app") "post" "app.post")
    [Ts.StringLiteral "/api/orders"; Ts.Identifier "createOrder"] 11 0.

(** Two suppressions: one for a rule, then one with a reason only. *)
Definition reviewedAP001 : SuppressionConfig.t :=
  SuppressionConfig.mk (Some "AP001") None None None "reviewed".

Definition blanket : SuppressionConfig.t := reasonOnly "blanket".

Definition healthOnly : SuppressionConfig.t :=
  SuppressionConfig.mk None (Some "/api/health") None None "intentional".

(** A registry after [app.use('/api', userRouter)] in server.ts. *)
Definition mounted : RouteGroupRegistry.t :=
  RouteGroupRegistry.registerRouterMount RouteGroupRegistry.empty
    "server.ts" "app" "/api" "userRouter".

End Sample.

(* ================================================================= *)
(** ** Route shapes, as decision procedures *)

Module Shape.

(** No two slashes in a row, and no slash first when the character
    before was one. *)
Fixpoint clean (prevSlash : bool) (s : string) : bool :=
  match s with
  | EmptyString => true
  | String c t =>
      if Js.is_slash c then negb prevSlash && clean true t
      else clean false t
  end.

(** Segments separated by single slashes, the last one not followed by
    a slash; after a slash a segment must begin. *)
Fixpoint segs (afterSlash : bool) (s : string) : bool :=
  match s with
  | EmptyString => negb afterSlash
  | String c t =>
      if Js.is_slash c then negb afterSlash && segs true t
      else segs false t
  end.

(** A recogniser for the route expression. *)
Definition routeOk (route : string) : bool :=
  match route with
  | EmptyString => false
  | String c rest =>
      Js.is_slash c
      && match rest with
         | EmptyString => true
         | _ => segs true rest
         end
  end.

(** The last step of [normalizePath] and of [buildRoute]. *)
Definition dropTrailingSlash (path : string) : string :=
  if (1 <? String.length path)%nat && Js.endsWithChar path Js.slash
  then Js.dropLast path
  else path.

End Shape.

Module SampleCalls.
Import Ts.

(** [router.get('users//:id/', requireAuth, show)] in a Koa file. *)
Definition koaShow : CallNode.t :=
  CallNode.mk (PropertyAccessExpression (Identifier "router") "get" "router.get")
    [StringLiteral "users//:id/"; Identifier "requireAuth"; Identifier "show"]
    4 0.

Definition koaEndpoint : Endpoint.t :=
  Endpoint.mk "/users/:id" GET "show" None Koa
    (SourceLocation.mk "routes.ts" 5 1)
    (AuthorizationInfo.mk true false [] [] ["requireAuth"] ["requireAuth"]
       Authenticated).

End SampleCalls.

(* ================================================================= *)
(** ** Decorator scenarios *)

Module Scenario.
Import Ts.

(** The guard name an argument of [@UseGuards] carries at method
    level: an identifier's text, or the callee's when the argument is
    a call of an identifier; no name otherwise. *)
Definition guardArgNames (args : list Expression) : list string :=
  flat_map (fun arg =>
              match arg with
              | Identifier guardName => [guardName]
              | CallExpression (Identifier guardName) _ => [guardName]
              | _ => []
              end) args.

(** A decorator whose name is one of the role or policy decorators. *)
Definition roleOrPolicy (d : Decorator.t) : bool :=
  match Loader.getDecoratorName d with
  | Some name =>
      Loader.has NestJSAuthExtractor.ROLE_DECORATORS name
      || Loader.has NestJSAuthExtractor.POLICY_DECORATORS name
  | None => false
  end.

(** The context the discoverer passes for a class with the given
    guards, no role and no public marker. *)
Definition guardedClass (guards : list string)
  : option NestJSAuthExtractor.NestJSAuthContext.t :=
  Some (NestJSAuthExtractor.NestJSAuthContext.mk (Some guards) (Some []) (Some false)).

Definition decorator (name : string) (args : list Expression) : Decorator.t :=
  Decorator.mk (CallExpression (Identifier name) args).

(** [@Controller('protected') @UseGuards(JwtAuthGuard)] on a class
    with one method, [@Public() @<verb>('feedback') submitFeedback()]. *)
Definition protectedController (verb : string) : ClassDeclaration.t :=
  ClassDeclaration.mk (Some "ProtectedController")
    [decorator "Controller" [StringLiteral "protected"];
     decorator "UseGuards" [Identifier "JwtAuthGuard"]]
    [Method (MethodDeclaration.mk (IdentifierName "submitFeedback")
               [decorator "Public" []; decorator verb [StringLiteral "feedback"]]
               20 2)].

Definition protectedEndpoints (verb : string) : list Endpoint.t :=
  NestJSDiscoverer.discover "app.controller.ts" [Class (protectedController verb)].

Definition authFacts (e : Endpoint.t) : bool * bool * SecurityClassification :=
  let auth := Endpoint.authorization e in
  (AuthorizationInfo.isAuthenticated auth,
   AuthorizationInfo.isExplicitlyPublic auth,
   AuthorizationInfo.classification auth).

End Scenario.

(** Tokens that the escaped text of a pattern consists of. *)
Definition simpleToken (t : Regex.token) : bool :=
  match t with
  | Regex.TLit _ | Regex.TStar | Regex.TQuest => true
  | _ => false
  end.

Definition insideFragment (r : Regex.terms) : bool :=
  match r with
  | Regex.BadTerms true => false
  | _ => true
  end.

(* ================================================================= *)
(** ** More of the models *)

(** [core/models/severity.ts] *)
Definition Severity_value (s : Severity) : string :=
  match s with
  | Info => "info" | Low => "low" | Medium => "medium"
  | High => "high" | Critical => "critical"
  end.

(** [Object.values(Severity)], in declaration order. *)
Definition allSeverities : list Severity := [Info; Low; Medium; High; Critical].

Definition severityOrder (s : Severity) : nat :=
  match s with
  | Info => 0 | Low => 1 | Medium => 2 | High => 3 | Critical => 4
  end.


Definition parseSeverity (value : string) : option Severity :=
  let normalized := Js.toLowerCase value in
  List.find (fun s => String.eqb (Severity_value s) normalized) allSeverities.

(** [core/models/security-classification.ts] *)
Definition SecurityClassification_value (c : SecurityClassification) : string :=
  match c with
  | Public => "public"
  | Authenticated => "authenticated"
  | RoleRestricted => "role-restricted"
  | PolicyRestricted => "policy-restricted"
  end.

Definition allClassifications : list SecurityClassification :=
  [Public; Authenticated; RoleRestricted; PolicyRestricted].

Definition parseSecurityClassification (value : string)
  : option SecurityClassification :=
  let normalized := Js.toLowerCase value in
  List.find (fun c => String.eqb (SecurityClassification_value c) normalized)
            allClassifications.

(** [core/models/endpoint-type.ts] *)
Definition EndpointType_value (t : EndpointType) : string :=
  match t with
  | Express => "express" | NestJS => "nestjs" | Fastify => "fastify" | Koa => "koa"
  end.

Definition allEndpointTypes : list EndpointType := [Express; NestJS; Fastify; Koa].

Definition parseEndpointType (value : string) : option EndpointType :=
  let normalized := Js.toLowerCase value in
  List.find (fun t => String.eqb (EndpointType_value t) normalized) allEndpointTypes.

(** [core/models/endpoint.ts] and [core/models/source-location.ts] *)
Definition formatEndpoint (endpoint : Endpoint.t) : string :=
  HttpMethod_value (Endpoint.method endpoint) ++ " " ++ Endpoint.route endpoint.

Definition formatSourceLocation (location : SourceLocation.t) : string :=
  SourceLocation.filePath location ++ ":" ++ Js.ofNat (SourceLocation.line location)
  ++ ":" ++ Js.ofNat (SourceLocation.column location).

(** [core/models/scan-result.ts]; [scanDate] is kept as a number of
    milliseconds. *)
Module ScanResult.
Record t := mk {
  projectPath : string;
  scanDate : nat;
  endpoints : list Endpoint.t;
  findings : list Finding.t;
  filesScanned : nat;
  scanDurationMs : nat
}.
End ScanResult.

Module ScanSummary.
Record t := mk {
  totalEndpoints : nat;
  totalFindings : nat;
  findingsBySeverity : list (Severity * nat);
  suppressedFindings : nat
}.
End ScanSummary.

Definition Severity_eqb (a b : Severity) : bool :=
  String.eqb (Severity_value a) (Severity_value b).

Definition getScanSummary (result : ScanResult.t) : ScanSummary.t :=
  let activeFindings :=
    filter (fun f => negb (Finding.suppressed f)) (ScanResult.findings result) in
  let findingsBySeverity :=
    map (fun severity =>
           (severity,
            List.length
              (filter (fun f => Severity_eqb (Finding.severity f) severity)
                      activeFindings)))
        allSeverities in
  ScanSummary.mk
    (List.length (ScanResult.endpoints result))
    (List.length activeFindings)
    findingsBySeverity
    (List.length (filter Finding.suppressed (ScanResult.findings result))).

Definition getHighestSeverity (result : ScanResult.t) : option Severity :=
  let activeFindings :=
    filter (fun f => negb (Finding.suppressed f)) (ScanResult.findings result) in
  match activeFindings with
  | [] => None
  | first :: _ =>
      Some (fold_left
              (fun highest finding =>
                 if (severityOrder highest <? severityOrder (Finding.severity finding))%nat
                 then Finding.severity finding
                 else highest)
              activeFindings (Finding.severity first))
  end.

(** [core/analysis/project-analyzer.ts], [evaluateRules]: the same
    evaluations as the rule engine, rule by rule. *)
Module ProjectAnalyzer.

Definition evaluateRules (rules : list SecurityRule.t) (endpoints : list Endpoint.t)
  : list Finding.t :=
  flat_map
    (fun rule => flat_map (fun endpoint => SecurityRule.evaluate rule endpoint) endpoints)
    rules.

End ProjectAnalyzer.

(* ================================================================= *)
(** ** Observations used in the further properties *)

(** A scan result that differs from [r] in its findings only, as in
    [{ ...result, findings }]. *)
Definition withFindings (r : ScanResult.t) (findings : list Finding.t)
  : ScanResult.t :=
  ScanResult.mk (ScanResult.projectPath r) (ScanResult.scanDate r)
    (ScanResult.endpoints r) findings (ScanResult.filesScanned r)
    (ScanResult.scanDurationMs r).

(** Whether a rule reports on an endpoint. *)
Definition fires (rule : SecurityRule.t) (endpoint : Endpoint.t) : bool :=
  match SecurityRule.evaluate rule endpoint with
  | [] => false
  | _ :: _ => true
  end.

(** The authorization's classification is the one the shared function
    computes from its other fields. *)
Definition classified (auth : AuthorizationInfo.t) : Prop :=
  AuthorizationInfo.classification auth = determineClassification auth.

Definition isPublicClassification (c : SecurityClassification) : bool :=
  match c with Public => true | _ => false end.

(** The lower-case words of AP006's thirteen expressions. *)
Definition weakWords : list string :=
  ["user"; "admin"; "guest"; "member"; "moderator"; "manager"; "superuser";
   "root"; "default"; "basic"; "standard"; "premium"; "vip"].

(** A filter that JavaScript takes for false: absent or empty. *)
Definition presentFilter (o : option string) : option string :=
  match o with
  | Some s => if Js.truthy s then Some s else None
  | None => None
  end.

(** A suppression with the empty filters left out. *)
Definition withoutEmptyFilters (s : SuppressionConfig.t) : SuppressionConfig.t :=
  SuppressionConfig.mk
    (presentFilter (SuppressionConfig.ruleId s))
    (presentFilter (SuppressionConfig.route s))
    (presentFilter (SuppressionConfig.routePattern s))
    (presentFilter (SuppressionConfig.method s))
    (SuppressionConfig.reason s).

(** A suppression with another spelling of its method filter. *)
Definition withMethod (s : SuppressionConfig.t) (method : option string)
  : SuppressionConfig.t :=
  SuppressionConfig.mk (SuppressionConfig.ruleId s) (SuppressionConfig.route s)
    (SuppressionConfig.routePattern s) method (SuppressionConfig.reason s).

(** An identifier without colon, as every JavaScript identifier is. *)
Fixpoint colonFree (s : string) : bool :=
  match s with
  | EmptyString => true
  | String c t => negb (Ascii.eqb c ":"%char) && colonFree t
  end.

(** The part of a text after its last colon. *)
Fixpoint afterLastColon (s : string) : string :=
  match s with
  | EmptyString => EmptyString
  | String c t =>
      if colonFree t then (if Ascii.eqb c ":"%char then t else s)
      else afterLastColon t
  end.

(** The mounts registered under one key of the registry. *)
Definition mountsAt (reg : RouteGroupRegistry.t) (filePath appName : string)
  : list Mount.t :=
  match RouteGroupRegistry.get (RouteGroupRegistry.routerMounts reg)
          (RouteGroupRegistry.makeKey filePath appName) with
  | Some mounts => mounts
  | None => []
  end.

(** The hook names [extractHooksAuth] reads from the value of a
    [preHandler] or [onRequest] property. *)
Definition hookNames (node : Ts.Expression) : list string :=
  match node with
  | Ts.ArrayLiteralExpression elements =>
      Js.truthyNames (map FastifyDiscoverer.extractHookName elements)
  | _ => Js.truthyNames [FastifyDiscoverer.extractHookName node]
  end.

(** The hook names of an options object, in the order of its
    properties. *)
Definition optionHooks (properties : list Ts.Property) : list string :=
  flat_map (fun prop =>
              match prop with
              | Ts.PropertyAssignment (Some propName) initializer =>
                  if FastifyDiscoverer.isHookProperty propName
                  then hookNames initializer
                  else []
              | _ => []
              end)
           properties.

(** An authorization whose only facts are names matched by [p]: the
    guard names are the matching names of the chain, in order, the
    authenticated flag tells whether there is one, and nothing else is
    recorded. *)
Definition recordsOnly (p : string -> bool) (auth : AuthorizationInfo.t) : Prop :=
  AuthorizationInfo.guardNames auth = filter p (AuthorizationInfo.middlewareChain auth)
  /\ AuthorizationInfo.isAuthenticated auth
     = existsb p (AuthorizationInfo.middlewareChain auth)
  /\ AuthorizationInfo.roles auth = []
  /\ AuthorizationInfo.policies auth = []
  /\ AuthorizationInfo.isExplicitlyPublic auth = false.

(** [e] is among the endpoints a discoverer of the given framework
    returns for the file [filePath]. *)
Definition discoveredIn (type : EndpointType) (filePath : string) (e : Endpoint.t)
  : Prop :=
  match type with
  | Express =>
      exists registry calls,
        In e (snd (ExpressDiscoverer.discover registry filePath calls))
  | NestJS => exists statements, In e (NestJSDiscoverer.discover filePath statements)
  | Fastify => exists calls, In e (FastifyDiscoverer.discover filePath calls)
  | Koa => exists calls, In e (KoaDiscoverer.discover filePath calls)
  end.

(** The name test of the two discoverers that read middleware or hook
    names only. *)
Definition authNameTest (type : EndpointType) : string -> bool :=
  match type with
  | Fastify => FastifyDiscoverer.isAuthHook
  | _ => KoaDiscoverer.isAuthMiddleware
  end.

(** A text without its last character when that is a slash. *)
Definition dropSlash (s : string) : string :=
  if Js.endsWithChar s Js.slash then Js.dropLast s else s.

(** The middlewares the Express extractor goes through: those of the
    router, when the context has them, then those of the route. *)
Definition allMiddlewares (middlewares : list string)
    (context : option ExpressAuthExtractor.AuthorizationExtractorContext.t)
  : list string :=
  (match context with
   | Some c =>
       match ExpressAuthExtractor.AuthorizationExtractorContext.routerMiddlewares c with
       | Some routerMiddlewares => routerMiddlewares
       | None => []
       end
   | None => []
   end ++ middlewares)%list.

(* ================================================================= *)
(** ** The scan command ([cli/options.ts], [cli/commands/scan.ts]) *)

(** The options that [applyFilters] and the fail-on check read;
    [sortBy] and [sortDir] are whatever text the command line gave. *)
Module ScanOptions.
Record t := mk {
  severity : option Severity;
  failOn : option Severity;
  sortBy : option string;
  sortDir : option string;
  classification : option (list SecurityClassification);
  method : option (list HttpMethod);
  routeContains : option string;
  apiStyle : option (list EndpointType);
  rule : option (list string)
}.
End ScanOptions.

Definition parseClassificationList (value : string) : list SecurityClassification :=
  Js.somes (map (fun v => parseSecurityClassification (Js.trim v))
                (Js.split ","%char value)).

Definition parseMethodList (value : string) : list HttpMethod :=
  Js.somes (map (fun v => parseHttpMethod (Js.trim v)) (Js.split ","%char value)).

Definition parseApiStyleList (value : string) : list EndpointType :=
  Js.somes (map (fun v => parseEndpointType (Js.trim v)) (Js.split ","%char value)).

Definition parseRuleList (value : string) : list string :=
  map (fun v => Js.toUpperCase (Js.trim v)) (Js.split ","%char value).

Module Scan.

(** [xs.includes(x)] for the values of an enumeration, which are
    compared as the texts they are. *)
Definition includesValue {A} (value : A -> string) (xs : list A) (x : A) : bool :=
  existsb (fun y => String.eqb (value y) (value x)) xs.

(** [Array.prototype.sort] with a comparator: a stable sort, an
    element staying in front of those it does not compare greater
    than. *)
Fixpoint insert {A} (compare : A -> A -> Z) (x : A) (sorted : list A) : list A :=
  match sorted with
  | [] => [x]
  | y :: ys =>
      if (compare x y <=? 0)%Z then x :: sorted else y :: insert compare x ys
  end.

Definition sort {A} (compare : A -> A -> Z) (xs : list A) : list A :=
  fold_right (insert compare) [] xs.

Section Collation.

(** [a.localeCompare(b)], which depends on the locale of the host. *)
Variable localeCompare : string -> string -> Z.

Definition compareEndpoints (sortBy : string) (dir : Z) (a b : Endpoint.t) : Z :=
  if String.eqb sortBy "route" then
    (dir * localeCompare (Endpoint.route a) (Endpoint.route b))%Z
  else if String.eqb sortBy "method" then
    (dir * localeCompare (HttpMethod_value (Endpoint.method a))
                         (HttpMethod_value (Endpoint.method b)))%Z
  else if String.eqb sortBy "classification" then
    (dir * localeCompare
             (SecurityClassification_value
                (AuthorizationInfo.classification (Endpoint.authorization a)))
             (SecurityClassification_value
                (AuthorizationInfo.classification (Endpoint.authorization b))))%Z
  else 0%Z.

Definition compareFindings (sortBy : string) (dir : Z) (a b : Finding.t) : Z :=
  if String.eqb sortBy "severity" then
    (dir * (Z.of_nat (severityOrder (Finding.severity a))
            - Z.of_nat (severityOrder (Finding.severity b))))%Z
  else if String.eqb sortBy "route" then
    (dir * localeCompare (Endpoint.route (Finding.endpoint a))
                         (Endpoint.route (Finding.endpoint b)))%Z
  else if String.eqb sortBy "method" then
    (dir * localeCompare (HttpMethod_value (Endpoint.method (Finding.endpoint a)))
                         (HttpMethod_value (Endpoint.method (Finding.endpoint b))))%Z
  else 0%Z.

Definition applyFilters (result : ScanResult.t) (options : ScanOptions.t)
  : ScanResult.t :=
  let endpoints := ScanResult.endpoints result in
  let findings := ScanResult.findings result in
  (* severity *)
  let findings :=
    match ScanOptions.severity options with
    | Some severity =>
        let minSeverity := severityOrder severity in
        filter (fun f => (minSeverity <=? severityOrder (Finding.severity f))%nat)
               findings
    | None => findings
    end in
  (* classification *)
  let '(endpoints, findings) :=
    match ScanOptions.classification options with
    | Some wanted =>
        if (0 <? List.length wanted)%nat then
          (filter (fun e =>
                     includesValue SecurityClassification_value wanted
                       (AuthorizationInfo.classification (Endpoint.authorization e)))
                  endpoints,
           filter (fun f =>
                     includesValue SecurityClassification_value wanted
                       (AuthorizationInfo.classification
                          (Endpoint.authorization (Finding.endpoint f))))
                  findings)
        else (endpoints, findings)
    | None => (endpoints, findings)
    end in
  (* method *)
  let '(endpoints, findings) :=
    match ScanOptions.method options with
    | Some wanted =>
        if (0 <? List.length wanted)%nat then
          (filter (fun e => includesValue HttpMethod_value wanted (Endpoint.method e))
                  endpoints,
           filter (fun f =>
                     includesValue HttpMethod_value wanted
                       (Endpoint.method (Finding.endpoint f)))
                  findings)
        else (endpoints, findings)
    | None => (endpoints, findings)
    end in
  (* route *)
  let '(endpoints, findings) :=
    if Js.truthyOpt (ScanOptions.routeContains options) then
      let searchStr :=
        Js.toLowerCase
          (match ScanOptions.routeContains options with
           | Some s => s
           | None => EmptyString
           end) in
      (filter (fun e => Js.includes (Js.toLowerCase (Endpoint.route e)) searchStr)
              endpoints,
       filter (fun f =>
                 Js.includes (Js.toLowerCase (Endpoint.route (Finding.endpoint f)))
                             searchStr)
              findings)
    else (endpoints, findings) in
  (* api style *)
  let '(endpoints, findings) :=
    match ScanOptions.apiStyle options with
    | Some wanted =>
        if (0 <? List.length wanted)%nat then
          (filter (fun e => includesValue EndpointType_value wanted (Endpoint.type e))
                  endpoints,
           filter (fun f =>
                     includesValue EndpointType_value wanted
                       (Endpoint.type (Finding.endpoint f)))
                  findings)
        else (endpoints, findings)
    | None => (endpoints, findings)
    end in
  (* rule *)
  let findings :=
    match ScanOptions.rule options with
    | Some wanted =>
        if (0 <? List.length wanted)%nat then
          filter (fun f => existsb (fun id => String.eqb id (Finding.ruleId f)) wanted)
                 findings
        else findings
    | None => findings
    end in
  (* sorting *)
  let '(endpoints, findings) :=
    match ScanOptions.sortBy options with
    | Some sortBy =>
        if Js.truthy sortBy then
          let dir :=
            match ScanOptions.sortDir options with
            | Some d => if String.eqb d "desc" then (-1)%Z else 1%Z
            | None => 1%Z
            end in
          (sort (compareEndpoints sortBy dir) endpoints,
           sort (compareFindings sortBy dir) findings)
        else (endpoints, findings)
    | None => (endpoints, findings)
    end in
  ScanResult.mk (ScanResult.projectPath result) (ScanResult.scanDate result)
    endpoints findings (ScanResult.filesScanned result)
    (ScanResult.scanDurationMs result).

End Collation.

(** The fail-on check that ends the command: whether it exits with
    status 1 for the result it has printed. *)
Definition failOnReached (result : ScanResult.t) (options : ScanOptions.t) : bool :=
  match ScanOptions.failOn options with
  | Some failOn =>
      match getHighestSeverity result with
      | Some highest => (severityOrder failOn <=? severityOrder highest)%nat
      | None => false
      end
  | None => false
  end.

End Scan.

(** The test a finding has to pass for the filters of the options,
    and the one an endpoint has to pass. *)
Definition listFilter {A} (value : A -> string) (wanted : option (list A)) (x : A)
  : bool :=
  match wanted with
  | Some (w :: ws) => Scan.includesValue value (w :: ws) x
  | _ => true
  end.

Definition routeFilter (routeContains : option string) (route : string) : bool :=
  match routeContains with
  | Some (String c s) =>
      Js.includes (Js.toLowerCase route) (Js.toLowerCase (String c s))
  | _ => true
  end.

Definition endpointPasses (options : ScanOptions.t) (e : Endpoint.t) : bool :=
  listFilter SecurityClassification_value (ScanOptions.classification options)
    (AuthorizationInfo.classification (Endpoint.authorization e))
  && listFilter HttpMethod_value (ScanOptions.method options) (Endpoint.method e)
  && routeFilter (ScanOptions.routeContains options) (Endpoint.route e)
  && listFilter EndpointType_value (ScanOptions.apiStyle options) (Endpoint.type e).

Definition findingPasses (options : ScanOptions.t) (f : Finding.t) : bool :=
  match ScanOptions.severity options with
  | Some s => (severityOrder s <=? severityOrder (Finding.severity f))%nat
  | None => true
  end
  && endpointPasses options (Finding.endpoint f)
  && match ScanOptions.rule options with
     | Some (id :: ids) =>
         existsb (fun id => String.eqb id (Finding.ruleId f)) (id :: ids)
     | _ => true
     end.

(** The sort key in force, if any, and the direction factor. *)
Definition sorting (options : ScanOptions.t) : option string :=
  match ScanOptions.sortBy options with
  | Some sortBy => if Js.truthy sortBy then Some sortBy else None
  | None => None
  end.

Definition sortDirection (options : ScanOptions.t) : Z :=
  match ScanOptions.sortDir options with
  | Some d => if String.eqb d "desc" then (-1)%Z else 1%Z
  | None => 1%Z
  end.

(* ================================================================= *)
(** ** Observations on guard decorators and on ASCII inputs *)

Definition isUseGuards (d : Ts.Decorator.t) : bool :=
  match Loader.getDecoratorName d with
  | Some name => String.eqb name "UseGuards"
  | None => false
  end.

(** The guard names that the method-level decorators carry: for each
    [@UseGuards], in order, the names of its arguments that are
    identifiers or calls of an identifier. *)
Definition methodGuardNames (decorators : list Ts.Decorator.t) : list string :=
  flat_map (fun d =>
              if isUseGuards d
              then Scenario.guardArgNames (Loader.getDecoratorArguments d)
              else [])
           decorators.

(** The class guards of a context, none when the field is absent. *)
Definition classGuardsOf (classGuards : option (list string)) : list string :=
  match classGuards with
  | Some guards => guards
  | None => []
  end.

(** Method decorators that say nothing about authorization: no public
    marker, no role or policy decorator, no guard name. *)
Definition noAuthDecorators (decorators : list Ts.Decorator.t) : bool :=
  forallb (fun d =>
             negb (NestJSAuthExtractor.isPublicDecorator d)
             && negb (Scenario.roleOrPolicy d))
          decorators
  && match methodGuardNames decorators with
     | [] => true
     | _ :: _ => false
     end.

(** The route filter of [applyFilters] reads ASCII texts only: either
    no text to look for is given, or that text and the routes of all
    endpoints and findings are ASCII. *)
Definition asciiRouteFilter (result : ScanResult.t) (options : ScanOptions.t)
  : bool :=
  match ScanOptions.routeContains options with
  | Some (String c s) =>
      Js.isAscii (String c s)
      && forallb (fun e => Js.isAscii (Endpoint.route e)) (ScanResult.endpoints result)
      && forallb (fun f => Js.isAscii (Endpoint.route (Finding.endpoint f)))
                 (ScanResult.findings result)
  | _ => true
  end.
(* ================================================================= *)
(** * Properties *)

(** ** Classification *)

Lemma nonEmpty_length {A} (xs : list A) :
  (0 <? List.length xs)%nat = Spec.nonEmpty xs.
Proof. destruct xs; reflexivity. Qed.

(** Every extractor ends by assigning the shared function's result. *)
Lemma nestjs_extract_classification decorators context :
  let auth := NestJSAuthExtractor.extract decorators context in
  AuthorizationInfo.classification auth = determineClassification auth.
Proof. reflexivity. Qed.

Lemma express_extract_classification middlewares context :
  let auth := ExpressAuthExtractor.extract middlewares context in
  AuthorizationInfo.classification auth = determineClassification auth.
Proof. reflexivity. Qed.

Lemma koa_build_classification middlewares :
  let auth := KoaDiscoverer.buildAuthorizationInfo middlewares in
  AuthorizationInfo.classification auth = determineClassification auth.
Proof. reflexivity. Qed.

(** C1.  [determineClassification] follows the precedence of the data
    model (policies, then roles, then the authenticated flag, else
    Public), it does not depend on [isExplicitlyPublic], and one role
    with no policy gives RoleRestricted whatever the two flags are. *)
Theorem determineClassification_precedence :
  (forall auth : AuthorizationInfo.t,
      determineClassification auth =
      Spec.classificationRule (AuthorizationInfo.isAuthenticated auth)
        (AuthorizationInfo.roles auth) (AuthorizationInfo.policies auth))
  /\ (forall (auth : AuthorizationInfo.t) (b : bool),
         determineClassification (AuthorizationInfo.set_isExplicitlyPublic b auth)
         = determineClassification auth)
  /\ (forall (isAuthenticated isExplicitlyPublic : bool)
             (chain guards : list string) (c : SecurityClassification),
         determineClassification
           (AuthorizationInfo.mk isAuthenticated isExplicitlyPublic
              ["x"] [] chain guards c)
         = RoleRestricted).
Proof.
  split; [|split].
  - intros auth. unfold determineClassification, Spec.classificationRule.
    now rewrite !nonEmpty_length.
  - intros [a e r p m g c] b. reflexivity.
  - reflexivity.
Qed.

(** ** Rule engine *)

Lemma default_catalogue : RuleEngine.initializeRules None = RuleEngine.allRules.
Proof. reflexivity. Qed.

Lemma catalogue_ids :
  map SecurityRule.id RuleEngine.allRules
  = ["AP001"; "AP002"; "AP003"; "AP004"; "AP005"; "AP006"; "AP007"; "AP008"].
Proof. reflexivity. Qed.

(** The endpoint the Express discoverer emits for a route without
    middleware carries the default authorization. *)
Lemma express_orders_endpoint :
  snd (ExpressDiscoverer.discover RouteGroupRegistry.empty "src/app.ts"
         [Sample.ordersCall])
  = [Sample.ordersRoute].
Proof. reflexivity. Qed.

(** The first testable example of the rule engine: GET /api/products
    without middleware gets AP001 and AP008, both High. *)
Lemma get_products_findings :
  map idAndSeverity Sample.productsFindings = [("AP001", High); ("AP008", High)].
Proof. reflexivity. Qed.

(** C3.  A POST on /api/orders with the default authorization (nothing
    found by the extractor) gets exactly AP001, AP004 (Critical) and
    AP008 from the full catalogue, whatever the framework, handler and
    location; each finding refers to the endpoint and is not
    suppressed. *)
Theorem post_orders_findings (handlerName : string) (controllerName : option string)
    (type : EndpointType) (location : SourceLocation.t) :
  let endpoint :=
    Endpoint.mk "/api/orders" POST handlerName controllerName type location
      (AuthorizationInfo.mk false false [] [] [] [] Public) in
  let findings := RuleEngine.evaluate (RuleEngine.initializeRules None) [endpoint] in
  List.length RuleEngine.allRules = 8
  /\ map idAndSeverity findings
     = [("AP001", High); ("AP004", Critical); ("AP008", High)]
  /\ Forall (fun f => Finding.endpoint f = endpoint
                      /\ Finding.location f = location
                      /\ Finding.suppressed f = false) findings.
Proof.
  cbv zeta. split; [reflexivity|].
  split.
  - destruct type; reflexivity.
  - destruct type; repeat constructor.
Qed.

(** ** Suppression matcher *)

Lemma sameButSuppression_refl f : sameButSuppression f f.
Proof. repeat split. Qed.

Lemma suppress_same f reason : sameButSuppression f (SuppressionMatcher.suppress f reason).
Proof. repeat split. Qed.

Lemma find_none_iff {A} (p : A -> bool) (xs : list A) :
  List.find p xs = None <-> (forall x, In x xs -> p x = false).
Proof.
  induction xs as [|x xs IH]; simpl.
  - split; [intros _ y []|reflexivity].
  - destruct (p x) eqn:E.
    + split; [discriminate|]. intros H. rewrite (H x (or_introl eq_refl)) in E.
      discriminate.
    + rewrite IH. split.
      * intros H y [->|Hy]; auto.
      * intros H y Hy. apply H. now right.
Qed.

Lemma find_app_skip {A} (p : A -> bool) (pre post : list A) :
  (forall x, In x pre -> p x = false) ->
  List.find p (pre ++ post)%list = List.find p post.
Proof.
  induction pre as [|x pre IH]; simpl; intros H; [reflexivity|].
  rewrite (H x (or_introl eq_refl)). apply IH. intros y Hy. apply H. now right.
Qed.

(** C10.  The matcher maps the findings one by one: same length, same
    positions, every field but [suppressed] and [suppressionReason]
    kept, and a finding that no suppression matches comes out as it
    went in. *)
Theorem applySuppressions_frame (suppressions : list SuppressionConfig.t)
    (findings : list Finding.t) :
  let out := SuppressionMatcher.applySuppressionsToFindings suppressions findings in
  List.length out = List.length findings
  /\ (forall i f, nth_error findings i = Some f ->
        exists g, nth_error out i = Some g
                  /\ sameButSuppression f g
                  /\ ((forall s, In s suppressions ->
                         SuppressionMatcher.matchesFinding s f = false) -> g = f)).
Proof.
  cbv zeta. unfold SuppressionMatcher.applySuppressionsToFindings. split.
  - apply length_map.
  - intros i f Hi. rewrite nth_error_map, Hi. simpl.
    eexists; split; [reflexivity|]. split.
    + destruct (SuppressionMatcher.findMatchingSuppression suppressions f);
        [apply suppress_same | apply sameButSuppression_refl].
    + intros Hnone. unfold SuppressionMatcher.findMatchingSuppression.
      now rewrite (proj2 (find_none_iff _ _) Hnone).
Qed.

Lemma reasonOnly_matches reason endpoint ruleId :
  SuppressionMatcher.matchesEndpoint (reasonOnly reason) endpoint ruleId = true.
Proof. reflexivity. Qed.

Lemma find_first_match {A} (p : A -> bool) (pre post : list A) (x : A) :
  p x = true ->
  exists s, List.find p (pre ++ x :: post)%list = Some s
            /\ In s (pre ++ [x])%list /\ p s = true.
Proof.
  intros Hx. induction pre as [|y pre IH]; simpl.
  - rewrite Hx. exists x. simpl. auto.
  - destruct (p y) eqn:E.
    + exists y. auto.
    + destruct IH as (s & Hs & Hin & Hp). exists s. auto.
Qed.

(** The answer of [find] on a list that holds a matching element: the
    first element that matches, with what stands in front of it. *)
Lemma find_first_split {A} (p : A -> bool) (pre post : list A) (x : A) :
  p x = true ->
  exists before s after,
    (pre ++ [x])%list = (before ++ s :: after)%list
    /\ (forall e, In e before -> p e = false)
    /\ p s = true
    /\ List.find p (pre ++ x :: post)%list = Some s.
Proof.
  intros Hx. induction pre as [|y pre IH].
  - exists [], x, [].
    split; [reflexivity|]. split; [intros e []|]. split; [exact Hx|].
    cbn [app find]. now rewrite Hx.
  - cbn [app find]. destruct (p y) eqn:E.
    + exists [], y, (pre ++ [x])%list.
      split; [reflexivity|]. split; [intros e []|]. split; [exact E|reflexivity].
    + destruct IH as (before & s & after & Heq & Hbefore & Hs & Hfind).
      exists (y :: before), s, after. cbn [app]. rewrite Heq.
      split; [reflexivity|]. split; [|split; [exact Hs|exact Hfind]].
      intros e [<-|He]; [exact E|now apply Hbefore].
Qed.

Lemma find_first_here {A} (p : A -> bool) (before after : list A) (s : A) :
  (forall e, In e before -> p e = false) -> p s = true ->
  List.find p (before ++ s :: after)%list = Some s.
Proof.
  intros Hbefore Hs. rewrite (find_app_skip p before (s :: after) Hbefore).
  cbn [find]. now rewrite Hs.
Qed.

(** C9, as the code has it.  An entry with no filter matches every
    finding, so with such an entry anywhere in the list every finding
    comes out suppressed.  The reason a finding gets is the one of the
    first entry, in list order, that matches it: an earlier entry that
    matches the finding wins over the entry without filter, and the
    finding gets the reason of the entry without filter exactly when
    no earlier entry matches it (in particular when that entry stands
    first or alone). *)
Theorem reason_only_suppresses_all (pre post : list SuppressionConfig.t)
    (reason : string) (findings : list Finding.t) :
  let suppressions := (pre ++ reasonOnly reason :: post)%list in
  let out := SuppressionMatcher.applySuppressionsToFindings suppressions findings in
  (forall endpoint ruleId,
      SuppressionMatcher.matchesEndpoint (reasonOnly reason) endpoint ruleId = true)
  /\ Forall (fun g => Finding.suppressed g = true) out
  /\ (forall i f, nth_error findings i = Some f ->
        exists before s after,
          (pre ++ [reasonOnly reason])%list = (before ++ s :: after)%list
          /\ (forall e, In e before -> SuppressionMatcher.matchesFinding e f = false)
          /\ SuppressionMatcher.matchesFinding s f = true
          /\ nth_error out i
             = Some (SuppressionMatcher.suppress f (SuppressionConfig.reason s)))
  /\ (forall i f before e after,
        nth_error findings i = Some f ->
        pre = (before ++ e :: after)%list ->
        (forall x, In x before -> SuppressionMatcher.matchesFinding x f = false) ->
        SuppressionMatcher.matchesFinding e f = true ->
        nth_error out i
        = Some (SuppressionMatcher.suppress f (SuppressionConfig.reason e)))
  /\ (forall i f, nth_error findings i = Some f ->
        (forall e, In e pre -> SuppressionMatcher.matchesFinding e f = false) ->
        nth_error out i = Some (SuppressionMatcher.suppress f reason))
  /\ ((forall s f, In s pre -> In f findings ->
                   SuppressionMatcher.matchesFinding s f = false) ->
      out = map (fun f => SuppressionMatcher.suppress f reason) findings).
Proof.
  cbv zeta. unfold SuppressionMatcher.applySuppressionsToFindings.
  assert (Hfirst : forall f, exists before s after,
             (pre ++ [reasonOnly reason])%list = (before ++ s :: after)%list
             /\ (forall e, In e before -> SuppressionMatcher.matchesFinding e f = false)
             /\ SuppressionMatcher.matchesFinding s f = true
             /\ SuppressionMatcher.findMatchingSuppression
                  (pre ++ reasonOnly reason :: post)%list f = Some s).
  { intros f. unfold SuppressionMatcher.findMatchingSuppression.
    apply (find_first_split (fun s => SuppressionMatcher.matchesFinding s f)).
    apply reasonOnly_matches. }
  split; [intros; apply reasonOnly_matches|]. split; [|split; [|split; [|split]]].
  - apply Forall_forall. intros g Hg. apply in_map_iff in Hg.
    destruct Hg as (f & <- & _).
    destruct (Hfirst f) as (before & s & after & _ & _ & _ & ->). reflexivity.
  - intros i f Hi. destruct (Hfirst f) as (before & s & after & Heq & Hb & Hm & Hs).
    exists before, s, after. split; [exact Heq|]. split; [exact Hb|].
    split; [exact Hm|]. rewrite nth_error_map, Hi. cbn [option_map]. now rewrite Hs.
  - intros i f before e after Hi -> Hb He. rewrite nth_error_map, Hi.
    cbn [option_map]. unfold SuppressionMatcher.findMatchingSuppression.
    rewrite <- app_assoc. cbn [app].
    now rewrite (find_first_here (fun s => SuppressionMatcher.matchesFinding s f)
                   before (after ++ reasonOnly reason :: post)%list e Hb He).
  - intros i f Hi Hpre. rewrite nth_error_map, Hi. cbn [option_map].
    unfold SuppressionMatcher.findMatchingSuppression.
    now rewrite (find_first_here (fun s => SuppressionMatcher.matchesFinding s f)
                   pre post (reasonOnly reason) Hpre (reasonOnly_matches _ _ _)).
  - intros Hpre. apply map_ext_in. intros f Hf.
    unfold SuppressionMatcher.findMatchingSuppression.
    rewrite find_app_skip by (intros s Hs; now apply Hpre).
    reflexivity.
Qed.

(** C9, witness: the entry alone, on the findings of POST /api/orders. *)
Lemma reason_only_suppresses_all_witness :
  map Finding.suppressionReason
      (SuppressionMatcher.applySuppressionsToFindings [Sample.blanket]
         Sample.ordersFindings)
  = [Some "blanket"; Some "blanket"; Some "blanket"].
Proof.
  refine (eq_trans
            (f_equal (map Finding.suppressionReason)
               (proj2 (proj2 (proj2 (proj2 (proj2
                  (reason_only_suppresses_all [] [] "blanket" Sample.ordersFindings)))))
                  _))
            _).
  - intros s f [].
  - reflexivity.
Defined.

(** C9, counterexample to the claim as worded: behind an entry for
    AP001, the reason-only entry still matches the AP001 finding, but
    the finding carries the first entry's reason. *)
Lemma reason_only_counterexample :
  In Sample.blanket [Sample.reviewedAP001; Sample.blanket]
  /\ map (fun g => (Finding.ruleId g, Finding.suppressed g, Finding.suppressionReason g))
         (SuppressionMatcher.applySuppressionsToFindings
            [Sample.reviewedAP001; Sample.blanket] Sample.ordersFindings)
     = [("AP001", true, Some "reviewed");
        ("AP004", true, Some "blanket");
        ("AP008", true, Some "blanket")]
  /\ ~ Forall (fun g => Finding.suppressionReason g
                        = Some (SuppressionConfig.reason Sample.blanket))
              (SuppressionMatcher.applySuppressionsToFindings
                 [Sample.reviewedAP001; Sample.blanket] Sample.ordersFindings).
Proof.
  split; [right; left; reflexivity|]. split; [reflexivity|].
  intros H. inversion H as [|g gs Hg _]. discriminate Hg.
Qed.

(** C10, witness: a suppression for another route leaves the AP004
    finding of POST /api/orders as it was, at its position. *)
Lemma applySuppressions_frame_witness :
  nth_error (SuppressionMatcher.applySuppressionsToFindings
               [Sample.healthOnly] Sample.ordersFindings) 1
  = Some Sample.ordersAP004.
Proof.
  destruct (proj2 (applySuppressions_frame [Sample.healthOnly] Sample.ordersFindings)
              1 Sample.ordersAP004 eq_refl)
    as (g & Hg & _ & Hsame).
  rewrite Hg. f_equal. apply Hsame. intros s [<-|[]]. reflexivity.
Defined.

(** ** Mount registry *)

Lemma find_app {A} (p : A -> bool) (xs ys : list A) :
  List.find p (xs ++ ys)%list
  = match List.find p xs with Some x => Some x | None => List.find p ys end.
Proof.
  induction xs as [|x xs IH]; simpl; [reflexivity|]. now destruct (p x).
Qed.

Lemma scanMounts_first (entries : RouteGroupRegistry.jsmap Mount.t) (r : string) :
  RouteGroupRegistry.scanMounts entries r
  = match List.find (fun m => String.eqb (Mount.routerName m) r)
                    (flat_map snd entries) with
    | Some m => Mount.prefix m
    | None => EmptyString
    end.
Proof.
  induction entries as [|[k mounts] rest IH]; simpl; [reflexivity|].
  rewrite find_app.
  destruct (List.find _ mounts); [reflexivity|exact IH].
Qed.

Lemma push_all_mounts (m : RouteGroupRegistry.jsmap Mount.t) key v p :
  (forall x, In x (flat_map snd m) -> p x = false) ->
  p v = true ->
  List.find p (flat_map snd (RouteGroupRegistry.push m key v)) = Some v.
Proof.
  induction m as [|[k vs] rest IH]; simpl; intros Hnone Hv.
  - now rewrite Hv.
  - destruct (String.eqb k key); simpl; rewrite !find_app.
    + rewrite (proj2 (find_none_iff p vs)) by (intros; apply Hnone, in_or_app; auto).
      simpl. now rewrite Hv.
    + rewrite (proj2 (find_none_iff p vs)) by (intros; apply Hnone, in_or_app; auto).
      apply IH; trivial. intros; apply Hnone, in_or_app; auto.
Qed.

(** C6.  The prefix lookup never reads its file argument: it answers
    with the prefix of a mount registered for the router, whichever
    file registered it, and with the empty text when there is none; a
    mount registered from one file is found from every other file; the
    middleware lookup answers the empty list for a key without
    group. *)
Theorem registry_lookup (reg : RouteGroupRegistry.t) (routerName : string) :
  (forall f1 f2,
      RouteGroupRegistry.getRouterPrefix reg f1 routerName
      = RouteGroupRegistry.getRouterPrefix reg f2 routerName)
  /\ (forall f,
         (exists m, In m (allMounts reg) /\ Mount.routerName m = routerName
                    /\ RouteGroupRegistry.getRouterPrefix reg f routerName
                       = Mount.prefix m)
         \/ ((forall m, In m (allMounts reg) -> Mount.routerName m <> routerName)
             /\ RouteGroupRegistry.getRouterPrefix reg f routerName = EmptyString))
  /\ (forall f app prefix f',
         (forall m, In m (allMounts reg) -> Mount.routerName m <> routerName) ->
         RouteGroupRegistry.getRouterPrefix
           (RouteGroupRegistry.registerRouterMount reg f app prefix routerName)
           f' routerName = prefix)
  /\ (forall f v,
         RouteGroupRegistry.get (RouteGroupRegistry.groups reg)
           (RouteGroupRegistry.makeKey f v) = None ->
         RouteGroupRegistry.getAllMiddlewares reg f v = []).
Proof.
  split; [reflexivity|]. split; [|split].
  - intros f. unfold RouteGroupRegistry.getRouterPrefix. rewrite scanMounts_first.
    fold (allMounts reg).
    destruct (List.find _ (allMounts reg)) as [m|] eqn:E.
    + left. exists m. apply find_some in E. destruct E as [Hin Heq].
      apply String.eqb_eq in Heq. auto.
    + right. split; [|reflexivity]. intros m Hm Heq.
      apply (proj1 (find_none_iff _ _)) with (x := m) in E; trivial.
      apply String.eqb_neq in E. contradiction.
  - intros f app prefix f' Hnone.
    unfold RouteGroupRegistry.getRouterPrefix, RouteGroupRegistry.registerRouterMount.
    simpl. rewrite scanMounts_first.
    rewrite push_all_mounts with (v := Mount.mk prefix routerName); trivial.
    + intros x Hx. apply String.eqb_neq. now apply Hnone.
    + apply String.eqb_refl.
  - intros f v Hnone. unfold RouteGroupRegistry.getAllMiddlewares,
      RouteGroupRegistry.getGroup. now rewrite Hnone.
Qed.

(** C6, witness: the mount made in server.ts answers a lookup from
    routes/users.ts; an unknown key has no middleware. *)
Lemma registry_lookup_witness :
  RouteGroupRegistry.getRouterPrefix Sample.mounted "routes/users.ts" "userRouter"
  = "/api"
  /\ RouteGroupRegistry.getAllMiddlewares Sample.mounted "routes/users.ts" "userRouter"
     = [].
Proof.
  split.
  - apply (proj1 (proj2 (proj2
             (registry_lookup RouteGroupRegistry.empty "userRouter")))).
    intros m [].
  - apply (proj2 (proj2 (proj2 (registry_lookup Sample.mounted "userRouter")))).
    reflexivity.
Defined.

(** ** Route normalisation *)

Section RouteShape.

Import Shape.

Lemma is_slash_true c : Js.is_slash c = true -> c = Js.slash.
Proof. apply Ascii.eqb_eq. Qed.

Lemma collapse_clean t : forall b, clean b (Paths.collapseFrom b t) = true.
Proof.
  induction t as [|c t IH]; intros b; simpl; [reflexivity|].
  destruct (Js.is_slash c) eqn:E.
  - destruct b; simpl; apply IH.
  - simpl. rewrite E. apply IH.
Qed.

Lemma clean_weaken s : clean true s = true -> clean false s = true.
Proof.
  destruct s as [|c t]; simpl; [reflexivity|].
  destruct (Js.is_slash c); [discriminate|trivial].
Qed.

Lemma clean_dropLast s : forall b,
  clean b s = true -> Js.endsWithChar s Js.slash = true ->
  clean b (Js.dropLast s) = true
  /\ Js.endsWithChar (Js.dropLast s) Js.slash = false.
Proof.
  induction s as [|c t IH]; intros b Hc He; [discriminate|].
  destruct t as [|d u].
  - simpl. auto.
  - change (Js.dropLast (String c (String d u)))
      with (String c (Js.dropLast (String d u))).
    change (Js.endsWithChar (String c (String d u)) Js.slash)
      with (Js.endsWithChar (String d u) Js.slash) in He.
    simpl in Hc. destruct (Js.is_slash c) eqn:Ec.
    + apply andb_prop in Hc. destruct Hc as [Hb Hc].
      destruct (IH true Hc He) as [H1 H2].
      assert (Hne : Js.dropLast (String d u) <> EmptyString).
      { destruct u as [|e v]; [|discriminate].
        simpl in Hc, He. unfold Js.is_slash in Hc. rewrite He in Hc.
        discriminate. }
      split.
      * simpl clean. rewrite Ec, Hb. exact H1.
      * destruct (Js.dropLast (String d u)) eqn:Ed; [contradiction|exact H2].
    + destruct (IH false Hc He) as [H1 H2]. split.
      * simpl clean. rewrite Ec. exact H1.
      * destruct (Js.dropLast (String d u)) eqn:Ed; [|exact H2].
        simpl. unfold Js.is_slash in Ec. exact Ec.
Qed.

Lemma clean_segs s : forall b,
  clean b s = true -> Js.endsWithChar s Js.slash = false ->
  (b = true -> s <> EmptyString) ->
  segs b s = true.
Proof.
  induction s as [|c t IH]; intros b Hc He Hne.
  - destruct b; [now elim Hne|reflexivity].
  - simpl in Hc |- *. destruct (Js.is_slash c) eqn:Ec.
    + apply andb_prop in Hc. destruct Hc as [Hb Hc]. rewrite Hb. simpl.
      destruct t as [|d u].
      * simpl in He. unfold Js.is_slash in Ec. congruence.
      * apply IH; trivial. discriminate.
    + apply IH; trivial; [|discriminate].
      destruct t; [reflexivity|exact He].
Qed.

Lemma drop_trailing_ok r :
  clean true r = true ->
  routeOk (dropTrailingSlash (String Js.slash r)) = true.
Proof.
  intros Hc. unfold dropTrailingSlash.
  destruct r as [|c t]; [reflexivity|].
  change (1 <? String.length (String Js.slash (String c t)))%nat with true.
  change (Js.endsWithChar (String Js.slash (String c t)) Js.slash)
    with (Js.endsWithChar (String c t) Js.slash).
  cbv beta iota delta [andb].
  destruct (Js.endsWithChar (String c t) Js.slash) eqn:He.
  - destruct (clean_dropLast _ _ Hc He) as [H1 H2].
    change (Js.dropLast (String Js.slash (String c t)))
      with (String Js.slash (Js.dropLast (String c t))).
    remember (Js.dropLast (String c t)) as d eqn:Ed.
    unfold routeOk. change (Js.is_slash Js.slash) with true. cbn [andb].
    destruct d; [reflexivity|].
    apply clean_segs; trivial. discriminate.
  - remember (String c t) as d eqn:Ed.
    unfold routeOk. change (Js.is_slash Js.slash) with true. cbn [andb].
    rewrite Ed at 1. apply clean_segs; trivial. subst d. discriminate.
Qed.

Lemma prefix_cons a s1 b s2 :
  String.prefix (String a s1) (String b s2)
  = if Ascii.eqb b a then String.prefix s1 s2 else false.
Proof.
  change (String.prefix (String a s1) (String b s2))
    with (match ascii_dec a b with
          | left _ => String.prefix s1 s2
          | right _ => false
          end).
  destruct (ascii_dec a b) as [->|Hn].
  - now rewrite Ascii.eqb_refl.
  - assert (E : Ascii.eqb b a = false) by (apply Ascii.eqb_neq; congruence).
    now rewrite E.
Qed.

Lemma prefix_nil s : String.prefix EmptyString s = true.
Proof. now destruct s. Qed.

Lemma startsWith_cons c t : Js.startsWith (String c t) "/" = Js.is_slash c.
Proof.
  unfold Js.startsWith. rewrite prefix_cons, prefix_nil.
  unfold Js.is_slash, Js.slash. now destruct (Ascii.eqb c "/").
Qed.

Lemma startsWith_slash s :
  Js.startsWith s "/" = true -> exists t, s = String Js.slash t.
Proof.
  destruct s as [|c t]; [discriminate|]. rewrite startsWith_cons.
  intros E. apply is_slash_true in E. subst c. now exists t.
Qed.

Lemma startsWith_slash_false c t :
  Js.startsWith (String c t) "/" = false -> Js.is_slash c = false.
Proof. now rewrite startsWith_cons. Qed.

(** After the slashes are collapsed and a slash is put first, the
    text is a slash followed by a clean rest. *)
Lemma leading_slash_clean s :
  clean false s = true ->
  exists r, (if negb (Js.startsWith s "/") then "/" ++ s else s) = String Js.slash r
            /\ clean true r = true.
Proof.
  intros Hc. destruct (Js.startsWith s "/") eqn:E; simpl.
  - destruct (startsWith_slash _ E) as [t ->]. exists t. split; [reflexivity|].
    simpl in Hc. exact Hc.
  - exists s. split; [reflexivity|].
    destruct s as [|c t]; [reflexivity|].
    apply startsWith_slash_false in E. simpl in *. now rewrite E in *.
Qed.

Lemma normalizePath_ok path : routeOk (Paths.normalizePath path) = true.
Proof.
  unfold Paths.normalizePath. fold (dropTrailingSlash
    (Paths.collapseSlashes (if negb (Js.startsWith path "/") then "/" ++ path else path))).
  assert (H : exists t, (if negb (Js.startsWith path "/") then "/" ++ path else path)
                        = String Js.slash t).
  { destruct (Js.startsWith path "/") eqn:E; simpl.
    - apply startsWith_slash, E.
    - now exists path. }
  destruct H as [t ->]. unfold Paths.collapseSlashes. simpl.
  apply drop_trailing_ok, collapse_clean.
Qed.

Lemma buildRoute_ok controllerPath methodPath :
  routeOk (NestJSDiscoverer.buildRoute controllerPath methodPath) = true.
Proof.
  unfold NestJSDiscoverer.buildRoute.
  set (joined := if Js.truthy methodPath then _ else _).
  destruct (leading_slash_clean (Paths.collapseSlashes joined)
              (collapse_clean joined false)) as (r & Hr & Hc).
  fold (dropTrailingSlash
          (if negb (Js.startsWith (Paths.collapseSlashes joined) "/")
           then "/" ++ Paths.collapseSlashes joined
           else Paths.collapseSlashes joined)).
  rewrite Hr. now apply drop_trailing_ok.
Qed.

End RouteShape.

Section RouteLanguage.

Import Shape.

Lemma segs_language s :
  (segs true s = true ->
   exists g gs, Spec.isSegment g /\ Forall Spec.isSegment gs
                /\ s = g ++ Spec.moreSegments gs)
  /\ (segs false s = true ->
      exists g gs, Spec.slashFree g = true /\ Forall Spec.isSegment gs
                   /\ s = g ++ Spec.moreSegments gs).
Proof.
  induction s as [|c t [IHt IHf]].
  - split; [discriminate|]. intros _. exists EmptyString, []. auto.
  - simpl. destruct (Js.is_slash c) eqn:Ec; simpl.
    + split; [discriminate|]. intros H.
      destruct (IHt H) as (g & gs & Hg & Hgs & ->).
      apply is_slash_true in Ec. subst c.
      exists EmptyString, (g :: gs). auto.
    + assert (Hstep : segs false t = true ->
                exists g gs, Spec.isSegment g /\ Forall Spec.isSegment gs
                             /\ String c t = g ++ Spec.moreSegments gs).
      { intros H. destruct (IHf H) as (g & gs & Hg & Hgs & ->).
        exists (String c g), gs. repeat split; trivial; [discriminate|].
        simpl. now rewrite Ec, Hg. }
      split; [exact Hstep|]. intros H.
      destruct (Hstep H) as (g & gs & [_ Hg] & Hgs & ->). eauto.
Qed.

Lemma routeOk_regex route :
  routeOk route = true -> Spec.matchesRouteRegex route.
Proof.
  destruct route as [|c rest]; [discriminate|]. simpl.
  destruct (Js.is_slash c) eqn:Ec; [|discriminate].
  apply is_slash_true in Ec. subst c. simpl.
  destruct rest as [|d u]; [now left|]. intros H. right.
  destruct (proj1 (segs_language _) H) as (g & gs & Hg & Hgs & ->). eauto.
Qed.

Lemma includes_cons c t sub :
  Js.includes (String c t) sub
  = if String.prefix sub (String c t) then true else Js.includes t sub.
Proof. reflexivity. Qed.

Lemma segs_no_leading b t :
  segs true (String b t) = true -> Js.is_slash b = false.
Proof. simpl. now destruct (Js.is_slash b). Qed.

Lemma segs_no_double s : forall b,
  segs b s = true -> Js.includes s "//" = false.
Proof.
  induction s as [|c t IH]; intros b H; [reflexivity|].
  rewrite includes_cons, prefix_cons. simpl in H.
  fold Js.slash. fold (Js.is_slash c).
  destruct (Js.is_slash c) eqn:Ec.
  - apply andb_prop in H. destruct H as [_ H].
    destruct t as [|d u]; [discriminate|].
    rewrite prefix_cons, prefix_nil. fold Js.slash. fold (Js.is_slash d).
    rewrite (segs_no_leading _ _ H). now apply IH with (b := true).
  - now apply IH with (b := false).
Qed.

Lemma segs_no_trailing s : forall b,
  segs b s = true -> Js.endsWithChar s Js.slash = false.
Proof.
  induction s as [|c t IH]; intros b H; [reflexivity|].
  simpl in H. destruct t as [|d u].
  - simpl. fold (Js.is_slash c). destruct (Js.is_slash c); [|reflexivity].
    apply andb_prop in H. destruct H as [_ H]. discriminate.
  - change (Js.endsWithChar (String c (String d u)) Js.slash)
      with (Js.endsWithChar (String d u) Js.slash).
    destruct (Js.is_slash c).
    + apply andb_prop in H. destruct H as [_ H]. now apply IH with (b := true).
    + now apply IH with (b := false).
Qed.

Lemma routeOk_invariant route :
  routeOk route = true -> Spec.routeInvariant route.
Proof.
  destruct route as [|c rest]; [discriminate|]. unfold routeOk.
  destruct (Js.is_slash c) eqn:Ec; [|discriminate].
  cbn [andb]. intros H. repeat split.
  - now rewrite startsWith_cons.
  - destruct rest as [|d u]; [apply is_slash_true in Ec; now subst c|].
    rewrite includes_cons, !prefix_cons, prefix_nil.
    fold Js.slash. fold (Js.is_slash c). fold (Js.is_slash d).
    rewrite Ec, (segs_no_leading _ _ H). now apply segs_no_double with (b := true).
  - destruct rest as [|d u].
    + intros _. apply is_slash_true in Ec. now subst c.
    + change (Js.endsWithChar (String c (String d u)) Js.slash)
        with (Js.endsWithChar (String d u) Js.slash).
      now rewrite (segs_no_trailing _ _ H).
Qed.

Lemma in_somes {A} (e : A) (xs : list (option A)) :
  In e (Js.somes xs) -> In (Some e) xs.
Proof.
  unfold Js.somes. intros H. apply in_flat_map in H.
  destruct H as ([a|] & Hin & He); [|destruct He].
  destruct He as [<-|[]]. exact Hin.
Qed.

Ltac crack H :=
  repeat match type of H with
         | context [match ?x with _ => _ end] => destruct x; try discriminate H
         end.

Lemma express_route_ok registry callExpr filePath e :
  ExpressDiscoverer.processCallExpression registry callExpr filePath = Some e ->
  routeOk (Endpoint.route e) = true.
Proof.
  unfold ExpressDiscoverer.processCallExpression. intros H.
  crack H; injection H as <-; apply normalizePath_ok.
Qed.

Lemma koa_route_ok callExpr filePath e :
  KoaDiscoverer.processRouteCall callExpr filePath = Some e ->
  routeOk (Endpoint.route e) = true.
Proof.
  unfold KoaDiscoverer.processRouteCall. intros H.
  crack H; injection H as <-; apply normalizePath_ok.
Qed.

Lemma fastify_shorthand_route_ok callExpr filePath e :
  FastifyDiscoverer.processShorthandRoute callExpr filePath = Some e ->
  routeOk (Endpoint.route e) = true.
Proof.
  unfold FastifyDiscoverer.processShorthandRoute. intros H.
  destruct (Ts.CallNode.expression callExpr); try discriminate H.
  destruct (negb _); [discriminate|].
  destruct (FastifyDiscoverer.getCallerName _); [|discriminate].
  destruct (_ || _); [discriminate|].
  destruct (Ts.CallNode.arguments callExpr) as [|first rest]; [discriminate|].
  destruct (FastifyDiscoverer.extractStringValue first); [|discriminate].
  destruct (negb _); [discriminate|].
  destruct (match rest with [] => _ | _ => _ end) as [handler auth].
  injection H as <-. apply normalizePath_ok.
Qed.

Lemma fastify_route_ok callExpr filePath e :
  FastifyDiscoverer.processRouteMethod callExpr filePath = Some e ->
  routeOk (Endpoint.route e) = true.
Proof.
  unfold FastifyDiscoverer.processRouteMethod. intros H.
  destruct (Ts.CallNode.expression callExpr); try discriminate H.
  destruct (negb _); [discriminate|].
  destruct (FastifyDiscoverer.getCallerName _); [|discriminate].
  destruct (_ || _); [discriminate|].
  destruct (Ts.CallNode.arguments callExpr) as [|[] rest]; try discriminate H.
  destruct (FastifyDiscoverer.RouteOptions.method _); [|discriminate].
  destruct (FastifyDiscoverer.RouteOptions.url _); [|discriminate].
  destruct (negb _); [discriminate|].
  injection H as <-. apply normalizePath_ok.
Qed.

Lemma nestjs_route_ok methodNode filePath controllerPath controllerName classAuth e :
  NestJSDiscoverer.processMethod methodNode filePath controllerPath
    controllerName classAuth = Some e ->
  routeOk (Endpoint.route e) = true.
Proof.
  unfold NestJSDiscoverer.processMethod. intros H.
  destruct (NestJSDiscoverer.findHttpDecorator _) as [[m p]|]; [|discriminate].
  injection H as <-. apply buildRoute_ok.
Qed.

Lemma discovered_routeOk (e : Endpoint.t) :
  (exists registry filePath calls,
      In e (snd (ExpressDiscoverer.discover registry filePath calls)))
  \/ (exists filePath statements, In e (NestJSDiscoverer.discover filePath statements))
  \/ (exists filePath calls, In e (FastifyDiscoverer.discover filePath calls))
  \/ (exists filePath calls, In e (KoaDiscoverer.discover filePath calls)) ->
  routeOk (Endpoint.route e) = true.
Proof.
  intros [(reg & f & calls & H)|[(f & stmts & H)|[(f & calls & H)|(f & calls & H)]]].
  - apply in_somes, in_map_iff in H. destruct H as (c & Hc & _).
    eapply express_route_ok, Hc.
  - unfold NestJSDiscoverer.discover in H. apply in_flat_map in H.
    destruct H as ([cls|] & _ & H); [|destruct H].
    unfold NestJSDiscoverer.processClass in H.
    destruct (find _ _); [|destruct H].
    apply in_somes, in_map_iff in H. destruct H as ([m|] & Hm & _);
      [|discriminate]. eapply nestjs_route_ok, Hm.
  - apply in_somes, in_map_iff in H. destruct H as (c & Hc & _).
    unfold FastifyDiscoverer.processCall in Hc.
    destruct (FastifyDiscoverer.processShorthandRoute c f) eqn:E.
    + injection Hc as <-. eapply fastify_shorthand_route_ok, E.
    + eapply fastify_route_ok, Hc.
  - apply in_somes, in_map_iff in H. destruct H as (c & Hc & _).
    eapply koa_route_ok, Hc.
Qed.

End RouteLanguage.

(** C2.  Every endpoint a discoverer emits has a route in the language
    of the route expression: it starts with a slash, has no two slashes
    in a row and ends with a slash only when it is the root. *)
Theorem discovered_route_shape (e : Endpoint.t) :
  (exists registry filePath calls,
      In e (snd (ExpressDiscoverer.discover registry filePath calls)))
  \/ (exists filePath statements, In e (NestJSDiscoverer.discover filePath statements))
  \/ (exists filePath calls, In e (FastifyDiscoverer.discover filePath calls))
  \/ (exists filePath calls, In e (KoaDiscoverer.discover filePath calls)) ->
  Spec.matchesRouteRegex (Endpoint.route e) /\ Spec.routeInvariant (Endpoint.route e).
Proof.
  intros H. apply discovered_routeOk in H. split.
  - now apply routeOk_regex.
  - now apply routeOk_invariant.
Qed.

(** C2, witness: the endpoint the Koa discoverer emits for
    [router.get('users//:id/', requireAuth, show)]. *)
Lemma discovered_route_shape_witness :
  KoaDiscoverer.discover "routes.ts" [SampleCalls.koaShow] = [SampleCalls.koaEndpoint]
  /\ Spec.matchesRouteRegex "/users/:id" /\ Spec.routeInvariant "/users/:id".
Proof.
  split; [reflexivity|].
  apply (discovered_route_shape SampleCalls.koaEndpoint).
  right; right; right. exists "routes.ts", [SampleCalls.koaShow].
  left. reflexivity.
Defined.

(** ** Decorator-controller authorization *)

Section NestJSAuthorization.

Import Ts Scenario.
Import NestJSAuthExtractor.

(** The class-level loop in closed form: only auth guards are kept. *)
Lemma classGuards_fold guards : forall a e r p m g c,
  fold_left classGuard guards (AuthorizationInfo.mk a e r p m g c)
  = AuthorizationInfo.mk (a || existsb isAuthGuard guards) e r p m
      (g ++ filter isAuthGuard guards)%list c.
Proof.
  induction guards as [|x guards IH]; intros a e r p m g c; simpl.
  - now rewrite orb_false_r, app_nil_r.
  - unfold classGuard at 2. destruct (isAuthGuard x) eqn:E; simpl.
    + unfold AuthorizationInfo.set_guardNames,
        AuthorizationInfo.set_isAuthenticated. simpl.
      rewrite IH. now rewrite orb_true_r, <- app_assoc.
    + apply IH.
Qed.

Lemma addGuard_closed x a e r p m g c :
  addGuard x (AuthorizationInfo.mk a e r p m g c)
  = AuthorizationInfo.mk (a || isAuthGuard x) e r p m (g ++ [x])%list c.
Proof.
  unfold addGuard. destruct (isAuthGuard x); simpl.
  - now rewrite orb_true_r.
  - now rewrite orb_false_r.
Qed.

(** The method-level loop in closed form: every named argument is
    appended, matching or not. *)
Lemma useGuards_fold args : forall a e r p m g c,
  fold_left useGuardsArg args (AuthorizationInfo.mk a e r p m g c)
  = AuthorizationInfo.mk (a || existsb isAuthGuard (guardArgNames args)) e r p m
      (g ++ guardArgNames args)%list c.
Proof.
  induction args as [|arg args IH]; intros a e r p m g c; simpl.
  - now rewrite orb_false_r, app_nil_r.
  - assert (Hskip :
      fold_left useGuardsArg args (AuthorizationInfo.mk a e r p m g c)
      = AuthorizationInfo.mk (a || existsb isAuthGuard (guardArgNames args))
          e r p m (g ++ guardArgNames args)%list c) by apply IH.
    assert (Hadd : forall x,
      fold_left useGuardsArg args (addGuard x (AuthorizationInfo.mk a e r p m g c))
      = AuthorizationInfo.mk
          (a || existsb isAuthGuard ([x] ++ guardArgNames args))
          e r p m (g ++ [x] ++ guardArgNames args)%list c).
    { intros x. rewrite addGuard_closed, IH. simpl.
      now rewrite orb_assoc, <- app_assoc. }
    destruct arg as [x| | | | |callee cargs| | | | |]; try exact Hskip.
    + apply Hadd.
    + destruct callee; try exact Hskip. apply Hadd.
Qed.

Lemma useGuards_decorator d auth :
  Loader.getDecoratorName d = Some "UseGuards" ->
  processDecorator d auth
  = fold_left useGuardsArg (Loader.getDecoratorArguments d) auth.
Proof. unfold processDecorator. now intros ->. Qed.

(** A decorator that is neither a role nor a policy decorator leaves
    roles and policies alone and never clears [isAuthenticated]. *)
Lemma processDecorator_keeps d a e r p m g c :
  roleOrPolicy d = false ->
  exists a' e' g',
    processDecorator d (AuthorizationInfo.mk a e r p m g c)
    = AuthorizationInfo.mk a' e' r p m g' c
    /\ (a = true -> a' = true).
Proof.
  unfold roleOrPolicy, processDecorator.
  destruct (Loader.getDecoratorName d) as [name|]; [|intros _; eauto 6].
  intros H. apply orb_false_elim in H. destruct H as [Hr Hp].
  destruct (negb (Js.truthy name)); [eauto 6|].
  destruct (Loader.has PUBLIC_DECORATORS name); [eexists _, _, _; split; [reflexivity|auto]|].
  destruct (String.eqb name "UseGuards").
  - rewrite useGuards_fold. eexists _, _, _. split; [reflexivity|].
    now intros ->.
  - rewrite Hr, Hp. eauto 6.
Qed.

Lemma processDecorators_keep ds : forall a e r p m g c,
  forallb (fun d => negb (roleOrPolicy d)) ds = true ->
  exists a' e' g',
    fold_left (fun auth d => processDecorator d auth) ds
      (AuthorizationInfo.mk a e r p m g c)
    = AuthorizationInfo.mk a' e' r p m g' c
    /\ (a = true -> a' = true).
Proof.
  induction ds as [|d ds IH]; intros a e r p m g c H; simpl.
  - eauto 6.
  - simpl in H. apply andb_prop in H. destruct H as [Hd Hds].
    apply negb_true_iff in Hd.
    destruct (processDecorator_keeps d a e r p m g c Hd) as (a1 & e1 & g1 & -> & Ha).
    destruct (IH a1 e1 r p m g1 c Hds) as (a2 & e2 & g2 & -> & Ha2).
    eexists _, _, _. split; [reflexivity|auto].
Qed.

(** What the extractor returns for a public method of a class with
    an auth guard, no role or policy decorator being present. *)
Lemma extract_public_under_guard guards isPublic decorators :
  existsb isAuthGuard guards = true ->
  existsb isPublicDecorator decorators = true ->
  forallb (fun d => negb (roleOrPolicy d)) decorators = true ->
  exists g m,
    extract decorators
      (Some (NestJSAuthContext.mk (Some guards) (Some []) (Some isPublic)))
    = AuthorizationInfo.mk true true [] [] m g Authenticated.
Proof.
  intros Hg Hp Hd. unfold extract, collect, createDefaultAuthorizationInfo.
  rewrite classGuards_fold, Hg, Hp. simpl.
  unfold AuthorizationInfo.set_roles at 1. simpl.
  assert (H : forall e0, exists g m,
    let auth :=
      AuthorizationInfo.set_isExplicitlyPublic true
        (fold_left (fun auth d => processDecorator d auth) decorators
           (AuthorizationInfo.mk true e0 [] [] [] (filter isAuthGuard guards) Public)) in
    AuthorizationInfo.set_classification (determineClassification auth) auth
    = AuthorizationInfo.mk true true [] [] m g Authenticated).
  { intros e0.
    destruct (processDecorators_keep decorators true e0 [] [] []
                (filter isAuthGuard guards) Public Hd)
      as (a' & e' & g' & -> & Ha).
    rewrite (Ha eq_refl). exists g', []. reflexivity. }
  destruct isPublic; apply H.
Qed.

End NestJSAuthorization.

Section ClassGuards.

Import Ts NestJSDiscoverer.

Lemma classDecorator_guards info d :
  exists extra,
    ClassAuthInfo.guards (classDecorator info d)
    = (ClassAuthInfo.guards info ++ extra)%list
    /\ (Loader.getDecoratorName d = Some "UseGuards" ->
        extra = identifierTexts (Loader.getDecoratorArguments d)).
Proof.
  unfold classDecorator. destruct (Loader.getDecoratorName d) as [name|].
  - destruct (String.eqb name "UseGuards") eqn:E.
    + exists (identifierTexts (Loader.getDecoratorArguments d)).
      split; [|reflexivity].
      destruct (String.eqb name "Roles");
        destruct (_ || _); reflexivity.
    + exists []. split.
      * rewrite app_nil_r. destruct (String.eqb name "Roles");
          destruct (_ || _); reflexivity.
      * intros H. injection H as ->. discriminate E.
  - exists []. split; [now rewrite app_nil_r|discriminate].
Qed.

Lemma classDecorators_keep_guards ds : forall info g,
  In g (ClassAuthInfo.guards info) ->
  In g (ClassAuthInfo.guards (fold_left classDecorator ds info)).
Proof.
  induction ds as [|d ds IH]; intros info g Hg; [exact Hg|].
  simpl. apply IH. destruct (classDecorator_guards info d) as (extra & -> & _).
  apply in_or_app. now left.
Qed.

(** An identifier argument of a class-level [@UseGuards] is among the
    guards the discoverer hands to the extractor. *)
Lemma class_guard_collected ds d g :
  In d ds ->
  Loader.getDecoratorName d = Some "UseGuards" ->
  In (Identifier g) (Loader.getDecoratorArguments d) ->
  In g (ClassAuthInfo.guards (extractClassAuthInfo ds)).
Proof.
  unfold extractClassAuthInfo. generalize (ClassAuthInfo.mk [] [] false).
  induction ds as [|x ds IH]; intros info Hd Hn Hg; [destruct Hd|].
  simpl. destruct Hd as [->|Hd].
  - apply classDecorators_keep_guards.
    destruct (classDecorator_guards info d) as (extra & -> & Hextra).
    apply in_or_app. right. rewrite (Hextra Hn).
    unfold identifierTexts. apply in_flat_map. exists (Identifier g).
    split; [exact Hg|now left].
  - now apply IH.
Qed.

End ClassGuards.

Lemma findings_authenticated_public (e : Endpoint.t) (m g : list string) :
  Endpoint.type e = NestJS ->
  Endpoint.authorization e = AuthorizationInfo.mk true true [] [] m g Authenticated ->
  map idAndSeverity (RuleEngine.evaluate (RuleEngine.initializeRules None) [e])
  = if isWriteMethod (Endpoint.method e)
    then [("AP002", High); ("AP003", Medium)]
    else [("AP003", Medium)].
Proof.
  destruct e as [route method handler controller type location auth].
  simpl. intros -> ->. destruct method; reflexivity.
Qed.

(** C4, as the code has it.  For a method of a decorator controller
    whose class carries [@UseGuards] with an auth guard and which
    carries a public marker (no role or policy decorator at either
    level), the
    authorization is authenticated and explicitly public with
    classification Authenticated, and the catalogue yields AP003
    (Medium) alone when the HTTP method is not a write method; for a
    write method AP002 (High) comes first.  AP001, AP004 and AP008
    never fire. *)
Theorem public_method_under_guarded_class
    (classDecorators : list Ts.Decorator.t) (guardDecorator : Ts.Decorator.t)
    (guard : string) (methodNode : Ts.MethodDeclaration.t)
    (filePath controllerPath controllerName : string) (e : Endpoint.t) :
  In guardDecorator classDecorators ->
  Loader.getDecoratorName guardDecorator = Some "UseGuards" ->
  In (Ts.Identifier guard) (Loader.getDecoratorArguments guardDecorator) ->
  NestJSAuthExtractor.isAuthGuard guard = true ->
  NestJSDiscoverer.ClassAuthInfo.roles
    (NestJSDiscoverer.extractClassAuthInfo classDecorators) = [] ->
  existsb NestJSAuthExtractor.isPublicDecorator
          (Ts.MethodDeclaration.decorators methodNode) = true ->
  forallb (fun d => negb (Scenario.roleOrPolicy d))
          (Ts.MethodDeclaration.decorators methodNode) = true ->
  NestJSDiscoverer.processMethod methodNode filePath controllerPath
    controllerName (NestJSDiscoverer.extractClassAuthInfo classDecorators) = Some e ->
  Scenario.authFacts e = (true, true, Authenticated)
  /\ map idAndSeverity (RuleEngine.evaluate (RuleEngine.initializeRules None) [e])
     = (if isWriteMethod (Endpoint.method e)
        then [("AP002", High); ("AP003", Medium)]
        else [("AP003", Medium)])
  /\ (forall id, In id ["AP001"; "AP004"; "AP008"] ->
        ~ In id (map Finding.ruleId
                     (RuleEngine.evaluate (RuleEngine.initializeRules None) [e]))).
Proof.
  intros Hclass Hname Harg Hguard Hr Hp Hd He.
  set (classAuth := NestJSDiscoverer.extractClassAuthInfo classDecorators) in *.
  assert (Hg : existsb NestJSAuthExtractor.isAuthGuard
                 (NestJSDiscoverer.ClassAuthInfo.guards classAuth) = true).
  { apply existsb_exists. exists guard. split; [|exact Hguard].
    eapply class_guard_collected; eassumption. }
  unfold NestJSDiscoverer.processMethod in He.
  destruct (NestJSDiscoverer.findHttpDecorator _) as [[httpMethod routePath]|];
    [|discriminate].
  rewrite Hr in He.
  destruct (extract_public_under_guard _
              (NestJSDiscoverer.ClassAuthInfo.isPublic classAuth) _ Hg Hp Hd)
    as (g & m & Hauth).
  rewrite Hauth in He. injection He as He.
  assert (Ht : Endpoint.type e = NestJS) by now subst e.
  assert (Ha : Endpoint.authorization e
               = AuthorizationInfo.mk true true [] [] m g Authenticated)
    by now subst e.
  clear He. pose proof (findings_authenticated_public e m g Ht Ha) as Hids.
  split; [unfold Scenario.authFacts; now rewrite Ha|]. split; [exact Hids|].
  intros id Hin Hfound.
  replace (map Finding.ruleId
             (RuleEngine.evaluate (RuleEngine.initializeRules None) [e]))
    with (map fst (map idAndSeverity
                     (RuleEngine.evaluate (RuleEngine.initializeRules None) [e])))
    in Hfound by (rewrite map_map; reflexivity).
  rewrite Hids in Hfound.
  destruct (isWriteMethod (Endpoint.method e)); simpl in Hin, Hfound;
    repeat (destruct Hin as [<-|Hin]; [intuition discriminate|]); destruct Hin.
Qed.

(** C4, witness: [@Public() @Get('feedback')] under
    [@UseGuards(JwtAuthGuard)] gets AP003 alone. *)
Lemma public_method_under_guarded_class_witness :
  map Scenario.authFacts (Scenario.protectedEndpoints "Get")
  = [(true, true, Authenticated)]
  /\ map idAndSeverity
         (RuleEngine.evaluate (RuleEngine.initializeRules None)
            (Scenario.protectedEndpoints "Get"))
     = [("AP003", Medium)].
Proof.
  split; [reflexivity|].
  exact (proj1 (proj2
    (public_method_under_guarded_class
       (Ts.ClassDeclaration.decorators (Scenario.protectedController "Get"))
       (Scenario.decorator "UseGuards" [Ts.Identifier "JwtAuthGuard"])
       "JwtAuthGuard"
       (Ts.MethodDeclaration.mk (Ts.IdentifierName "submitFeedback")
          [Scenario.decorator "Public" [];
           Scenario.decorator "Get" [Ts.StringLiteral "feedback"]] 20 2)
       "app.controller.ts" "protected" "ProtectedController"
       (nth 0 (Scenario.protectedEndpoints "Get") Sample.ordersRoute)
       (or_intror (or_introl eq_refl)) eq_refl (or_introl eq_refl)
       eq_refl eq_refl eq_refl eq_refl eq_refl))).
Defined.

(** C4, counterexample to the claim as worded: the same method with
    [@Post] is authenticated, explicitly public and classified
    Authenticated, and gets two findings, AP002 and AP003. *)
Lemma public_post_counterexample :
  map Scenario.authFacts (Scenario.protectedEndpoints "Post")
  = [(true, true, Authenticated)]
  /\ map idAndSeverity
         (RuleEngine.evaluate (RuleEngine.initializeRules None)
            (Scenario.protectedEndpoints "Post"))
     = [("AP002", High); ("AP003", Medium)]
  /\ map idAndSeverity
         (RuleEngine.evaluate (RuleEngine.initializeRules None)
            (Scenario.protectedEndpoints "Post"))
     <> [("AP003", Medium)].
Proof.
  split; [reflexivity|]. split; [reflexivity|]. discriminate.
Qed.

Section GuardNames.

Import Ts Scenario.
Import NestJSAuthExtractor.

Lemma extract_class_guard_only guard :
  isAuthGuard guard = false ->
  extract [] (guardedClass [guard]) = createDefaultAuthorizationInfo.
Proof.
  intros H. unfold extract, collect, guardedClass. simpl.
  unfold classGuard. rewrite H. reflexivity.
Qed.

Lemma extract_method_guard_only guard arg :
  isAuthGuard guard = false ->
  guardArgNames [arg] = [guard] ->
  extract [decorator "UseGuards" [arg]] (guardedClass [])
  = AuthorizationInfo.mk false false [] [] [] [guard] Public.
Proof.
  intros H Harg.
  unfold extract, collect, guardedClass, createDefaultAuthorizationInfo.
  cbn -[processDecorator].
  rewrite !useGuards_decorator by reflexivity.
  change (Loader.getDecoratorArguments (decorator "UseGuards" [arg])) with [arg].
  unfold AuthorizationInfo.set_roles. cbn [AuthorizationInfo.isAuthenticated
    AuthorizationInfo.isExplicitlyPublic AuthorizationInfo.policies
    AuthorizationInfo.middlewareChain AuthorizationInfo.guardNames
    AuthorizationInfo.classification].
  rewrite useGuards_fold, Harg. cbn -[isAuthGuard]. rewrite H. reflexivity.
Qed.

End GuardNames.

Section GuardLevels.

Import Ts Scenario.
Import NestJSAuthExtractor.

Lemma addRole_guardNames v auth :
  AuthorizationInfo.guardNames (addRole v auth) = AuthorizationInfo.guardNames auth.
Proof. destruct v as [[|c s]|], auth; reflexivity. Qed.

Lemma addPolicy_guardNames v auth :
  AuthorizationInfo.guardNames (addPolicy v auth) = AuthorizationInfo.guardNames auth.
Proof. destruct v as [[|c s]|], auth; reflexivity. Qed.

Lemma literalArgs_guardNames
    (add : option string -> AuthorizationInfo.t -> AuthorizationInfo.t) :
  (forall v auth,
      AuthorizationInfo.guardNames (add v auth) = AuthorizationInfo.guardNames auth) ->
  forall args auth,
    AuthorizationInfo.guardNames (fold_left (literalArg add) args auth)
    = AuthorizationInfo.guardNames auth.
Proof.
  intros Hadd.
  assert (Helems : forall elems auth,
             AuthorizationInfo.guardNames
               (fold_left (fun auth elem => add (Loader.getStringLiteralValue elem) auth)
                          elems auth)
             = AuthorizationInfo.guardNames auth).
  { induction elems as [|x elems IH]; intros auth; [reflexivity|].
    cbn [fold_left]. now rewrite IH, Hadd. }
  induction args as [|arg args IH]; intros auth; [reflexivity|].
  cbn [fold_left]. rewrite IH. unfold literalArg. now rewrite Helems, Hadd.
Qed.

Lemma public_name_is_not_UseGuards name :
  Loader.has PUBLIC_DECORATORS name = true -> String.eqb name "UseGuards" = false.
Proof.
  unfold Loader.has. intros H. apply existsb_exists in H.
  destruct H as (x & Hx & Heq). apply String.eqb_eq in Heq. subst x.
  cbn [In PUBLIC_DECORATORS] in Hx.
  repeat (destruct Hx as [<-|Hx]; [reflexivity|]). destruct Hx.
Qed.

(** What one method-level decorator does to the guard names: a
    [@UseGuards] appends the names of its arguments, any other
    decorator leaves them. *)
Lemma processDecorator_guardNames d auth :
  AuthorizationInfo.guardNames (processDecorator d auth)
  = (AuthorizationInfo.guardNames auth
     ++ (if isUseGuards d then guardArgNames (Loader.getDecoratorArguments d)
         else []))%list.
Proof.
  unfold processDecorator, isUseGuards.
  destruct (Loader.getDecoratorName d) as [name|]; [|now rewrite app_nil_r].
  destruct (negb (Js.truthy name)) eqn:Et.
  - destruct name; [|discriminate Et]. now rewrite app_nil_r.
  - destruct (Loader.has PUBLIC_DECORATORS name) eqn:Ep.
    + rewrite (public_name_is_not_UseGuards name Ep), app_nil_r. now destruct auth.
    + destruct (String.eqb name "UseGuards").
      * destruct auth as [a e r q m g c]. now rewrite useGuards_fold.
      * rewrite app_nil_r.
        destruct (Loader.has ROLE_DECORATORS name);
          [apply literalArgs_guardNames, addRole_guardNames|].
        destruct (Loader.has POLICY_DECORATORS name);
          [apply literalArgs_guardNames, addPolicy_guardNames|reflexivity].
Qed.

Lemma decorators_guardNames ds : forall auth,
  AuthorizationInfo.guardNames
    (fold_left (fun auth d => processDecorator d auth) ds auth)
  = (AuthorizationInfo.guardNames auth ++ methodGuardNames ds)%list.
Proof.
  induction ds as [|d ds IH]; intros auth.
  - cbn [fold_left methodGuardNames flat_map]. now rewrite app_nil_r.
  - cbn [fold_left]. rewrite IH, processDecorator_guardNames.
    unfold methodGuardNames. cbn [flat_map]. now rewrite app_assoc.
Qed.

(** The guard names of an extraction, for any method decorators and
    any class context: the class guards that are auth guards, then
    the names of the method-level [@UseGuards]. *)
Lemma extract_guardNames decorators classGuards classRoles isPublic :
  AuthorizationInfo.guardNames
    (extract decorators
       (Some (NestJSAuthContext.mk classGuards classRoles isPublic)))
  = (filter isAuthGuard (classGuardsOf classGuards) ++ methodGuardNames decorators)%list.
Proof.
  unfold extract.
  set (collected := collect _ _).
  change (AuthorizationInfo.guardNames
            (AuthorizationInfo.set_classification
               (determineClassification collected) collected))
    with (AuthorizationInfo.guardNames collected).
  subst collected. unfold collect.
  set (start := match isPublic with Some true => _ | _ => _ end).
  assert (Hstart : AuthorizationInfo.guardNames start
                   = filter isAuthGuard (classGuardsOf classGuards)).
  { subst start. unfold createDefaultAuthorizationInfo.
    destruct classGuards as [guards|]; cbn [classGuardsOf].
    - rewrite classGuards_fold.
      destruct classRoles as [roles|], isPublic as [[|]|];
        try destruct (0 <? List.length roles)%nat; reflexivity.
    - destruct classRoles as [roles|], isPublic as [[|]|];
        try destruct (0 <? List.length roles)%nat; reflexivity. }
  destruct (existsb isPublicDecorator decorators);
    [change (AuthorizationInfo.guardNames
               (AuthorizationInfo.set_isExplicitlyPublic true
                  (fold_left (fun auth d => processDecorator d auth) decorators start)))
       with (AuthorizationInfo.guardNames
               (fold_left (fun auth d => processDecorator d auth) decorators start))|];
    now rewrite decorators_guardNames, Hstart.
Qed.

(** A class guard that is no auth guard can be struck from the
    context: the extraction is the same without it. *)
Lemma extract_without_class_guard guard decorators before after classRoles isPublic :
  isAuthGuard guard = false ->
  extract decorators
    (Some (NestJSAuthContext.mk (Some (before ++ guard :: after)%list)
             classRoles isPublic))
  = extract decorators
      (Some (NestJSAuthContext.mk (Some (before ++ after)%list) classRoles isPublic)).
Proof.
  intros H. unfold extract, collect.
  assert (Hfold : forall auth,
             fold_left classGuard (before ++ guard :: after)%list auth
             = fold_left classGuard (before ++ after)%list auth).
  { intros auth. rewrite !fold_left_app. cbn [fold_left].
    unfold classGuard at 2. now rewrite H. }
  now rewrite Hfold.
Qed.

Lemma flat_map_nil {A B} (f : A -> list B) (xs : list A) :
  flat_map f xs = [] -> forall x, In x xs -> f x = [].
Proof.
  induction xs as [|y ys IH]; intros H x Hx; [destruct Hx|].
  cbn [flat_map] in H. apply app_eq_nil in H. destruct H as [Hy Hys].
  destruct Hx as [<-|Hx]; [exact Hy|now apply IH].
Qed.

Lemma processDecorator_noAuth d auth :
  isPublicDecorator d = false ->
  roleOrPolicy d = false ->
  (if isUseGuards d then guardArgNames (Loader.getDecoratorArguments d) else []) = [] ->
  processDecorator d auth = auth.
Proof.
  unfold isPublicDecorator, roleOrPolicy, isUseGuards, processDecorator.
  destruct (Loader.getDecoratorName d) as [name|]; [|reflexivity].
  intros Hp Hr Hg. destruct (Js.truthy name); [|reflexivity].
  cbn [negb andb] in *. rewrite Hp.
  destruct (String.eqb name "UseGuards").
  - destruct auth as [a e r q m g c]. rewrite useGuards_fold, Hg.
    cbn [existsb]. now rewrite orb_false_r, app_nil_r.
  - apply orb_false_elim in Hr. destruct Hr as [-> ->]. reflexivity.
Qed.

(** Method decorators that say nothing about authorization leave the
    authorization of an unguarded class at its default. *)
Lemma extract_noAuth decorators :
  noAuthDecorators decorators = true ->
  extract decorators (guardedClass []) = createDefaultAuthorizationInfo.
Proof.
  unfold noAuthDecorators. intros H. apply andb_prop in H. destruct H as [Hall Hnames].
  assert (Hnil : methodGuardNames decorators = [])
    by (destruct (methodGuardNames decorators); [reflexivity|discriminate]).
  clear Hnames. unfold extract, collect, guardedClass.
  cbn [fold_left List.length Nat.ltb Nat.leb].
  assert (Hpublic : existsb isPublicDecorator decorators = false).
  { apply not_true_is_false. intros E. apply existsb_exists in E.
    destruct E as (d & Hd & Hp).
    pose proof (proj1 (forallb_forall _ _) Hall d Hd) as Hd'.
    cbv beta in Hd'. rewrite Hp in Hd'. discriminate. }
  rewrite Hpublic.
  assert (Hfold : forall auth,
             fold_left (fun auth d => processDecorator d auth) decorators auth = auth).
  { unfold methodGuardNames in Hnil. pose proof (flat_map_nil _ _ Hnil) as Heach.
    clear Hnil Hpublic. induction decorators as [|d ds IH]; intros auth; [reflexivity|].
    cbn [fold_left]. cbn [forallb] in Hall. apply andb_prop in Hall.
    destruct Hall as [Hd Hds]. apply andb_prop in Hd. destruct Hd as [Hp Hr].
    apply negb_true_iff in Hp. apply negb_true_iff in Hr.
    rewrite (processDecorator_noAuth d auth Hp Hr (Heach d (or_introl eq_refl))).
    apply IH; [exact Hds|]. intros x Hx. apply Heach. now right. }
  rewrite Hfold. reflexivity.
Qed.

(** AP001 and AP008 need an empty [guardNames]. *)
Lemma guard_names_silence (e : Endpoint.t) :
  AuthorizationInfo.guardNames (Endpoint.authorization e) <> [] ->
  PublicWithoutExplicitIntent.evaluate e = []
  /\ UnprotectedEndpoint.evaluate e = [].
Proof.
  intros H. unfold PublicWithoutExplicitIntent.evaluate, UnprotectedEndpoint.evaluate.
  destruct (AuthorizationInfo.guardNames (Endpoint.authorization e)) as [|g gs];
    [contradiction|].
  cbn [List.length Nat.eqb]. rewrite !andb_false_r.
  destruct (AuthorizationInfo.classification _);
    rewrite ?andb_false_l; split; reflexivity.
Qed.

Lemma processMethod_authorization m filePath controllerPath controllerName classAuth e :
  NestJSDiscoverer.processMethod m filePath controllerPath controllerName classAuth
  = Some e ->
  Endpoint.authorization e
  = extract (MethodDeclaration.decorators m)
      (Some (NestJSAuthContext.mk
               (Some (NestJSDiscoverer.ClassAuthInfo.guards classAuth))
               (Some (NestJSDiscoverer.ClassAuthInfo.roles classAuth))
               (Some (NestJSDiscoverer.ClassAuthInfo.isPublic classAuth)))).
Proof.
  unfold NestJSDiscoverer.processMethod.
  destruct (NestJSDiscoverer.findHttpDecorator _) as [[httpMethod routePath]|];
    [|discriminate].
  intros H. now injection H as <-.
Qed.

Lemma default_authorization_findings (e : Endpoint.t) :
  Endpoint.authorization e = createDefaultAuthorizationInfo ->
  map Finding.ruleId (PublicWithoutExplicitIntent.evaluate e) = ["AP001"]
  /\ map Finding.ruleId (UnprotectedEndpoint.evaluate e) = ["AP008"].
Proof.
  unfold PublicWithoutExplicitIntent.evaluate, UnprotectedEndpoint.evaluate.
  intros ->. split; reflexivity.
Qed.

End GuardLevels.

(** C8, as the code has it.  At method level an argument of
    [@UseGuards] adds a guard name when it is an identifier or a call
    of an identifier (the name is the callee's), matching an
    auth-guard pattern or not, and [isAuthenticated] is set only by a
    match; an argument of another shape, a call of something else
    included, adds nothing.  At class level only the names that match
    are kept.  For any method decorators and any class context the
    guard names are the matching class guards followed by the names of
    the method-level [@UseGuards], and a class guard that matches no
    pattern can be struck from the context without changing the
    extraction.  So on the endpoints the discoverer builds, a guard
    that matches no pattern leaves AP001 and AP008 firing when it
    stands on the class, and silences both when it stands on the
    method. *)
Theorem guard_names_by_level (guard : string) (callArgs : list Ts.Expression) :
  NestJSAuthExtractor.isAuthGuard guard = false ->
  (forall d auth,
      Loader.getDecoratorName d = Some "UseGuards" ->
      AuthorizationInfo.guardNames (NestJSAuthExtractor.processDecorator d auth)
      = (AuthorizationInfo.guardNames auth
         ++ Scenario.guardArgNames (Loader.getDecoratorArguments d))%list
      /\ AuthorizationInfo.isAuthenticated (NestJSAuthExtractor.processDecorator d auth)
         = AuthorizationInfo.isAuthenticated auth
           || existsb NestJSAuthExtractor.isAuthGuard
                (Scenario.guardArgNames (Loader.getDecoratorArguments d)))
  /\ (forall name auth,
         Scenario.guardArgNames [Ts.Identifier name] = [name]
         /\ Scenario.guardArgNames [Ts.CallExpression (Ts.Identifier name) callArgs]
            = [name]
         /\ forall arg,
              (forall x, arg <> Ts.Identifier x) ->
              (forall x args', arg <> Ts.CallExpression (Ts.Identifier x) args') ->
              Scenario.guardArgNames [arg] = []
              /\ NestJSAuthExtractor.useGuardsArg auth arg = auth)
  /\ (forall decorators classGuards classRoles isPublic,
         AuthorizationInfo.guardNames
           (NestJSAuthExtractor.extract decorators
              (Some (NestJSAuthExtractor.NestJSAuthContext.mk
                       classGuards classRoles isPublic)))
         = (filter NestJSAuthExtractor.isAuthGuard (classGuardsOf classGuards)
            ++ methodGuardNames decorators)%list)
  /\ (forall decorators before after classRoles isPublic,
         NestJSAuthExtractor.extract decorators
           (Some (NestJSAuthExtractor.NestJSAuthContext.mk
                    (Some (before ++ guard :: after)%list) classRoles isPublic))
         = NestJSAuthExtractor.extract decorators
             (Some (NestJSAuthExtractor.NestJSAuthContext.mk
                      (Some (before ++ after)%list) classRoles isPublic)))
  /\ NestJSAuthExtractor.extract [] (Scenario.guardedClass [guard])
     = AuthorizationInfo.mk false false [] [] [] [] Public
  /\ NestJSAuthExtractor.extract
       [Scenario.decorator "UseGuards" [Ts.Identifier guard]]
       (Scenario.guardedClass [])
     = AuthorizationInfo.mk false false [] [] [] [guard] Public
  /\ NestJSAuthExtractor.extract
       [Scenario.decorator "UseGuards" [Ts.CallExpression (Ts.Identifier guard) callArgs]]
       (Scenario.guardedClass [])
     = AuthorizationInfo.mk false false [] [] [] [guard] Public
  /\ (forall methodNode filePath controllerPath controllerName e,
         NestJSDiscoverer.processMethod methodNode filePath controllerPath
           controllerName (NestJSDiscoverer.ClassAuthInfo.mk [guard] [] false)
         = Some e ->
         noAuthDecorators (Ts.MethodDeclaration.decorators methodNode) = true ->
         Endpoint.authorization e = createDefaultAuthorizationInfo
         /\ map Finding.ruleId (PublicWithoutExplicitIntent.evaluate e) = ["AP001"]
         /\ map Finding.ruleId (UnprotectedEndpoint.evaluate e) = ["AP008"])
  /\ (forall methodNode filePath controllerPath controllerName classAuth e,
         NestJSDiscoverer.processMethod methodNode filePath controllerPath
           controllerName classAuth = Some e ->
         In guard (methodGuardNames (Ts.MethodDeclaration.decorators methodNode)) ->
         In guard (AuthorizationInfo.guardNames (Endpoint.authorization e))
         /\ PublicWithoutExplicitIntent.evaluate e = []
         /\ UnprotectedEndpoint.evaluate e = [])
  /\ (forall decorators route method handlerName controllerName location,
         let atClass :=
           Endpoint.mk route method handlerName controllerName NestJS location
             (NestJSAuthExtractor.extract decorators (Scenario.guardedClass [guard])) in
         let atMethod :=
           Endpoint.mk route method handlerName controllerName NestJS location
             (NestJSAuthExtractor.extract
                (Scenario.decorator "UseGuards" [Ts.Identifier guard] :: decorators)
                (Scenario.guardedClass [])) in
         (noAuthDecorators decorators = true ->
          map Finding.ruleId (PublicWithoutExplicitIntent.evaluate atClass) = ["AP001"]
          /\ map Finding.ruleId (UnprotectedEndpoint.evaluate atClass) = ["AP008"])
         /\ PublicWithoutExplicitIntent.evaluate atMethod = []
         /\ UnprotectedEndpoint.evaluate atMethod = []).
Proof.
  intros H.
  split; [|split; [|split; [|split; [|split; [|split; [|split; [|split; [|split]]]]]]]].
  - intros d [a e r p m g c] Hd. rewrite (useGuards_decorator _ _ Hd).
    rewrite useGuards_fold. split; reflexivity.
  - intros name auth. split; [reflexivity|]. split; [reflexivity|].
    intros arg Hid Hcall.
    destruct arg as [x| | | | |callee cargs| | | | |];
      try (split; reflexivity).
    + now elim (Hid x).
    + destruct callee as [x| | | | | | | | | |]; try (split; reflexivity).
      now elim (Hcall x cargs).
  - apply extract_guardNames.
  - intros. now apply extract_without_class_guard.
  - now apply extract_class_guard_only.
  - now apply extract_method_guard_only.
  - now apply extract_method_guard_only.
  - intros methodNode filePath controllerPath controllerName e He Hplain.
    apply processMethod_authorization in He.
    cbn [NestJSDiscoverer.ClassAuthInfo.guards NestJSDiscoverer.ClassAuthInfo.roles
         NestJSDiscoverer.ClassAuthInfo.isPublic] in He.
    rewrite (extract_without_class_guard guard _ [] [] (Some []) (Some false) H) in He.
    cbn [app] in He. fold (Scenario.guardedClass []) in He.
    rewrite (extract_noAuth _ Hplain) in He.
    split; [exact He|]. now apply default_authorization_findings.
  - intros methodNode filePath controllerPath controllerName classAuth e He Hin.
    apply processMethod_authorization in He.
    assert (Hg : In guard (AuthorizationInfo.guardNames (Endpoint.authorization e))).
    { rewrite He, extract_guardNames. apply in_or_app. now right. }
    split; [exact Hg|]. apply guard_names_silence.
    intros Hnil. rewrite Hnil in Hg. destruct Hg.
  - intros decorators route method handlerName controllerName location. cbv zeta.
    split.
    + intros Hplain. apply default_authorization_findings.
      cbn [Endpoint.authorization]. unfold Scenario.guardedClass.
      rewrite (extract_without_class_guard guard _ [] [] (Some []) (Some false) H).
      cbn [app]. fold (Scenario.guardedClass []). now apply extract_noAuth.
    + apply guard_names_silence. cbn [Endpoint.authorization].
      unfold Scenario.guardedClass. rewrite extract_guardNames.
      cbn [classGuardsOf filter app]. unfold methodGuardNames. cbn [flat_map].
      discriminate.
Qed.

(** C8, witness: [ThrottlerGuard] matches no auth-guard pattern. *)
Lemma guard_names_by_level_witness :
  AuthorizationInfo.guardNames
    (NestJSAuthExtractor.extract [] (Scenario.guardedClass ["ThrottlerGuard"])) = []
  /\ AuthorizationInfo.guardNames
       (NestJSAuthExtractor.extract
          [Scenario.decorator "UseGuards" [Ts.Identifier "ThrottlerGuard"]]
          (Scenario.guardedClass [])) = ["ThrottlerGuard"].
Proof.
  pose proof (guard_names_by_level "ThrottlerGuard" [] eq_refl)
    as (_ & _ & _ & _ & Hclass & Hmethod & _).
  rewrite Hclass, Hmethod. split; reflexivity.
Defined.

(** C8, counterexample to the claim as worded: in
    [@UseGuards(guards.jwt())] the argument is a call expression, but
    its callee is no identifier, and nothing is appended to the guard
    names. *)
Lemma guard_call_argument_counterexample :
  Loader.getDecoratorArguments
    (Scenario.decorator "UseGuards"
       [Ts.CallExpression
          (Ts.PropertyAccessExpression (Ts.Identifier "guards") "jwt" "guards.jwt") []])
  = [Ts.CallExpression
       (Ts.PropertyAccessExpression (Ts.Identifier "guards") "jwt" "guards.jwt") []]
  /\ AuthorizationInfo.guardNames
       (NestJSAuthExtractor.extract
          [Scenario.decorator "UseGuards"
             [Ts.CallExpression
                (Ts.PropertyAccessExpression (Ts.Identifier "guards") "jwt" "guards.jwt")
                []]]
          (Scenario.guardedClass []))
     = [].
Proof. split; reflexivity. Qed.

(** ** Route patterns of suppressions *)

Section PatternFragment.

Import Regex SuppressionMatcher.

Lemma escaped_token c : isEscaped c = true -> escapedToken c = TLit c.
Proof.
  destruct c as [[|] [|] [|] [|] [|] [|] [|] [|]]; vm_compute; intros H;
    first [discriminate H | reflexivity].
Qed.

Lemma plain_token c :
  isEscaped c = false ->
  Ascii.eqb c "\"%char = false /\ simpleToken (plainToken c) = true.
Proof.
  destruct c as [[|] [|] [|] [|] [|] [|] [|] [|]]; vm_compute; intros H;
    first [discriminate H | now split].
Qed.

Lemma tokenize_escaped q :
  exists ts, tokenize (escapeSpecials q ++ "$") = Some (ts ++ [TDollar])%list
             /\ forallb simpleToken ts = true.
Proof.
  induction q as [|c q (ts & Hts & Hsimple)].
  - exists []. split; reflexivity.
  - simpl escapeSpecials. destruct (isEscaped c) eqn:E.
    + exists (TLit c :: ts). split; [|exact Hsimple].
      change ((String "\" (String c (escapeSpecials q)) ++ "$"))
        with (String "\"%char (String c (escapeSpecials q ++ "$"))).
      cbn [tokenize]. rewrite Ascii.eqb_refl, Hts, (escaped_token c E).
      reflexivity.
    + destruct (plain_token c E) as [Hb Hp].
      exists (plainToken c :: ts). split.
      * change (String c (escapeSpecials q) ++ "$")
          with (String c (escapeSpecials q ++ "$")).
        cbn [tokenize]. rewrite Hb, Hts. reflexivity.
      * cbn [forallb]. now rewrite Hp, Hsimple.
Qed.

Lemma consTerm_inside it r :
  insideFragment r = true -> insideFragment (consTerm it r) = true.
Proof. destruct r as [its e|[|]]; trivial. Qed.

Lemma parse_simple n : forall ts,
  (List.length ts <= n)%nat -> forallb simpleToken ts = true ->
  insideFragment (parseTerms (ts ++ [TDollar])%list) = true.
Proof.
  induction n as [|n IH]; intros ts Hlen Hs.
  - destruct ts; [reflexivity|simpl in Hlen; lia].
  - assert (Hrec : forall it ts',
              (List.length ts' <= n)%nat -> forallb simpleToken ts' = true ->
              insideFragment (consTerm it (parseTerms (ts' ++ [TDollar])%list)) = true)
      by (intros; now apply consTerm_inside, IH).
    destruct ts as [|[c| | | | |] [|[c2| | | | |] [|[c3| | | | |] rest]]];
      try discriminate Hs; try reflexivity; simpl in Hlen, Hs.
    + apply (Hrec _ (TLit c2 :: TLit c3 :: rest)); [simpl; lia|exact Hs].
    + apply (Hrec _ (TLit c2 :: TStar :: rest)); [simpl; lia|exact Hs].
    + apply (Hrec _ (TLit c2 :: TQuest :: rest)); [simpl; lia|exact Hs].
    + apply (Hrec _ (TLit c3 :: rest)); [simpl; lia|exact Hs].
    + apply (Hrec _ rest); [lia|exact Hs].
    + apply (Hrec _ (TLit c3 :: rest)); [simpl; lia|exact Hs].
    + apply (Hrec _ rest); [lia|exact Hs].
Qed.

(** The text built from any pattern stays inside the fragment that
    [Regex.compile] models. *)
Lemma regexSource_in_fragment pattern :
  Regex.compile (regexSource pattern) <> OutsideFragment.
Proof.
  unfold regexSource. set (q := replaceAll _ _ _).
  destruct (tokenize_escaped q) as (ts & Hts & Hs).
  unfold compile.
  change ("^" ++ escapeSpecials q ++ "$")
    with (String "^"%char (escapeSpecials q ++ "$")).
  cbn [tokenize]. change (Ascii.eqb "^" "\") with false. cbv iota.
  rewrite Hts. change (plainToken "^") with TCaret. cbn [option_map].
  unfold compileTokens.
  pose proof (parse_simple _ ts (le_n _) Hs) as Hin.
  destruct (parseTerms (ts ++ [TDollar])%list) as [its e|[|]];
    [discriminate|discriminate Hin|discriminate].
Qed.

End PatternFragment.

(** C5, what the code does.  The pattern's stars are turned into
    expression text and that text is then escaped with the rest, so
    [/api/*] is compiled to an expression for the literal text
    [/api/[^/]+] and [/api/**] to [/api/] followed by dots: neither
    [/api/users] nor [/api/a/b] is matched, although the design's
    reading of the patterns matches them. *)
Theorem route_pattern_wildcards_escaped :
  SuppressionMatcher.regexSource "/api/*" = "^/api/\[\^/\]\+$"
  /\ SuppressionMatcher.regexSource "/api/**" = "^/api/\.*$"
  /\ SuppressionMatcher.matchesRoutePattern "/api/*" "/api/users" = false
  /\ SuppressionMatcher.matchesRoutePattern "/api/**" "/api/a/b" = false
  /\ Spec.glob "/api/*" "/api/users" = true
  /\ Spec.glob "/api/**" "/api/a/b" = true
  /\ Spec.glob "/api/*" "/api/a/b" = false
  /\ SuppressionMatcher.matchesRoutePattern "/api/*" "/api/a/b" = false
  /\ SuppressionMatcher.matchesRoutePattern "/api/*" "/api/[^/]+" = true
  /\ SuppressionMatcher.matchesRoutePattern "/api/**" "/api/..." = true.
Proof. repeat split; vm_compute; reflexivity. Qed.

(** ** Roles from Express middleware names *)

Section RoleArgument.

Import Regex ExpressAuthExtractor.

Variable c : ascii.

Let has (s : string) : Prop := Js.includes s (String c EmptyString) = true.

Lemma includes_char x t :
  Js.includes (String x t) (String c EmptyString)
  = Ascii.eqb x c || Js.includes t (String c EmptyString).
Proof.
  rewrite includes_cons, prefix_cons, prefix_nil. now destruct (Ascii.eqb x c).
Qed.

Lemma has_later x t : has t -> has (String x t).
Proof. unfold has. rewrite includes_char. intros ->. apply orb_true_r. Qed.

Lemma keep_some it x o r : keep it x o = Some r -> exists r', o = Some r'.
Proof.
  unfold keep. destruct (captured it); [|eauto].
  destruct o; [eauto|discriminate].
Qed.

Section Continuation.

Variable it : item.
Variable k : string -> option string.
Hypothesis k_has : forall s r, k s = Some r -> has s.

Lemma more_has s : forall r, more it k s = Some r -> has s.
Proof.
  induction s as [|x t IH]; intros r; simpl; [apply k_has|].
  destruct (accepts it x); [|apply k_has].
  destruct (greedy it).
  - destruct (keep it x (more it k t)) eqn:E.
    + intros _. apply keep_some in E. destruct E as [r' E].
      eapply has_later, IH, E.
    + apply k_has.
  - destruct (k (String x t)) eqn:E.
    + intros _. eapply k_has, E.
    + intros H. apply keep_some in H. destruct H as [r' H].
      eapply has_later, IH, H.
Qed.

Lemma step_has s r : step it k s = Some r -> has s.
Proof.
  unfold step. destruct (rep it).
  - destruct s as [|x t]; [discriminate|].
    destruct (accepts it x); [|discriminate].
    intros H. apply keep_some in H. destruct H as [r' H].
    eapply has_later, k_has, H.
  - destruct s as [|x t]; [apply k_has|].
    destruct (accepts it x); [|apply k_has].
    destruct (greedy it).
    + destruct (keep it x (k t)) eqn:E.
      * intros _. apply keep_some in E. destruct E as [r' E].
        eapply has_later, k_has, E.
      * apply k_has.
    + destruct (k (String x t)) eqn:E.
      * intros _. eapply k_has, E.
      * intros H. apply keep_some in H. destruct H as [r' H].
        eapply has_later, k_has, H.
  - apply more_has.
  - destruct s as [|x t]; [discriminate|].
    destruct (accepts it x); [|discriminate].
    intros H. apply keep_some in H. destruct H as [r' H].
    eapply has_later, more_has, H.
Qed.

End Continuation.

(** An expression that ends with the literal [c] only matches texts
    that contain [c]. *)
Lemma run_has fin its : forall s r,
  run fin (its ++ [chr c])%list s = Some r -> has s.
Proof.
  induction its as [|it its IH]; intros s r.
  - simpl. unfold step. simpl. destruct s as [|x t]; [discriminate|].
    destruct (Ascii.eqb c x) eqn:E; [|discriminate].
    intros _. unfold has. rewrite includes_char.
    apply Ascii.eqb_eq in E. subst x. now rewrite Ascii.eqb_refl.
  - simpl. apply step_has. exact IH.
Qed.

Lemma search_has fin its s : forall r,
  search fin (its ++ [chr c])%list s = Some r -> has s.
Proof.
  induction s as [|x t IH]; intros r; simpl.
  - destruct (run fin (its ++ [chr c])%list EmptyString) eqn:E; [|discriminate].
    intros _. eapply run_has, E.
  - destruct (run fin (its ++ [chr c])%list (String x t)) eqn:E.
    + intros _. eapply run_has, E.
    + intros H. eapply has_later, IH, H.
Qed.

End RoleArgument.

(** The expression of [extractRolesFromMiddleware] ends with a closing
    bracket: a name without one never yields roles from its
    arguments. *)
Lemma roleArgument_needs_bracket (name : string) :
  Js.includes name "]" = false ->
  Regex.exec ExpressAuthExtractor.roleArgument name = None.
Proof.
  intros H. destruct (Regex.exec ExpressAuthExtractor.roleArgument name) eqn:E;
    [|reflexivity].
  unfold Regex.exec, ExpressAuthExtractor.roleArgument in E. simpl in E.
  apply (search_has "]"%char _
           [Regex.chr "("%char;
            Regex.mkItem ExpressAuthExtractor.isQuote Regex.Opt true false;
            Regex.mkItem
              (fun c => negb (ExpressAuthExtractor.isQuote c
                              || Ascii.eqb c ")"%char || Ascii.eqb c "]"%char))
              Regex.Plus true true;
            Regex.mkItem ExpressAuthExtractor.isQuote Regex.Opt true false]) in E.
  congruence.
Qed.

(** C7, what the code does.  The names [requireRole('admin')] and
    [hasRole(['user', 'admin'])] contain no text that the expression
    matches (it wants a closing bracket right after the argument), and
    they have no dot, so no role is extracted from them, by the
    function or by the extractor as a whole; the argument is only
    picked up in front of a closing bracket. *)
Theorem quoted_role_arguments_not_extracted :
  Regex.exec ExpressAuthExtractor.roleArgument "requireRole('admin')" = None
  /\ ExpressAuthExtractor.extractRolesFromMiddleware "requireRole('admin')" = []
  /\ ExpressAuthExtractor.extractRolesFromMiddleware "hasRole(['user', 'admin'])" = []
  /\ AuthorizationInfo.roles
       (ExpressAuthExtractor.extract
          ["requireRole('admin')"; "hasRole(['user', 'admin'])"] None) = []
  /\ ExpressAuthExtractor.extractRolesFromMiddleware "hasRole(user, admin]"
     = ["user"; "admin"].
Proof.
  split; [apply roleArgument_needs_bracket; reflexivity|].
  split; [unfold ExpressAuthExtractor.extractRolesFromMiddleware;
          rewrite roleArgument_needs_bracket by reflexivity; reflexivity|].
  repeat split; vm_compute; reflexivity.
Qed.

(* ================================================================= *)
(** * Further properties of the sources *)

(** ** Literal expressions under the [i] flag *)

Section LiteralPatterns.

Import Regex.

Lemma run_word_i fin w : forall s,
  run fin (word_i w) s
  = match s, w with
    | _, EmptyString => if fin s then Some EmptyString else None
    | EmptyString, String _ _ => None
    | String x s', String c w' =>
        if Ascii.eqb (Js.lower_char x) (Js.lower_char c)
        then run fin (word_i w') s'
        else None
    end.
Proof.
  destruct w as [|c w']; intros s; [now destruct s|].
  destruct s as [|x s']; reflexivity.
Qed.

(** [/^w$/i] tests equality up to case. *)
Lemma test_whole_i w : forall s,
  test (whole_i w) s = String.eqb (Js.toLowerCase s) (Js.toLowerCase w).
Proof.
  unfold test, exec, whole_i. simpl.
  induction w as [|c w IH]; intros s; rewrite run_word_i.
  - now destruct s.
  - destruct s as [|x s']; [reflexivity|]. simpl String.eqb.
    destruct (Ascii.eqb (Js.lower_char x) (Js.lower_char c)); [apply IH|reflexivity].
Qed.

Lemma run_open_word_i w : forall s,
  match run (fun _ => true) (word_i w) s with Some _ => true | None => false end
  = String.prefix (Js.toLowerCase w) (Js.toLowerCase s).
Proof.
  induction w as [|c w IH]; intros s; rewrite run_word_i.
  - now destruct s.
  - destruct s as [|x s']; [reflexivity|].
    change (Js.toLowerCase (String c w))
      with (String (Js.lower_char c) (Js.toLowerCase w)).
    change (Js.toLowerCase (String x s'))
      with (String (Js.lower_char x) (Js.toLowerCase s')).
    rewrite prefix_cons.
    destruct (Ascii.eqb (Js.lower_char x) (Js.lower_char c)); [apply IH|reflexivity].
Qed.

(** [/^w/i] tests a prefix up to case. *)
Lemma test_starts_i w s :
  test (starts_i w) s = String.prefix (Js.toLowerCase w) (Js.toLowerCase s).
Proof. unfold test, exec, starts_i. simpl. apply run_open_word_i. Qed.

(** [/w/i] tests a substring up to case. *)
Lemma test_contains_i w : forall s,
  test (contains_i w) s = Js.includes (Js.toLowerCase s) (Js.toLowerCase w).
Proof.
  unfold test, exec, contains_i. simpl.
  induction s as [|x s IH].
  - simpl search. pose proof (run_open_word_i w EmptyString) as H.
    destruct (run _ _ _); simpl in *; now rewrite <- H.
  - change (Js.toLowerCase (String x s))
      with (String (Js.lower_char x) (Js.toLowerCase s)).
    rewrite includes_cons. simpl search.
    pose proof (run_open_word_i w (String x s)) as H.
    change (Js.toLowerCase (String x s))
      with (String (Js.lower_char x) (Js.toLowerCase s)) in H.
    destruct (run _ _ (String x s)); rewrite <- H; [reflexivity|exact IH].
Qed.

Lemma some_contains_i words s :
  some (map contains_i words) s
  = existsb (fun w => Js.includes (Js.toLowerCase s) (Js.toLowerCase w)) words.
Proof.
  unfold some. induction words as [|w ws IH]; [reflexivity|].
  simpl. now rewrite test_contains_i, IH.
Qed.

Lemma some_whole_i words s :
  some (map whole_i words) s
  = existsb (fun w => String.eqb (Js.toLowerCase s) (Js.toLowerCase w)) words.
Proof.
  unfold some. induction words as [|w ws IH]; [reflexivity|].
  simpl. now rewrite test_whole_i, IH.
Qed.

End LiteralPatterns.

(** ** Enumerations and their parsers *)

Lemma find_value_eq {A} (value : A -> string) (all : list A) (normalized : string) x :
  List.find (fun y => String.eqb (value y) normalized) all = Some x ->
  normalized = value x.
Proof.
  intros H. apply find_some in H. destruct H as [_ H].
  apply String.eqb_eq in H. now symmetry.
Qed.



(** ** Scan summary *)

Lemma filter_partition_length {A} (p : A -> bool) (xs : list A) :
  List.length (filter (fun x => negb (p x)) xs) + List.length (filter p xs)
  = List.length xs.
Proof.
  induction xs as [|x xs IH]; [reflexivity|].
  simpl. destruct (p x); simpl; lia.
Qed.

Lemma severity_buckets (fs : list Finding.t) :
  list_sum
    (map (fun severity =>
            List.length
              (filter (fun f => Severity_eqb (Finding.severity f) severity) fs))
         allSeverities)
  = List.length fs.
Proof.
  induction fs as [|f fs IH]; [reflexivity|].
  simpl in IH |- *. destruct (Finding.severity f); simpl; lia.
Qed.

(** X3.  In a scan summary every finding is counted once: active and
    suppressed findings add up to all findings, and the counts by
    severity add up to the active findings. *)
Theorem scan_summary_counts (result : ScanResult.t) :
  let summary := getScanSummary result in
  ScanSummary.totalFindings summary + ScanSummary.suppressedFindings summary
  = List.length (ScanResult.findings result)
  /\ list_sum (map snd (ScanSummary.findingsBySeverity summary))
     = ScanSummary.totalFindings summary
  /\ map fst (ScanSummary.findingsBySeverity summary) = allSeverities
  /\ ScanSummary.totalEndpoints summary = List.length (ScanResult.endpoints result).
Proof.
  cbv zeta. unfold getScanSummary. cbn [ScanSummary.totalFindings
    ScanSummary.suppressedFindings ScanSummary.findingsBySeverity
    ScanSummary.totalEndpoints]. split; [|split; [|split]].
  - apply filter_partition_length.
  - rewrite map_map. cbn [snd]. apply severity_buckets.
  - rewrite map_map. reflexivity.
  - reflexivity.
Qed.

Section Highest.

Let pick (highest : Severity) (finding : Finding.t) : Severity :=
  if (severityOrder highest <? severityOrder (Finding.severity finding))%nat
  then Finding.severity finding
  else highest.

Lemma fold_highest fs : forall h,
  let r := fold_left pick fs h in
  (r = h \/ exists f, In f fs /\ Finding.severity f = r)
  /\ severityOrder h <= severityOrder r
  /\ (forall f, In f fs -> severityOrder (Finding.severity f) <= severityOrder r).
Proof.
  induction fs as [|f fs IH]; intros h; cbv zeta.
  - simpl. repeat split; auto. intros f [].
  - simpl fold_left. destruct (IH (pick h f)) as (Hr & Hle & Hall).
    assert (Hp : severityOrder h <= severityOrder (pick h f)
                 /\ severityOrder (Finding.severity f) <= severityOrder (pick h f)
                 /\ (pick h f = h \/ pick h f = Finding.severity f)).
    { unfold pick. destruct (Nat.ltb_spec (severityOrder h)
                               (severityOrder (Finding.severity f))).
      - split; [lia|split; [lia|now right]].
      - split; [lia|split; [lia|now left]]. }
    destruct Hp as (H1 & H2 & H3). repeat split.
    + destruct Hr as [Hr|(g & Hg & Hs)].
      * destruct H3 as [H3|H3]; [left; congruence|].
        right. exists f. split; [now left|congruence].
      * right. exists g. split; [now right|exact Hs].
    + lia.
    + intros g [<-|Hg]; [lia|now apply Hall].
Qed.

End Highest.

Lemma highest_of_active (result : ScanResult.t) :
  let active :=
    filter (fun f => negb (Finding.suppressed f)) (ScanResult.findings result) in
  match getHighestSeverity result with
  | None => active = []
  | Some s =>
      (exists f, In f active /\ Finding.severity f = s)
      /\ (forall f, In f active ->
            severityOrder (Finding.severity f) <= severityOrder s)
  end.
Proof.
  cbv zeta. unfold getHighestSeverity.
  destruct (filter _ (ScanResult.findings result)) as [|g gs]; [reflexivity|].
  destruct (fold_highest (g :: gs) (Finding.severity g)) as (Hr & _ & Hall).
  split; [|exact Hall].
  destruct Hr as [Hr|(f & Hf & Hsev)].
  - exists g. split; [now left|]. symmetry. exact Hr.
  - exists f. split; assumption.
Qed.

Lemma active_finding (result : ScanResult.t) (f : Finding.t) :
  In f (filter (fun f => negb (Finding.suppressed f)) (ScanResult.findings result))
  <-> In f (ScanResult.findings result) /\ Finding.suppressed f = false.
Proof. rewrite filter_In, negb_true_iff. tauto. Qed.

(** X4.  [getHighestSeverity] answers nothing exactly when no finding
    is active; otherwise its answer is the severity of an active
    finding and no active finding is more severe.  Suppressed findings
    do not count. *)
Theorem highest_severity_is_maximum (result : ScanResult.t) :
  (getHighestSeverity result = None
   <-> forall f, In f (ScanResult.findings result) -> Finding.suppressed f = true)
  /\ (forall s, getHighestSeverity result = Some s ->
        (exists f, In f (ScanResult.findings result)
                   /\ Finding.suppressed f = false /\ Finding.severity f = s)
        /\ (forall f, In f (ScanResult.findings result) ->
              Finding.suppressed f = false ->
              severityOrder (Finding.severity f) <= severityOrder s)).
Proof.
  pose proof (highest_of_active result) as H. cbv zeta in H.
  pose proof (active_finding result) as Hactive.
  destruct (getHighestSeverity result) as [highest|].
  - destruct H as ((g & Hg & Hsev) & Hmax). split.
    + split; [discriminate|]. intros Hall. apply Hactive in Hg.
      destruct Hg as [Hg Hsup]. rewrite (Hall g Hg) in Hsup. discriminate.
    + intros s Hs. injection Hs as <-. split.
      * exists g. apply Hactive in Hg. tauto.
      * intros f Hf Hsup. apply Hmax, Hactive. tauto.
  - split; [|discriminate]. split; [|reflexivity].
    intros _ f Hf. destruct (Finding.suppressed f) eqn:E; [reflexivity|].
    assert (Hin : In f (filter (fun f => negb (Finding.suppressed f))
                               (ScanResult.findings result)))
      by (apply Hactive; tauto).
    rewrite H in Hin. destruct Hin.
Qed.

(** X4, witness: the findings of POST /api/orders, none suppressed,
    have Critical as highest severity. *)
Lemma highest_severity_is_maximum_witness :
  exists f, In f Sample.ordersFindings /\ Finding.severity f = Critical.
Proof.
  destruct (proj2 (highest_severity_is_maximum
                     (ScanResult.mk "." 0 [Sample.ordersRoute]
                        Sample.ordersFindings 1 0))
              Critical eq_refl) as ((f & Hf & _ & Hs) & _).
  exists f. split; assumption.
Defined.

(** ** Rule catalogue *)

Lemma filter_nonempty_existsb {A} (p : A -> bool) (xs : list A) :
  (0 <? List.length (filter p xs))%nat = existsb p xs.
Proof.
  induction xs as [|x xs IH]; [reflexivity|].
  simpl. now destruct (p x).
Qed.

Lemma existsb_ext_all {A} (p q : A -> bool) (xs : list A) :
  (forall x, p x = q x) -> existsb p xs = existsb q xs.
Proof.
  intros H. induction xs as [|x xs IH]; [reflexivity|].
  simpl. now rewrite H, IH.
Qed.

Section RuleConditions.

Variable e : Endpoint.t.

Let auth := Endpoint.authorization e.

Lemma fires_AP001 :
  fires PublicWithoutExplicitIntent.rule e
  = isPublicClassification (AuthorizationInfo.classification auth)
    && negb (AuthorizationInfo.isExplicitlyPublic auth)
    && negb (AuthorizationInfo.isAuthenticated auth)
    && (List.length (AuthorizationInfo.guardNames auth) =? 0)%nat.
Proof.
  unfold fires, auth. simpl. unfold PublicWithoutExplicitIntent.evaluate.
  destruct (AuthorizationInfo.classification _); try reflexivity.
  cbn [isPublicClassification andb].
  now destruct (negb _ && negb _ && _).
Qed.

Lemma fires_AP002 :
  fires AllowAnonymousOnWrite.rule e
  = isWriteMethod (Endpoint.method e) && AuthorizationInfo.isExplicitlyPublic auth.
Proof.
  unfold fires, auth. simpl. unfold AllowAnonymousOnWrite.evaluate.
  now destruct (_ && _).
Qed.

Lemma fires_AP003 :
  fires ControllerActionConflict.rule e
  = match Endpoint.type e with NestJS => true | _ => false end
    && AuthorizationInfo.isAuthenticated auth
    && AuthorizationInfo.isExplicitlyPublic auth.
Proof.
  unfold fires, auth. simpl. unfold ControllerActionConflict.evaluate.
  destruct (Endpoint.type e); try reflexivity.
  cbn [andb]. now destruct (_ && _).
Qed.

Lemma fires_AP004 :
  fires MissingAuthOnWrites.rule e
  = isWriteMethod (Endpoint.method e)
    && isPublicClassification (AuthorizationInfo.classification auth)
    && negb (AuthorizationInfo.isAuthenticated auth)
    && negb (AuthorizationInfo.isExplicitlyPublic auth).
Proof.
  unfold fires, auth. simpl. unfold MissingAuthOnWrites.evaluate.
  destruct (isWriteMethod _); [|reflexivity].
  destruct (AuthorizationInfo.classification _); try reflexivity.
  cbn [isPublicClassification andb]. now destruct (negb _ && negb _).
Qed.

Lemma fires_AP005 :
  fires ExcessiveRoleAccess.rule e
  = (3 <? List.length (AuthorizationInfo.roles auth))%nat.
Proof.
  unfold fires, auth. simpl. unfold ExcessiveRoleAccess.evaluate.
  unfold ExcessiveRoleAccess.maxRoles. now destruct (_ <? _)%nat.
Qed.

Lemma fires_AP006 :
  fires WeakRoleNaming.rule e
  = existsb (fun role =>
               existsb (fun w => String.eqb (Js.toLowerCase role) w) weakWords)
            (AuthorizationInfo.roles auth).
Proof.
  unfold fires, auth. simpl. unfold WeakRoleNaming.evaluate.
  rewrite filter_nonempty_existsb.
  transitivity (existsb (Regex.some WeakRoleNaming.weakPatterns)
                        (AuthorizationInfo.roles (Endpoint.authorization e))).
  - now destruct (existsb _ _).
  - apply existsb_ext_all. intros role. unfold WeakRoleNaming.weakPatterns.
    fold weakWords. now rewrite some_whole_i.
Qed.

Lemma fires_AP007 :
  fires SensitiveRouteKeywords.rule e
  = isPublicClassification (AuthorizationInfo.classification auth)
    && existsb (Js.includes (Js.toLowerCase (Endpoint.route e)))
               SensitiveRouteKeywords.sensitiveKeywords.
Proof.
  unfold fires, auth.
  change (SecurityRule.evaluate SensitiveRouteKeywords.rule e)
    with (SensitiveRouteKeywords.evaluate e).
  unfold SensitiveRouteKeywords.evaluate.
  destruct (AuthorizationInfo.classification _); try reflexivity.
  change (isPublicClassification Public) with true. rewrite andb_true_l.
  rewrite filter_nonempty_existsb. now destruct (existsb _ _).
Qed.

Lemma fires_AP008 :
  fires UnprotectedEndpoint.rule e
  = isPublicClassification (AuthorizationInfo.classification auth)
    && (List.length (AuthorizationInfo.middlewareChain auth) =? 0)%nat
    && (List.length (AuthorizationInfo.guardNames auth) =? 0)%nat
    && negb (AuthorizationInfo.isExplicitlyPublic auth).
Proof.
  unfold fires, auth. simpl. unfold UnprotectedEndpoint.evaluate.
  destruct (AuthorizationInfo.classification _); try reflexivity.
  cbn [isPublicClassification andb]. now destruct (_ && _ && negb _).
Qed.

End RuleConditions.

Ltac split_match H :=
  repeat match type of H with
         | context [match ?x with _ => _ end] => destruct x
         end.

(** What a rule of the catalogue reports: at most one finding, which
    carries the rule's own id, name and severity, refers to the
    endpoint, copies its location and is not suppressed. *)
Lemma rule_finding_shape rule e :
  In rule RuleEngine.allRules ->
  List.length (SecurityRule.evaluate rule e) <= 1
  /\ forall f, In f (SecurityRule.evaluate rule e) ->
       Finding.ruleId f = SecurityRule.id rule
       /\ Finding.ruleName f = SecurityRule.name rule
       /\ Finding.severity f = SecurityRule.severity rule
       /\ Finding.endpoint f = e
       /\ Finding.location f = Endpoint.location e
       /\ Finding.suppressed f = false
       /\ Finding.suppressionReason f = None.
Proof.
  intros Hrule. unfold RuleEngine.allRules in Hrule.
  repeat (destruct Hrule as [<-|Hrule]); try destruct Hrule;
    cbn [SecurityRule.evaluate SecurityRule.id SecurityRule.name
         SecurityRule.severity PublicWithoutExplicitIntent.rule
         AllowAnonymousOnWrite.rule ControllerActionConflict.rule
         MissingAuthOnWrites.rule ExcessiveRoleAccess.rule WeakRoleNaming.rule
         SensitiveRouteKeywords.rule UnprotectedEndpoint.rule].
  - unfold PublicWithoutExplicitIntent.evaluate.
    destruct (AuthorizationInfo.classification _); try (split; [cbn [List.length In]; lia|intros f []]).
    destruct (negb _ && negb _ && _); split; cbn [List.length In]; try lia;
      intros f Hf; destruct Hf as [<-|[]]; repeat split.
  - unfold AllowAnonymousOnWrite.evaluate.
    destruct (_ && _); split; cbn [List.length In]; try lia;
      intros f Hf; destruct Hf as [<-|[]]; repeat split.
  - unfold ControllerActionConflict.evaluate.
    destruct (Endpoint.type e); try (split; [cbn [List.length In]; lia|intros f []]).
    destruct (_ && _); split; cbn [List.length In]; try lia;
      intros f Hf; destruct Hf as [<-|[]]; repeat split.
  - unfold MissingAuthOnWrites.evaluate.
    destruct (isWriteMethod _); [|split; [cbn [List.length In]; lia|intros f []]].
    destruct (AuthorizationInfo.classification _); try (split; [cbn [List.length In]; lia|intros f []]).
    destruct (negb _ && negb _); split; cbn [List.length In]; try lia;
      intros f Hf; destruct Hf as [<-|[]]; repeat split.
  - unfold ExcessiveRoleAccess.evaluate.
    destruct (_ <? _)%nat; split; cbn [List.length In]; try lia;
      intros f Hf; destruct Hf as [<-|[]]; repeat split.
  - unfold WeakRoleNaming.evaluate.
    destruct (_ <? _)%nat; split; cbn [List.length In]; try lia;
      intros f Hf; destruct Hf as [<-|[]]; repeat split.
  - unfold SensitiveRouteKeywords.evaluate.
    destruct (AuthorizationInfo.classification _); try (split; [cbn [List.length In]; lia|intros f []]).
    destruct (_ <? _)%nat; split; cbn [List.length In]; try lia;
      intros f Hf; destruct Hf as [<-|[]]; repeat split.
  - unfold UnprotectedEndpoint.evaluate.
    destruct (AuthorizationInfo.classification _); try (split; [cbn [List.length In]; lia|intros f []]).
    destruct (_ && _ && negb _); split; cbn [List.length In]; try lia;
      intros f Hf; destruct Hf as [<-|[]]; repeat split.
Qed.

Lemma enabled_rules config rule :
  In rule (RuleEngine.initializeRules config)
  <-> In rule RuleEngine.allRules
      /\ RuleEngine.disabled
           (RuleEngine.ruleConfigOf config (SecurityRule.id rule)) = false.
Proof.
  unfold RuleEngine.initializeRules. rewrite filter_In, negb_true_iff. tauto.
Qed.

(** X5.  Every finding of the engine comes from an enabled rule of the
    catalogue, evaluated on one of the given endpoints: it carries that
    rule's id and built-in severity (a severity given in the rule's
    configuration changes nothing), refers to the endpoint, copies its
    location and is not suppressed; a rule disabled in the
    configuration gives no finding. *)
Theorem findings_come_from_enabled_rules
    (config : RuleEngine.RuleEngineConfig) (endpoints : list Endpoint.t)
    (f : Finding.t) :
  In f (RuleEngine.evaluate (RuleEngine.initializeRules config) endpoints) ->
  exists rule,
    In rule RuleEngine.allRules
    /\ RuleEngine.disabled
         (RuleEngine.ruleConfigOf config (SecurityRule.id rule)) = false
    /\ Finding.ruleId f = SecurityRule.id rule
    /\ Finding.severity f = SecurityRule.severity rule
    /\ In (Finding.endpoint f) endpoints
    /\ Finding.location f = Endpoint.location (Finding.endpoint f)
    /\ Finding.suppressed f = false
    /\ Finding.suppressionReason f = None.
Proof.
  unfold RuleEngine.evaluate. intros H. apply in_flat_map in H.
  destruct H as (e & He & H). apply in_flat_map in H.
  destruct H as (rule & Hrule & Hf). apply enabled_rules in Hrule.
  destruct Hrule as [Hall Hen].
  destruct (proj2 (rule_finding_shape rule e Hall) f Hf)
    as (Hid & _ & Hsev & Hend & Hloc & Hsup & Hreason).
  exists rule. rewrite Hend. repeat split; assumption.
Qed.

(** X5, witness: with AP001 disabled and AP004 reconfigured as Low,
    POST /api/orders still gets AP004 as Critical, and AP008. *)
Lemma findings_come_from_enabled_rules_witness :
  map idAndSeverity
      (RuleEngine.evaluate
         (RuleEngine.initializeRules
            (Some (fun id =>
                     if String.eqb id "AP001" then Some (RuleConfig.mk false None)
                     else if String.eqb id "AP004"
                          then Some (RuleConfig.mk true (Some Low))
                          else None)))
         [Sample.ordersRoute])
  = [("AP004", Critical); ("AP008", High)]
  /\ exists rule, In rule RuleEngine.allRules
                  /\ Finding.ruleId Sample.ordersAP004 = SecurityRule.id rule.
Proof.
  split; [reflexivity|].
  destruct (findings_come_from_enabled_rules None [Sample.ordersRoute]
              Sample.ordersAP004 (or_intror (or_introl eq_refl)))
    as (rule & Hrule & _ & Hid & _).
  exists rule. split; assumption.
Defined.

Lemma flat_map_length_bound {A B} (f : A -> list B) (n : nat) (xs : list A) :
  (forall x, In x xs -> List.length (f x) <= n) ->
  List.length (flat_map f xs) <= n * List.length xs.
Proof.
  induction xs as [|x xs IH]; intros H; simpl; [lia|].
  rewrite length_app. specialize (H x (or_introl eq_refl)) as Hx.
  assert (List.length (flat_map f xs) <= n * List.length xs)
    by (apply IH; intros; apply H; now right).
  lia.
Qed.

(** X6.  The engine evaluates endpoint by endpoint: the findings of two
    batches of endpoints are those of the first batch followed by those
    of the second, no endpoints give no findings, and each endpoint
    adds at most one finding per enabled rule, so at most eight. *)
Theorem evaluate_by_endpoint (config : RuleEngine.RuleEngineConfig)
    (first second : list Endpoint.t) :
  let rules := RuleEngine.initializeRules config in
  RuleEngine.evaluate rules (first ++ second)
  = (RuleEngine.evaluate rules first ++ RuleEngine.evaluate rules second)%list
  /\ RuleEngine.evaluate rules [] = []
  /\ List.length (RuleEngine.evaluate rules first)
     <= List.length rules * List.length first
  /\ List.length rules <= 8.
Proof.
  cbv zeta. unfold RuleEngine.evaluate. split; [apply flat_map_app|].
  split; [reflexivity|]. split.
  - apply flat_map_length_bound. intros e _.
    replace (List.length (RuleEngine.initializeRules config))
      with (1 * List.length (RuleEngine.initializeRules config)) by lia.
    apply flat_map_length_bound. intros rule Hrule.
    apply enabled_rules in Hrule. now apply rule_finding_shape.
  - unfold RuleEngine.initializeRules.
    change 8 with (List.length RuleEngine.allRules). apply filter_length_le.
Qed.

Lemma flat_map_app_perm {A B} (g h : A -> list B) (xs : list A) :
  Permutation (flat_map (fun x => g x ++ h x)%list xs)
              (flat_map g xs ++ flat_map h xs)%list.
Proof.
  induction xs as [|x xs IH]; simpl; [constructor|].
  rewrite <- !app_assoc. apply Permutation_app_head.
  rewrite IH. rewrite !app_assoc. apply Permutation_app_tail.
  apply Permutation_app_comm.
Qed.

Lemma flat_map_swap {A B C} (f : A -> B -> list C) (xs : list A) (ys : list B) :
  Permutation (flat_map (fun x => flat_map (f x) ys) xs)
              (flat_map (fun y => flat_map (fun x => f x y) xs) ys).
Proof.
  induction xs as [|x xs IH]; simpl.
  - induction ys as [|y ys IHy]; [constructor|exact IHy].
  - rewrite IH. symmetry. apply flat_map_app_perm.
Qed.

(** X7.  The analyzer's own rule loop goes rule by rule and the
    engine's goes endpoint by endpoint: both give the same findings,
    in a different order. *)
Theorem analyzer_and_engine_agree (rules : list SecurityRule.t)
    (endpoints : list Endpoint.t) :
  Permutation (ProjectAnalyzer.evaluateRules rules endpoints)
              (RuleEngine.evaluate rules endpoints).
Proof.
  unfold ProjectAnalyzer.evaluateRules, RuleEngine.evaluate.
  apply (flat_map_swap (fun rule endpoint => SecurityRule.evaluate rule endpoint)).
Qed.

Lemma public_means_unauthenticated (auth : AuthorizationInfo.t) :
  classified auth ->
  isPublicClassification (AuthorizationInfo.classification auth) = true ->
  AuthorizationInfo.isAuthenticated auth = false
  /\ AuthorizationInfo.roles auth = []
  /\ AuthorizationInfo.policies auth = [].
Proof.
  unfold classified, determineClassification. intros ->.
  destruct (AuthorizationInfo.policies auth); [|discriminate].
  destruct (AuthorizationInfo.roles auth); [|discriminate].
  destruct (AuthorizationInfo.isAuthenticated auth); [discriminate|auto].
Qed.

(** X8.  How the rules overlap on one endpoint.  AP002 and AP004 never
    fire together, nor do AP001 and AP003.  Where AP004 fires, AP001
    fires as well exactly when there is no guard name; where AP001
    fires, AP008 fires as well exactly when the middleware chain is
    empty; and on an endpoint with a computed classification AP008
    never fires without AP001. *)
Theorem rule_overlaps (e : Endpoint.t) :
  let auth := Endpoint.authorization e in
  fires AllowAnonymousOnWrite.rule e && fires MissingAuthOnWrites.rule e = false
  /\ fires PublicWithoutExplicitIntent.rule e && fires ControllerActionConflict.rule e
     = false
  /\ (fires MissingAuthOnWrites.rule e = true ->
      (fires PublicWithoutExplicitIntent.rule e = true
       <-> AuthorizationInfo.guardNames auth = []))
  /\ (fires PublicWithoutExplicitIntent.rule e = true ->
      (fires UnprotectedEndpoint.rule e = true
       <-> AuthorizationInfo.middlewareChain auth = []))
  /\ (classified auth -> fires UnprotectedEndpoint.rule e = true ->
      fires PublicWithoutExplicitIntent.rule e = true).
Proof.
  cbv zeta. rewrite fires_AP001, fires_AP002, fires_AP003, fires_AP004, fires_AP008.
  split; [|split; [|split; [|split]]].
  - destruct (isWriteMethod (Endpoint.method e)),
      (isPublicClassification _), (AuthorizationInfo.isAuthenticated _),
      (AuthorizationInfo.isExplicitlyPublic _); reflexivity.
  - destruct (isPublicClassification _), (AuthorizationInfo.isAuthenticated _),
      (AuthorizationInfo.isExplicitlyPublic _), (Endpoint.type e),
      (AuthorizationInfo.guardNames _); reflexivity.
  - destruct (isWriteMethod (Endpoint.method e)),
      (isPublicClassification _), (AuthorizationInfo.isAuthenticated _),
      (AuthorizationInfo.isExplicitlyPublic _), (AuthorizationInfo.guardNames _);
      cbn; intros H; split; intros H'; congruence.
  - destruct (isPublicClassification _), (AuthorizationInfo.isAuthenticated _),
      (AuthorizationInfo.isExplicitlyPublic _), (AuthorizationInfo.guardNames _),
      (AuthorizationInfo.middlewareChain _);
      cbn; intros H; split; intros H'; congruence.
  - intros Hcl. destruct (isPublicClassification _) eqn:Ec; [|discriminate].
    destruct (public_means_unauthenticated _ Hcl Ec) as (-> & _).
    destruct (AuthorizationInfo.isExplicitlyPublic _),
      (AuthorizationInfo.guardNames _), (AuthorizationInfo.middlewareChain _);
      cbn; congruence.
Qed.

(** X8, witness: POST /api/orders without middleware. *)
Lemma rule_overlaps_witness :
  fires PublicWithoutExplicitIntent.rule Sample.ordersRoute = true
  /\ fires UnprotectedEndpoint.rule Sample.ordersRoute = true.
Proof.
  destruct (rule_overlaps Sample.ordersRoute) as (_ & _ & H4 & H1 & _).
  assert (H : fires PublicWithoutExplicitIntent.rule Sample.ordersRoute = true)
    by (apply (H4 eq_refl); reflexivity).
  split; [exact H|]. apply (H1 H). reflexivity.
Defined.

Lemma fires_false_nil rule e : fires rule e = false -> SecurityRule.evaluate rule e = [].
Proof. unfold fires. now destruct (SecurityRule.evaluate rule e). Qed.

(** X9.  An endpoint that is not classified Public can only get AP002,
    AP003, AP005 and AP006: the four rules about public exposure
    (AP001, AP004, AP007, AP008) stay silent, whatever the
    configuration. *)
Theorem restricted_endpoint_findings (config : RuleEngine.RuleEngineConfig)
    (e : Endpoint.t) (f : Finding.t) :
  AuthorizationInfo.classification (Endpoint.authorization e) <> Public ->
  In f (RuleEngine.evaluate (RuleEngine.initializeRules config) [e]) ->
  In (Finding.ruleId f) ["AP002"; "AP003"; "AP005"; "AP006"].
Proof.
  intros Hc Hf. unfold RuleEngine.evaluate in Hf. simpl in Hf.
  rewrite app_nil_r in Hf. apply in_flat_map in Hf.
  destruct Hf as (rule & Hrule & Hf). apply enabled_rules in Hrule.
  destruct Hrule as [Hall _].
  destruct (proj2 (rule_finding_shape rule e Hall) f Hf) as (-> & _).
  assert (Hnot : isPublicClassification
                   (AuthorizationInfo.classification (Endpoint.authorization e))
                 = false).
  { destruct (AuthorizationInfo.classification _); trivial. now elim Hc. }
  unfold RuleEngine.allRules in Hall.
  repeat (destruct Hall as [<-|Hall]); try destruct Hall; simpl; auto.
  - rewrite (fires_false_nil _ e) in Hf by (now rewrite fires_AP001, Hnot).
    destruct Hf.
  - rewrite (fires_false_nil _ e) in Hf
      by (rewrite fires_AP004, Hnot; now rewrite andb_false_r).
    destruct Hf.
  - rewrite (fires_false_nil _ e) in Hf by (now rewrite fires_AP007, Hnot).
    destruct Hf.
  - rewrite (fires_false_nil _ e) in Hf by (now rewrite fires_AP008, Hnot).
    destruct Hf.
Qed.

(** X9, witness: an endpoint restricted to five roles, one of them
    [Admin]. *)
Lemma restricted_endpoint_findings_witness :
  map Finding.ruleId
      (RuleEngine.evaluate (RuleEngine.initializeRules None)
         [Endpoint.mk "/admin/export" DELETE "purge" None Express Sample.location
            (AuthorizationInfo.mk true false ["Admin"; "ops"; "dev"; "qa"; "sre"]
               [] ["requireRole"] [] RoleRestricted)])
  = ["AP005"; "AP006"]
  /\ In "AP005" ["AP002"; "AP003"; "AP005"; "AP006"].
Proof.
  split; [reflexivity|].
  set (e := Endpoint.mk "/admin/export" DELETE "purge" None Express Sample.location
              (AuthorizationInfo.mk true false ["Admin"; "ops"; "dev"; "qa"; "sre"]
                 [] ["requireRole"] [] RoleRestricted)).
  apply (restricted_endpoint_findings None e
           (nth 0 (RuleEngine.evaluate (RuleEngine.initializeRules None) [e])
                Sample.ordersAP004)).
  - discriminate.
  - left. reflexivity.
Defined.

(** X10.  AP005 fires exactly when the endpoint has more than three
    roles, whatever they are, and AP006 exactly when some role is,
    case being ignored, one of the thirteen weak names; a role that
    only contains such a name does not count. *)
Theorem role_rules_conditions (e : Endpoint.t) :
  let roles := AuthorizationInfo.roles (Endpoint.authorization e) in
  (fires ExcessiveRoleAccess.rule e = true <-> 3 < List.length roles)
  /\ (fires WeakRoleNaming.rule e = true
      <-> exists role, In role roles /\ In (Js.toLowerCase role) weakWords).
Proof.
  cbv zeta. rewrite fires_AP005, fires_AP006. split.
  - apply Nat.ltb_lt.
  - rewrite existsb_exists. split.
    + intros (role & Hin & H). exists role. split; [exact Hin|].
      apply existsb_exists in H. destruct H as (w & Hw & Heq).
      apply String.eqb_eq in Heq. now rewrite Heq.
    + intros (role & Hin & H). exists role. split; [exact Hin|].
      apply existsb_exists. exists (Js.toLowerCase role).
      split; [exact H|apply String.eqb_refl].
Qed.

(** X10, witness: [ADMIN] is weak, [billing-admin] is not. *)
Lemma role_rules_conditions_witness :
  fires WeakRoleNaming.rule
    (Endpoint.mk "/api/billing" GET "h" None Express Sample.location
       (AuthorizationInfo.mk true false ["billing-admin"; "ADMIN"] [] [] []
          RoleRestricted))
  = true.
Proof.
  apply (proj2 (role_rules_conditions _)). exists "ADMIN".
  split; [right; left; reflexivity|]. right; left; reflexivity.
Defined.

(** ** Suppressions and the summary *)

Lemma apply_reasonOnly_all_suppressed pre post reason findings :
  forall g,
    In g (SuppressionMatcher.applySuppressionsToFindings
            (pre ++ reasonOnly reason :: post)%list findings) ->
    Finding.suppressed g = true.
Proof.
  intros g Hg. unfold SuppressionMatcher.applySuppressionsToFindings in Hg.
  apply in_map_iff in Hg. destruct Hg as (f & <- & _).
  destruct (find_first_match
              (fun s => SuppressionMatcher.matchesFinding s f) pre post
              (reasonOnly reason) (reasonOnly_matches reason _ _))
    as (s & Hs & _).
  unfold SuppressionMatcher.findMatchingSuppression. now rewrite Hs.
Qed.

Lemma filter_all {A} (p : A -> bool) (xs : list A) :
  (forall x, In x xs -> p x = true) -> filter p xs = xs.
Proof.
  induction xs as [|x xs IH]; intros H; [reflexivity|].
  simpl. rewrite (H x (or_introl eq_refl)). f_equal. apply IH.
  intros y Hy. apply H. now right.
Qed.

Lemma filter_none {A} (p : A -> bool) (xs : list A) :
  (forall x, In x xs -> p x = false) -> filter p xs = [].
Proof.
  induction xs as [|x xs IH]; intros H; [reflexivity|].
  simpl. rewrite (H x (or_introl eq_refl)). apply IH.
  intros y Hy. apply H. now right.
Qed.

(** X11.  With a reason-only suppression in the list, the summary of
    the suppressed findings counts no active finding, counts them all
    as suppressed, and [getHighestSeverity] answers nothing, so a
    fail-on threshold is never reached. *)
Theorem blanket_suppression_silences_summary
    (pre post : list SuppressionConfig.t) (reason : string)
    (result : ScanResult.t) :
  let suppressed :=
    withFindings result
      (SuppressionMatcher.applySuppressionsToFindings
         (pre ++ reasonOnly reason :: post)%list (ScanResult.findings result)) in
  ScanSummary.totalFindings (getScanSummary suppressed) = 0
  /\ ScanSummary.suppressedFindings (getScanSummary suppressed)
     = List.length (ScanResult.findings result)
  /\ getHighestSeverity suppressed = None.
Proof.
  cbv zeta.
  pose proof (apply_reasonOnly_all_suppressed pre post reason
                (ScanResult.findings result)) as Hall.
  unfold getScanSummary, getHighestSeverity, withFindings.
  cbn [ScanResult.findings ScanSummary.totalFindings ScanSummary.suppressedFindings].
  rewrite (filter_none (fun f => negb (Finding.suppressed f)))
    by (intros g Hg; now rewrite (Hall g Hg)).
  rewrite (filter_all Finding.suppressed) by exact Hall.
  repeat split. unfold SuppressionMatcher.applySuppressionsToFindings.
  apply length_map.
Qed.

Lemma matchesFinding_suppress s f reason :
  SuppressionMatcher.matchesFinding s (SuppressionMatcher.suppress f reason)
  = SuppressionMatcher.matchesFinding s f.
Proof. reflexivity. Qed.

Lemma findMatching_suppress sups f reason :
  SuppressionMatcher.findMatchingSuppression sups
    (SuppressionMatcher.suppress f reason)
  = SuppressionMatcher.findMatchingSuppression sups f.
Proof. reflexivity. Qed.

(** X12.  Applying the same suppressions a second time changes
    nothing, a finding that comes in suppressed stays suppressed, and
    an empty suppression list returns the findings as they are. *)
Theorem applySuppressions_idempotent (suppressions : list SuppressionConfig.t)
    (findings : list Finding.t) :
  let once := SuppressionMatcher.applySuppressionsToFindings suppressions findings in
  SuppressionMatcher.applySuppressionsToFindings suppressions once = once
  /\ map Finding.suppressed once
     = map (fun f =>
              Finding.suppressed f
              || match SuppressionMatcher.findMatchingSuppression suppressions f with
                 | Some _ => true
                 | None => false
                 end) findings
  /\ SuppressionMatcher.applySuppressionsToFindings [] findings = findings.
Proof.
  cbv zeta. unfold SuppressionMatcher.applySuppressionsToFindings. split; [|split].
  - rewrite map_map. apply map_ext. intros f.
    destruct (SuppressionMatcher.findMatchingSuppression suppressions f) as [s|] eqn:E.
    + now rewrite findMatching_suppress, E.
    + now rewrite E.
  - rewrite map_map. apply map_ext. intros f.
    destruct (SuppressionMatcher.findMatchingSuppression suppressions f).
    + simpl. now rewrite orb_true_r.
    + now rewrite orb_false_r.
  - simpl. apply map_id.
Qed.

Lemma presentFilter_truthy o : Js.truthyOpt (presentFilter o) = Js.truthyOpt o.
Proof. destruct o as [[|c s]|]; reflexivity. Qed.

(** X13.  A filter given as the empty text counts as absent: a
    suppression matches exactly what it matches with its empty filters
    left out, so one whose four filters are all empty matches every
    finding. *)
Theorem empty_filters_are_ignored (s : SuppressionConfig.t) (e : Endpoint.t)
    (ruleId : string) :
  SuppressionMatcher.matchesEndpoint s e ruleId
  = SuppressionMatcher.matchesEndpoint (withoutEmptyFilters s) e ruleId
  /\ SuppressionMatcher.matchesEndpoint
       (SuppressionConfig.mk (Some EmptyString) (Some EmptyString)
          (Some EmptyString) (Some EmptyString) (SuppressionConfig.reason s))
       e ruleId = true.
Proof.
  split; [|reflexivity].
  destruct s as [[[|a r]|] [[|b t]|] [[|c p]|] [[|d m]|] reason]; reflexivity.
Qed.

Lemma upper_lower_char c : Js.upper_char (Js.lower_char c) = Js.upper_char c.
Proof. destruct c as [[|] [|] [|] [|] [|] [|] [|] [|]]; reflexivity. Qed.

Lemma lower_upper_char c : Js.lower_char (Js.upper_char c) = Js.lower_char c.
Proof. destruct c as [[|] [|] [|] [|] [|] [|] [|] [|]]; reflexivity. Qed.

Lemma upper_upper_char c : Js.upper_char (Js.upper_char c) = Js.upper_char c.
Proof. destruct c as [[|] [|] [|] [|] [|] [|] [|] [|]]; reflexivity. Qed.

Lemma toUpperCase_toLowerCase s :
  Js.toUpperCase (Js.toLowerCase s) = Js.toUpperCase s.
Proof.
  induction s as [|c s IH]; [reflexivity|].
  simpl. unfold Js.toUpperCase, Js.toLowerCase in *. simpl.
  now rewrite upper_lower_char, IH.
Qed.

Lemma toLowerCase_toUpperCase s :
  Js.toLowerCase (Js.toUpperCase s) = Js.toLowerCase s.
Proof.
  induction s as [|c s IH]; [reflexivity|].
  unfold Js.toUpperCase, Js.toLowerCase in *. simpl.
  now rewrite lower_upper_char, IH.
Qed.

Lemma toUpperCase_idempotent s :
  Js.toUpperCase (Js.toUpperCase s) = Js.toUpperCase s.
Proof.
  induction s as [|c s IH]; [reflexivity|].
  unfold Js.toUpperCase in *. simpl. now rewrite upper_upper_char, IH.
Qed.

Lemma truthy_map f s : Js.truthy (Js.map_chars f s) = Js.truthy s.
Proof. now destruct s. Qed.

(** X14.  The method filter of a suppression is compared without
    regard to case: writing it in lower case or in upper case gives
    the same matches.  The rule id filter is compared as it is
    written. *)
Theorem method_filter_ignores_case (s : SuppressionConfig.t) (method : string)
    (e : Endpoint.t) (ruleId : string) :
  SuppressionMatcher.matchesEndpoint (withMethod s (Some (Js.toLowerCase method)))
    e ruleId
  = SuppressionMatcher.matchesEndpoint (withMethod s (Some method)) e ruleId
  /\ SuppressionMatcher.matchesEndpoint (withMethod s (Some (Js.toUpperCase method)))
       e ruleId
     = SuppressionMatcher.matchesEndpoint (withMethod s (Some method)) e ruleId
  /\ SuppressionMatcher.matchesEndpoint
       (SuppressionConfig.mk (Some "ap001") None None None "lower-case id")
       e "AP001" = false.
Proof.
  unfold SuppressionMatcher.matchesEndpoint, withMethod.
  cbn [SuppressionConfig.ruleId SuppressionConfig.method SuppressionConfig.route
       SuppressionConfig.routePattern].
  split; [|split; [|reflexivity]].
  - unfold Js.toLowerCase at 1. rewrite truthy_map.
    now rewrite toUpperCase_toLowerCase.
  - unfold Js.toUpperCase at 1. rewrite truthy_map.
    now rewrite toUpperCase_idempotent.
Qed.

(** ** Registry: registration and lookup *)

Section RegistryMaps.

Import RouteGroupRegistry.

Context {V : Type}.

Lemma get_push_same (m : jsmap V) key v :
  get (push m key v) key
  = Some (match get m key with Some vs => vs | None => [] end ++ [v])%list.
Proof.
  induction m as [|[k vs] rest IH]; simpl.
  - now rewrite String.eqb_refl.
  - destruct (String.eqb k key) eqn:E; simpl; rewrite E; [reflexivity|exact IH].
Qed.

Lemma get_push_other (m : jsmap V) key key' v :
  key <> key' -> get (push m key v) key' = get m key'.
Proof.
  intros Hne. induction m as [|[k vs] rest IH]; simpl.
  - apply String.eqb_neq in Hne. now rewrite Hne.
  - destruct (String.eqb k key) eqn:E; simpl.
    + apply String.eqb_eq in E. subst k.
      apply String.eqb_neq in Hne. now rewrite Hne.
    + destruct (String.eqb k key'); [reflexivity|exact IH].
Qed.

Lemma find_push_miss (m : jsmap V) key v p :
  p v = false ->
  List.find p (flat_map snd (push m key v)) = List.find p (flat_map snd m).
Proof.
  intros Hv. induction m as [|[k vs] rest IH]; simpl.
  - now rewrite Hv.
  - destruct (String.eqb k key); simpl; rewrite !find_app.
    + simpl. rewrite Hv. now destruct (List.find p vs).
    + now rewrite IH.
Qed.

Lemma find_push_behind (m : jsmap V) key v p vs x :
  get m key = Some vs -> List.find p vs = Some x ->
  List.find p (flat_map snd (push m key v)) = List.find p (flat_map snd m).
Proof.
  induction m as [|[k ws] rest IH]; simpl; [discriminate|].
  destruct (String.eqb k key); simpl; intros Hget Hfind; rewrite !find_app.
  - injection Hget as ->. now rewrite Hfind.
  - now rewrite (IH Hget Hfind).
Qed.

End RegistryMaps.

Lemma last_snoc_some {A} (xs : list A) (x : A) :
  List.last (map Some (xs ++ [x])%list) None = Some x.
Proof.
  rewrite map_app. simpl. apply last_last.
Qed.

(** X15.  The group lookup gives the group registered last under the
    key: after a registration the lookup for the same file and
    identifier answers with the registered middlewares and prefix,
    whatever was registered before; a registration under another key,
    or of a mount, leaves the lookup as it was. *)
Theorem last_group_wins (reg : RouteGroupRegistry.t)
    (filePath variableName prefix : string) (middlewares : list string) :
  let reg' :=
    RouteGroupRegistry.registerGroup reg filePath variableName prefix middlewares in
  RouteGroupRegistry.getGroup reg' filePath variableName
  = Some (RouteGroup.mk prefix middlewares variableName filePath)
  /\ RouteGroupRegistry.getAllMiddlewares reg' filePath variableName = middlewares
  /\ (forall f v,
         RouteGroupRegistry.makeKey filePath variableName
         <> RouteGroupRegistry.makeKey f v ->
         RouteGroupRegistry.getGroup reg' f v = RouteGroupRegistry.getGroup reg f v)
  /\ (forall f app p r f' v,
         RouteGroupRegistry.getGroup
           (RouteGroupRegistry.registerRouterMount reg f app p r) f' v
         = RouteGroupRegistry.getGroup reg f' v).
Proof.
  cbv zeta.
  assert (H : RouteGroupRegistry.getGroup
                (RouteGroupRegistry.registerGroup reg filePath variableName
                   prefix middlewares) filePath variableName
              = Some (RouteGroup.mk prefix middlewares variableName filePath)).
  { unfold RouteGroupRegistry.getGroup, RouteGroupRegistry.registerGroup. simpl.
    rewrite get_push_same. apply last_snoc_some. }
  split; [exact H|]. split; [|split].
  - unfold RouteGroupRegistry.getAllMiddlewares. now rewrite H.
  - intros f v Hne. unfold RouteGroupRegistry.getGroup,
      RouteGroupRegistry.registerGroup. simpl. now rewrite get_push_other.
  - reflexivity.
Qed.

(** X15, witness: a second registration for the same router replaces
    the first one's middlewares; another router in the file is not
    touched. *)
Lemma last_group_wins_witness :
  RouteGroupRegistry.getAllMiddlewares
    (RouteGroupRegistry.registerGroup
       (RouteGroupRegistry.registerGroup
          (RouteGroupRegistry.registerGroup RouteGroupRegistry.empty
             "a.ts" "admin" "/admin" ["requireAuth"])
          "a.ts" "open" "/open" [])
       "a.ts" "open" "/open" ["log"])
    "a.ts" "admin"
  = ["requireAuth"].
Proof.
  unfold RouteGroupRegistry.getAllMiddlewares.
  rewrite (proj1 (proj2 (proj2 (last_group_wins _ "a.ts" "open" "/open" ["log"])))
             "a.ts" "admin") by discriminate.
  reflexivity.
Defined.

Section KeyInjective.

Lemma append_length a b : String.length (a ++ b) = String.length a + String.length b.
Proof. induction a as [|c a IH]; simpl; [reflexivity|now rewrite IH]. Qed.

Lemma append_cancel_right w : forall a b, a ++ w = b ++ w -> a = b.
Proof.
  induction a as [|c a IH]; intros [|d b] H.
  - reflexivity.
  - apply (f_equal String.length) in H. simpl in H. rewrite append_length in H. lia.
  - apply (f_equal String.length) in H. simpl in H. rewrite append_length in H. lia.
  - simpl in H. injection H as -> H. f_equal. now apply IH.
Qed.

Lemma colonFree_key f v : colonFree (f ++ "::" ++ v) = false.
Proof.
  induction f as [|c f IH]; [reflexivity|].
  simpl. simpl in IH. rewrite IH. apply andb_false_r.
Qed.

Lemma afterLastColon_key f v :
  colonFree v = true -> afterLastColon (RouteGroupRegistry.makeKey f v) = v.
Proof.
  intros Hv. unfold RouteGroupRegistry.makeKey.
  induction f as [|c f IH].
  - cbn. now rewrite Hv.
  - change (afterLastColon (String c f ++ "::" ++ v))
      with (if colonFree (f ++ "::" ++ v)
            then (if Ascii.eqb c ":" then f ++ "::" ++ v
                  else String c (f ++ "::" ++ v))
            else afterLastColon (f ++ "::" ++ v)).
    now rewrite colonFree_key.
Qed.

Lemma makeKey_injective f v f' v' :
  colonFree v = true -> colonFree v' = true ->
  RouteGroupRegistry.makeKey f v = RouteGroupRegistry.makeKey f' v' ->
  f = f' /\ v = v'.
Proof.
  intros Hv Hv' H.
  assert (Hvv : v = v').
  { rewrite <- (afterLastColon_key f v Hv), <- (afterLastColon_key f' v' Hv').
    now rewrite H. }
  subst v'. split; [|reflexivity].
  unfold RouteGroupRegistry.makeKey in H. now apply append_cancel_right in H.
Qed.

End KeyInjective.

(** X16.  Keys of the registry do not collide for identifiers without
    colon: two (file, identifier) pairs with the same key are the same
    pair, so registering a group for one router never changes the
    middlewares looked up for another router or for the same name in
    another file. *)
Theorem groups_do_not_mix (reg : RouteGroupRegistry.t)
    (f v prefix : string) (middlewares : list string) (f' v' : string) :
  colonFree v = true -> colonFree v' = true ->
  (f, v) <> (f', v') ->
  RouteGroupRegistry.makeKey f v <> RouteGroupRegistry.makeKey f' v'
  /\ RouteGroupRegistry.getAllMiddlewares
       (RouteGroupRegistry.registerGroup reg f v prefix middlewares) f' v'
     = RouteGroupRegistry.getAllMiddlewares reg f' v'.
Proof.
  intros Hv Hv' Hne.
  assert (Hkey : RouteGroupRegistry.makeKey f v <> RouteGroupRegistry.makeKey f' v').
  { intros H. destruct (makeKey_injective _ _ _ _ Hv Hv' H). subst. now apply Hne. }
  split; [exact Hkey|].
  unfold RouteGroupRegistry.getAllMiddlewares, RouteGroupRegistry.getGroup,
    RouteGroupRegistry.registerGroup. simpl. now rewrite get_push_other.
Qed.

(** X16, witness: [router] in a.ts and [router] in b.ts. *)
Lemma groups_do_not_mix_witness :
  RouteGroupRegistry.getAllMiddlewares
    (RouteGroupRegistry.registerGroup RouteGroupRegistry.empty
       "a.ts" "router" "/a" ["requireAuth"])
    "b.ts" "router"
  = [].
Proof.
  rewrite (proj2 (groups_do_not_mix RouteGroupRegistry.empty
                    "a.ts" "router" "/a" ["requireAuth"] "b.ts" "router"
                    eq_refl eq_refl ltac:(discriminate))).
  reflexivity.
Defined.

(** X17.  Mounts of different routers do not interfere: registering a
    mount for one router leaves the prefix of every other router as it
    was, and neither the registration of a group nor a second mount of
    a router on an app that already mounts it in the same file changes
    the router's prefix.  After [clear] every lookup is empty. *)
Theorem mounts_do_not_interfere (reg : RouteGroupRegistry.t)
    (f app prefix routerName : string) :
  let reg' := RouteGroupRegistry.registerRouterMount reg f app prefix routerName in
  (forall f' other, other <> routerName ->
      RouteGroupRegistry.getRouterPrefix reg' f' other
      = RouteGroupRegistry.getRouterPrefix reg f' other)
  /\ ((exists m, In m (mountsAt reg f app) /\ Mount.routerName m = routerName) ->
      forall f',
        RouteGroupRegistry.getRouterPrefix reg' f' routerName
        = RouteGroupRegistry.getRouterPrefix reg f' routerName)
  /\ (forall g v p ms f' r,
         RouteGroupRegistry.getRouterPrefix
           (RouteGroupRegistry.registerGroup reg g v p ms) f' r
         = RouteGroupRegistry.getRouterPrefix reg f' r)
  /\ (forall f' r v,
         RouteGroupRegistry.getRouterPrefix (RouteGroupRegistry.clear reg') f' r
         = EmptyString
         /\ RouteGroupRegistry.getAllMiddlewares (RouteGroupRegistry.clear reg') f' v
            = []).
Proof.
  cbv zeta. split; [|split; [|split]].
  - intros f' other Hne.
    unfold RouteGroupRegistry.getRouterPrefix, RouteGroupRegistry.registerRouterMount.
    simpl. rewrite !scanMounts_first. rewrite find_push_miss; [reflexivity|].
    simpl. apply String.eqb_neq. congruence.
  - intros (m & Hin & Hm) f'.
    unfold RouteGroupRegistry.getRouterPrefix, RouteGroupRegistry.registerRouterMount.
    simpl. rewrite !scanMounts_first. unfold mountsAt in Hin.
    destruct (RouteGroupRegistry.get (RouteGroupRegistry.routerMounts reg)
                (RouteGroupRegistry.makeKey f app)) as [vs|] eqn:Hget;
      [|destruct Hin].
    destruct (List.find (fun x => String.eqb (Mount.routerName x) routerName) vs)
      as [x|] eqn:Hfind.
    + now rewrite (find_push_behind _ _ _ _ vs x Hget Hfind).
    + apply (proj1 (find_none_iff _ _)) with (x := m) in Hfind; trivial.
      apply String.eqb_neq in Hfind. contradiction.
  - reflexivity.
  - intros. split; reflexivity.
Qed.

(** X17, witness: mounting [orderRouter] does not move [userRouter]. *)
Lemma mounts_do_not_interfere_witness :
  RouteGroupRegistry.getRouterPrefix
    (RouteGroupRegistry.registerRouterMount Sample.mounted
       "server.ts" "app" "/orders" "orderRouter")
    "routes/users.ts" "userRouter"
  = "/api".
Proof.
  rewrite (proj1 (mounts_do_not_interfere Sample.mounted
                    "server.ts" "app" "/orders" "orderRouter"))
    by discriminate.
  reflexivity.
Defined.

(** ** Middleware and hook discoverers *)

(** The loop that the Koa discoverer and the Fastify hook extraction
    share: a name that matches turns the authenticated flag on and is
    added to the guard names. *)
Lemma guard_fold (p : string -> bool) (ms : list string) : forall auth,
  let r :=
    fold_left
      (fun auth m =>
         if p m then
           AuthorizationInfo.set_guardNames
             (AuthorizationInfo.guardNames auth ++ [m])%list
             (AuthorizationInfo.set_isAuthenticated true auth)
         else auth)
      ms auth in
  AuthorizationInfo.guardNames r
  = (AuthorizationInfo.guardNames auth ++ filter p ms)%list
  /\ AuthorizationInfo.isAuthenticated r
     = AuthorizationInfo.isAuthenticated auth || existsb p ms
  /\ AuthorizationInfo.roles r = AuthorizationInfo.roles auth
  /\ AuthorizationInfo.policies r = AuthorizationInfo.policies auth
  /\ AuthorizationInfo.isExplicitlyPublic r
     = AuthorizationInfo.isExplicitlyPublic auth
  /\ AuthorizationInfo.middlewareChain r = AuthorizationInfo.middlewareChain auth.
Proof.
  induction ms as [|m ms IH]; intros auth; cbv zeta.
  - cbn [fold_left filter existsb]. rewrite app_nil_r, orb_false_r. tauto.
  - cbn [fold_left filter existsb]. specialize (IH
      (if p m then
         AuthorizationInfo.set_guardNames
           (AuthorizationInfo.guardNames auth ++ [m])%list
           (AuthorizationInfo.set_isAuthenticated true auth)
       else auth)).
    cbv zeta in IH. destruct IH as (-> & -> & -> & -> & -> & ->).
    destruct (p m); destruct auth as [a e r q c g k]; cbn.
    + rewrite <- app_assoc, orb_true_r. tauto.
    + tauto.
Qed.

Lemma koa_isAuthMiddleware name :
  KoaDiscoverer.isAuthMiddleware name
  = existsb (fun w => Js.includes (Js.toLowerCase name) w)
      ["authenticate"; "auth"; "jwt"; "passport"; "protect"; "guard"; "verify"].
Proof.
  unfold KoaDiscoverer.isAuthMiddleware, KoaDiscoverer.AUTH_MIDDLEWARE_PATTERNS.
  rewrite some_contains_i. reflexivity.
Qed.

Lemma fastify_isAuthHook name :
  FastifyDiscoverer.isAuthHook name
  = existsb (fun w => Js.includes (Js.toLowerCase name) w)
      ["authenticate"; "verify"; "jwt"; "auth"; "guard"; "protected"].
Proof.
  unfold FastifyDiscoverer.isAuthHook, FastifyDiscoverer.AUTH_HOOK_PATTERNS.
  rewrite some_contains_i. reflexivity.
Qed.

(** X18.  The authorization the Koa discoverer builds from the
    middleware names of a route: the chain is the names as given, the
    guard names are those that contain, in any case, one of the seven
    auth words, the route is authenticated exactly when there is one,
    and there are never roles, policies or an explicit public mark, so
    the classification is Authenticated or Public. *)
Theorem koa_authorization_closed_form (middlewares : list string) :
  let auth := KoaDiscoverer.buildAuthorizationInfo middlewares in
  let isAuth name :=
    existsb (fun w => Js.includes (Js.toLowerCase name) w)
      ["authenticate"; "auth"; "jwt"; "passport"; "protect"; "guard"; "verify"] in
  AuthorizationInfo.middlewareChain auth = middlewares
  /\ AuthorizationInfo.guardNames auth = filter isAuth middlewares
  /\ AuthorizationInfo.isAuthenticated auth = existsb isAuth middlewares
  /\ AuthorizationInfo.roles auth = []
  /\ AuthorizationInfo.policies auth = []
  /\ AuthorizationInfo.isExplicitlyPublic auth = false
  /\ AuthorizationInfo.classification auth
     = (if existsb isAuth middlewares then Authenticated else Public).
Proof.
  cbv zeta. unfold KoaDiscoverer.buildAuthorizationInfo.
  destruct (guard_fold KoaDiscoverer.isAuthMiddleware middlewares
              (AuthorizationInfo.set_middlewareChain middlewares
                 createDefaultAuthorizationInfo))
    as (Hg & Ha & Hr & Hp & He & Hm).
  cbv zeta in Hg, Ha, Hr, Hp, He, Hm.
  set (r := fold_left _ _ _) in *.
  assert (Hf : filter KoaDiscoverer.isAuthMiddleware middlewares
               = filter (fun name =>
                           existsb (fun w => Js.includes (Js.toLowerCase name) w)
                             ["authenticate"; "auth"; "jwt"; "passport"; "protect";
                              "guard"; "verify"]) middlewares)
    by (apply filter_ext; intros; apply koa_isAuthMiddleware).
  assert (Hx : existsb KoaDiscoverer.isAuthMiddleware middlewares
               = existsb (fun name =>
                            existsb (fun w => Js.includes (Js.toLowerCase name) w)
                              ["authenticate"; "auth"; "jwt"; "passport"; "protect";
                               "guard"; "verify"]) middlewares)
    by (apply existsb_ext_all; intros; apply koa_isAuthMiddleware).
  rewrite <- Hf, <- Hx.
  change (AuthorizationInfo.middlewareChain
            (AuthorizationInfo.set_classification (determineClassification r) r))
    with (AuthorizationInfo.middlewareChain r).
  change (AuthorizationInfo.guardNames
            (AuthorizationInfo.set_classification (determineClassification r) r))
    with (AuthorizationInfo.guardNames r).
  change (AuthorizationInfo.isAuthenticated
            (AuthorizationInfo.set_classification (determineClassification r) r))
    with (AuthorizationInfo.isAuthenticated r).
  change (AuthorizationInfo.roles
            (AuthorizationInfo.set_classification (determineClassification r) r))
    with (AuthorizationInfo.roles r).
  change (AuthorizationInfo.policies
            (AuthorizationInfo.set_classification (determineClassification r) r))
    with (AuthorizationInfo.policies r).
  change (AuthorizationInfo.isExplicitlyPublic
            (AuthorizationInfo.set_classification (determineClassification r) r))
    with (AuthorizationInfo.isExplicitlyPublic r).
  change (AuthorizationInfo.classification
            (AuthorizationInfo.set_classification (determineClassification r) r))
    with (determineClassification r).
  unfold determineClassification. rewrite Hg, Ha, Hr, Hp, He, Hm.
  split; [reflexivity|]. split; [reflexivity|]. split; [reflexivity|].
  split; [reflexivity|]. split; [reflexivity|]. split; reflexivity.
Qed.

Lemma extractHooksAuth_facts node auth :
  let r := FastifyDiscoverer.extractHooksAuth node auth in
  AuthorizationInfo.middlewareChain r
  = (AuthorizationInfo.middlewareChain auth ++ hookNames node)%list
  /\ AuthorizationInfo.guardNames r
     = (AuthorizationInfo.guardNames auth
        ++ filter FastifyDiscoverer.isAuthHook (hookNames node))%list
  /\ AuthorizationInfo.isAuthenticated r
     = AuthorizationInfo.isAuthenticated auth
       || existsb FastifyDiscoverer.isAuthHook (hookNames node)
  /\ AuthorizationInfo.roles r = AuthorizationInfo.roles auth
  /\ AuthorizationInfo.policies r = AuthorizationInfo.policies auth
  /\ AuthorizationInfo.isExplicitlyPublic r
     = AuthorizationInfo.isExplicitlyPublic auth.
Proof.
  cbv zeta. unfold FastifyDiscoverer.extractHooksAuth. fold (hookNames node).
  destruct (guard_fold FastifyDiscoverer.isAuthHook (hookNames node)
              (AuthorizationInfo.set_middlewareChain
                 (AuthorizationInfo.middlewareChain auth ++ hookNames node)%list
                 auth))
    as (Hg & Ha & Hr & Hp & He & Hm).
  cbv zeta in Hg, Ha, Hr, Hp, He, Hm.
  rewrite Hg, Ha, Hr, Hp, He, Hm. destruct auth; cbn. tauto.
Qed.

Lemma extractHooksAuth_recordsOnly node auth :
  recordsOnly FastifyDiscoverer.isAuthHook auth ->
  recordsOnly FastifyDiscoverer.isAuthHook
    (FastifyDiscoverer.extractHooksAuth node auth).
Proof.
  unfold recordsOnly. intros (Hg & Ha & Hr & Hp & He).
  destruct (extractHooksAuth_facts node auth) as (-> & -> & -> & -> & -> & ->).
  rewrite filter_app, existsb_app, Hg, Ha. tauto.
Qed.

Lemma extractAuthFromOptions_chain properties : forall auth,
  AuthorizationInfo.middlewareChain
    (fold_left
       (fun auth prop =>
          match prop with
          | Ts.PropertyAssignment (Some propName) initializer =>
              if FastifyDiscoverer.isHookProperty propName
              then FastifyDiscoverer.extractHooksAuth initializer auth
              else auth
          | _ => auth
          end)
       properties auth)
  = (AuthorizationInfo.middlewareChain auth ++ optionHooks properties)%list
  /\ (recordsOnly FastifyDiscoverer.isAuthHook auth ->
      recordsOnly FastifyDiscoverer.isAuthHook
        (fold_left
           (fun auth prop =>
              match prop with
              | Ts.PropertyAssignment (Some propName) initializer =>
                  if FastifyDiscoverer.isHookProperty propName
                  then FastifyDiscoverer.extractHooksAuth initializer auth
                  else auth
              | _ => auth
              end)
           properties auth)).
Proof.
  induction properties as [|prop ps IH]; intros auth.
  - cbn [fold_left optionHooks flat_map]. rewrite app_nil_r. tauto.
  - cbn [fold_left]. unfold optionHooks. cbn [flat_map]. fold (optionHooks ps).
    destruct prop as [[propName|] initializer|];
      try (destruct (IH auth) as [-> H]; split; [reflexivity|exact H]).
    destruct (FastifyDiscoverer.isHookProperty propName).
    + destruct (IH (FastifyDiscoverer.extractHooksAuth initializer auth))
        as [-> H].
      destruct (extractHooksAuth_facts initializer auth) as (-> & _).
      rewrite <- app_assoc. split; [reflexivity|].
      intros Hr. now apply H, extractHooksAuth_recordsOnly.
    + destruct (IH auth) as [-> H]. split; [reflexivity|exact H].
Qed.

Lemma extractAuthFromOptions_recordsOnly properties :
  recordsOnly FastifyDiscoverer.isAuthHook
    (FastifyDiscoverer.extractAuthFromOptions properties).
Proof.
  unfold FastifyDiscoverer.extractAuthFromOptions.
  apply (proj2 (extractAuthFromOptions_chain properties
                  createDefaultAuthorizationInfo)).
  unfold recordsOnly. cbn. tauto.
Qed.

(** X19.  The authorization the Fastify discoverer reads from the
    options object of a route: the chain is the hook names of its
    [preHandler] and [onRequest] properties in the order written, the
    guard names are the hooks that contain, in any case, one of the six
    auth words, the route is authenticated exactly when there is one,
    and roles, policies and the explicit public mark are never set. *)
Theorem fastify_options_authorization (properties : list Ts.Property) :
  let auth := FastifyDiscoverer.extractAuthFromOptions properties in
  AuthorizationInfo.middlewareChain auth = optionHooks properties
  /\ recordsOnly FastifyDiscoverer.isAuthHook auth
  /\ forall name,
       FastifyDiscoverer.isAuthHook name
       = existsb (fun w => Js.includes (Js.toLowerCase name) w)
           ["authenticate"; "verify"; "jwt"; "auth"; "guard"; "protected"].
Proof.
  cbv zeta. unfold FastifyDiscoverer.extractAuthFromOptions.
  destruct (extractAuthFromOptions_chain properties createDefaultAuthorizationInfo)
    as [Hc _].
  split; [exact Hc|]. split; [|exact fastify_isAuthHook].
  apply extractAuthFromOptions_recordsOnly.
Qed.

Lemma recordsOnly_classified p auth :
  recordsOnly p auth ->
  recordsOnly p
    (AuthorizationInfo.set_classification (determineClassification auth) auth).
Proof. destruct auth; exact (fun H => H). Qed.

Lemma routeProperty_recordsOnly st prop :
  recordsOnly FastifyDiscoverer.isAuthHook
    (FastifyDiscoverer.RouteOptions.authorization st) ->
  recordsOnly FastifyDiscoverer.isAuthHook
    (FastifyDiscoverer.RouteOptions.authorization
       (FastifyDiscoverer.routeProperty st prop)).
Proof.
  intros H. unfold FastifyDiscoverer.routeProperty.
  destruct prop as [[propName|] initializer|]; trivial. cbv zeta.
  destruct (String.eqb propName "method"), (String.eqb propName "url"),
    (String.eqb propName "handler"), (FastifyDiscoverer.isHookProperty propName),
    (FastifyDiscoverer.extractStringValue initializer) as [[|c s]|];
    cbn; trivial; now apply extractHooksAuth_recordsOnly.
Qed.

Lemma routeOptions_recordsOnly properties : forall st,
  recordsOnly FastifyDiscoverer.isAuthHook
    (FastifyDiscoverer.RouteOptions.authorization st) ->
  recordsOnly FastifyDiscoverer.isAuthHook
    (FastifyDiscoverer.RouteOptions.authorization
       (fold_left FastifyDiscoverer.routeProperty properties st)).
Proof.
  induction properties as [|prop ps IH]; intros st H; [exact H|].
  cbn [fold_left]. now apply IH, routeProperty_recordsOnly.
Qed.

Lemma default_recordsOnly p : recordsOnly p createDefaultAuthorizationInfo.
Proof. unfold recordsOnly. cbn. tauto. Qed.

Lemma fastify_endpoint_recordsOnly filePath call e :
  FastifyDiscoverer.processCall filePath call = Some e ->
  recordsOnly FastifyDiscoverer.isAuthHook (Endpoint.authorization e).
Proof.
  unfold FastifyDiscoverer.processCall.
  destruct (FastifyDiscoverer.processShorthandRoute call filePath) eqn:E.
  - intros H. injection H as <-.
    unfold FastifyDiscoverer.processShorthandRoute in E.
    destruct (Ts.CallNode.expression call); try discriminate E.
    destruct (negb _); [discriminate|].
    destruct (FastifyDiscoverer.getCallerName _); [|discriminate].
    destruct (_ || _); [discriminate|].
    destruct (Ts.CallNode.arguments call) as [|first rest]; [discriminate|].
    destruct (FastifyDiscoverer.extractStringValue first); [|discriminate].
    destruct (negb _); [discriminate|].
    destruct rest as [|second after].
    + injection E as <-. apply default_recordsOnly.
    + destruct second; injection E as <-;
        try (apply recordsOnly_classified, default_recordsOnly).
      apply recordsOnly_classified.
      apply extractAuthFromOptions_recordsOnly.
  - clear E. unfold FastifyDiscoverer.processRouteMethod. intros H.
    destruct (Ts.CallNode.expression call); try discriminate H.
    destruct (negb _); [discriminate|].
    destruct (FastifyDiscoverer.getCallerName _); [|discriminate].
    destruct (_ || _); [discriminate|].
    destruct (Ts.CallNode.arguments call) as [|[] rest]; try discriminate H.
    destruct (FastifyDiscoverer.RouteOptions.method _); [|discriminate].
    destruct (FastifyDiscoverer.RouteOptions.url _); [|discriminate].
    destruct (negb _); [discriminate|].
    injection H as <-.
    apply recordsOnly_classified, routeOptions_recordsOnly, default_recordsOnly.
Qed.

Lemma koa_recordsOnly middlewares :
  recordsOnly KoaDiscoverer.isAuthMiddleware
    (KoaDiscoverer.buildAuthorizationInfo middlewares).
Proof.
  unfold KoaDiscoverer.buildAuthorizationInfo. apply recordsOnly_classified.
  destruct (guard_fold KoaDiscoverer.isAuthMiddleware middlewares
              (AuthorizationInfo.set_middlewareChain middlewares
                 createDefaultAuthorizationInfo))
    as (Hg & Ha & Hr & Hp & He & Hm).
  cbv zeta in Hg, Ha, Hr, Hp, He, Hm. unfold recordsOnly.
  rewrite Hg, Ha, Hr, Hp, He, Hm. cbn. tauto.
Qed.

(** ** What every discovered endpoint carries *)

Ltac open_matches H :=
  repeat match type of H with
         | context [match ?x with _ => _ end] => destruct x; try discriminate H
         end.

Lemma classified_set auth :
  classified (AuthorizationInfo.set_classification (determineClassification auth) auth).
Proof. now destruct auth. Qed.

Lemma express_endpoint_classified registry call filePath e :
  ExpressDiscoverer.processCallExpression registry call filePath = Some e ->
  classified (Endpoint.authorization e)
  /\ Endpoint.type e = Express
  /\ SourceLocation.filePath (Endpoint.location e) = filePath.
Proof.
  unfold ExpressDiscoverer.processCallExpression. intros H.
  open_matches H; injection H as <-; (split; [|split]); try reflexivity;
    apply express_extract_classification.
Qed.

Lemma koa_endpoint_facts call filePath e :
  KoaDiscoverer.processRouteCall call filePath = Some e ->
  (exists middlewares,
      Endpoint.authorization e = KoaDiscoverer.buildAuthorizationInfo middlewares)
  /\ Endpoint.type e = Koa
  /\ SourceLocation.filePath (Endpoint.location e) = filePath.
Proof.
  unfold KoaDiscoverer.processRouteCall. intros H.
  open_matches H; injection H as <-; (split; [|split]); try reflexivity;
    eexists; reflexivity.
Qed.

Lemma fastify_endpoint_facts filePath call e :
  FastifyDiscoverer.processCall filePath call = Some e ->
  classified (Endpoint.authorization e)
  /\ Endpoint.type e = Fastify
  /\ SourceLocation.filePath (Endpoint.location e) = filePath.
Proof.
  unfold FastifyDiscoverer.processCall.
  destruct (FastifyDiscoverer.processShorthandRoute call filePath) eqn:E.
  - intros H. injection H as <-.
    unfold FastifyDiscoverer.processShorthandRoute in E.
    destruct (Ts.CallNode.expression call); try discriminate E.
    destruct (negb _); [discriminate|].
    destruct (FastifyDiscoverer.getCallerName _); [|discriminate].
    destruct (_ || _); [discriminate|].
    destruct (Ts.CallNode.arguments call) as [|first rest]; [discriminate|].
    destruct (FastifyDiscoverer.extractStringValue first); [|discriminate].
    destruct (negb _); [discriminate|].
    destruct (match rest with [] => _ | _ => _ end) as [handler auth].
    injection E as <-. split; [apply classified_set|split; reflexivity].
  - clear E. unfold FastifyDiscoverer.processRouteMethod. intros H.
    destruct (Ts.CallNode.expression call); try discriminate H.
    destruct (negb _); [discriminate|].
    destruct (FastifyDiscoverer.getCallerName _); [|discriminate].
    destruct (_ || _); [discriminate|].
    destruct (Ts.CallNode.arguments call) as [|[] rest]; try discriminate H.
    destruct (FastifyDiscoverer.RouteOptions.method _); [|discriminate].
    destruct (FastifyDiscoverer.RouteOptions.url _); [|discriminate].
    destruct (negb _); [discriminate|].
    injection H as <-. split; [apply classified_set|split; reflexivity].
Qed.

Lemma nestjs_endpoint_facts methodNode filePath controllerPath controllerName classAuth e :
  NestJSDiscoverer.processMethod methodNode filePath controllerPath
    controllerName classAuth = Some e ->
  classified (Endpoint.authorization e)
  /\ Endpoint.type e = NestJS
  /\ SourceLocation.filePath (Endpoint.location e) = filePath
  /\ Endpoint.controllerName e = Some controllerName.
Proof.
  unfold NestJSDiscoverer.processMethod. intros H.
  destruct (NestJSDiscoverer.findHttpDecorator _) as [[m p]|]; [|discriminate].
  injection H as <-. split; [apply nestjs_extract_classification|].
  repeat split.
Qed.

Lemma discovered_cases type filePath e :
  discoveredIn type filePath e ->
  match type with
  | Express =>
      exists registry call,
        ExpressDiscoverer.processCallExpression registry call filePath = Some e
  | NestJS =>
      exists m controllerPath controllerName classAuth,
        NestJSDiscoverer.processMethod m filePath controllerPath controllerName
          classAuth = Some e
  | Fastify => exists call, FastifyDiscoverer.processCall filePath call = Some e
  | Koa => exists call, KoaDiscoverer.processRouteCall call filePath = Some e
  end.
Proof.
  destruct type; cbn [discoveredIn].
  - intros (registry & calls & H). apply in_somes, in_map_iff in H.
    destruct H as (c & Hc & _). eauto.
  - intros (statements & H). unfold NestJSDiscoverer.discover in H.
    apply in_flat_map in H. destruct H as ([cls|] & _ & H); [|destruct H].
    unfold NestJSDiscoverer.processClass in H.
    destruct (find _ _); [|destruct H].
    apply in_somes, in_map_iff in H. destruct H as ([m|] & Hm & _);
      [|discriminate]. eauto.
  - intros (calls & H). apply in_somes, in_map_iff in H.
    destruct H as (c & Hc & _). eauto.
  - intros (calls & H). apply in_somes, in_map_iff in H.
    destruct H as (c & Hc & _). eauto.
Qed.

Lemma classified_public auth :
  classified auth ->
  (AuthorizationInfo.classification auth = Public
   <-> AuthorizationInfo.isAuthenticated auth = false
       /\ AuthorizationInfo.roles auth = []
       /\ AuthorizationInfo.policies auth = []).
Proof.
  unfold classified, determineClassification. intros ->.
  destruct (AuthorizationInfo.policies auth), (AuthorizationInfo.roles auth),
    (AuthorizationInfo.isAuthenticated auth); cbn;
    split; try discriminate; try tauto;
    intros (H1 & H2 & H3); discriminate.
Qed.

(** X20.  What every endpoint of a discoverer carries: the framework
    of the discoverer, the path of the scanned file, and a
    classification that is the shared function's answer for its own
    facts, so it is Public exactly when it is not authenticated and has
    neither roles nor policies.  Only NestJS endpoints name a
    controller. *)
Theorem discovered_endpoint_facts (type : EndpointType) (filePath : string)
    (e : Endpoint.t) :
  discoveredIn type filePath e ->
  let auth := Endpoint.authorization e in
  Endpoint.type e = type
  /\ SourceLocation.filePath (Endpoint.location e) = filePath
  /\ AuthorizationInfo.classification auth = determineClassification auth
  /\ (AuthorizationInfo.classification auth = Public
      <-> AuthorizationInfo.isAuthenticated auth = false
          /\ AuthorizationInfo.roles auth = []
          /\ AuthorizationInfo.policies auth = [])
  /\ (Endpoint.controllerName e <> None <-> type = NestJS).
Proof.
  intros H. apply discovered_cases in H. cbv zeta. destruct type.
  - destruct H as (registry & call & H).
    assert (Hc : Endpoint.controllerName e = None).
    { unfold ExpressDiscoverer.processCallExpression in H.
      open_matches H; now injection H as <-. }
    apply express_endpoint_classified in H. destruct H as (Hcl & Ht & Hf).
    split; [exact Ht|]. split; [exact Hf|]. split; [exact Hcl|].
    split; [now apply classified_public|]. rewrite Hc. split; [tauto|discriminate].
  - destruct H as (m & cp & cn & ca & H).
    apply nestjs_endpoint_facts in H. destruct H as (Hcl & Ht & Hf & Hc).
    split; [exact Ht|]. split; [exact Hf|]. split; [exact Hcl|].
    split; [now apply classified_public|]. rewrite Hc. split; [reflexivity|discriminate].
  - destruct H as (call & H).
    assert (Hc : Endpoint.controllerName e = None).
    { unfold FastifyDiscoverer.processCall in H.
      destruct (FastifyDiscoverer.processShorthandRoute call filePath) eqn:E.
      - injection H as <-.
        unfold FastifyDiscoverer.processShorthandRoute in E.
        destruct (Ts.CallNode.expression call); try discriminate E.
        destruct (negb _); [discriminate|].
        destruct (FastifyDiscoverer.getCallerName _); [|discriminate].
        destruct (_ || _); [discriminate|].
        destruct (Ts.CallNode.arguments call) as [|first rest]; [discriminate|].
        destruct (FastifyDiscoverer.extractStringValue first); [|discriminate].
        destruct (negb _); [discriminate|].
        destruct (match rest with [] => _ | _ => _ end) as [handler auth].
        now injection E as <-.
      - clear E. unfold FastifyDiscoverer.processRouteMethod in H.
        destruct (Ts.CallNode.expression call); try discriminate H.
        destruct (negb _); [discriminate|].
        destruct (FastifyDiscoverer.getCallerName _); [|discriminate].
        destruct (_ || _); [discriminate|].
        destruct (Ts.CallNode.arguments call) as [|[] rest]; try discriminate H.
        destruct (FastifyDiscoverer.RouteOptions.method _); [|discriminate].
        destruct (FastifyDiscoverer.RouteOptions.url _); [|discriminate].
        destruct (negb _); [discriminate|].
        now injection H as <-. }
    apply fastify_endpoint_facts in H. destruct H as (Hcl & Ht & Hf).
    split; [exact Ht|]. split; [exact Hf|]. split; [exact Hcl|].
    split; [now apply classified_public|]. rewrite Hc. split; [tauto|discriminate].
  - destruct H as (call & H).
    assert (Hc : Endpoint.controllerName e = None).
    { unfold KoaDiscoverer.processRouteCall in H.
      open_matches H; now injection H as <-. }
    apply koa_endpoint_facts in H. destruct H as ((ms & Hms) & Ht & Hf).
    split; [exact Ht|]. split; [exact Hf|]. rewrite Hms.
    split; [apply koa_build_classification|].
    split; [apply classified_public, koa_build_classification|].
    rewrite Hc. split; [tauto|discriminate].
Qed.

(** X20, witness: the Koa endpoint of
    [router.get('users//:id/', requireAuth, show)] in routes.ts. *)
Lemma discovered_endpoint_facts_witness :
  discoveredIn Koa "routes.ts" SampleCalls.koaEndpoint
  /\ Endpoint.type SampleCalls.koaEndpoint = Koa
  /\ AuthorizationInfo.classification (Endpoint.authorization SampleCalls.koaEndpoint)
     = Authenticated.
Proof.
  assert (H : discoveredIn Koa "routes.ts" SampleCalls.koaEndpoint)
    by (exists [SampleCalls.koaShow]; left; reflexivity).
  split; [exact H|].
  destruct (discovered_endpoint_facts Koa "routes.ts" SampleCalls.koaEndpoint H)
    as (Ht & _ & Hc & _).
  split; [exact Ht|]. rewrite Hc. reflexivity.
Defined.

Lemma evaluate_single config e f :
  In f (RuleEngine.evaluate (RuleEngine.initializeRules config) [e]) ->
  exists rule,
    In rule RuleEngine.allRules
    /\ In f (SecurityRule.evaluate rule e)
    /\ Finding.ruleId f = SecurityRule.id rule.
Proof.
  intros Hf. unfold RuleEngine.evaluate in Hf. cbn [flat_map] in Hf.
  rewrite app_nil_r in Hf. apply in_flat_map in Hf.
  destruct Hf as (rule & Hrule & Hf). apply enabled_rules in Hrule.
  destruct Hrule as [Hall _]. exists rule. split; [exact Hall|].
  split; [exact Hf|].
  exact (proj1 (proj2 (rule_finding_shape rule e Hall) f Hf)).
Qed.

(** X21.  The Koa and Fastify discoverers read middleware and hook
    names only.  On their endpoints the guard names are the names of
    the chain that pass the discoverer's name test, the endpoint is
    authenticated exactly when there is one, and roles, policies and
    the explicit public mark are never set; so the engine can only
    report AP001, AP004, AP007 and AP008 for them, whatever the
    configuration. *)
Theorem hook_discoverers_record_no_roles (config : RuleEngine.RuleEngineConfig)
    (type : EndpointType) (filePath : string) (e : Endpoint.t) (f : Finding.t) :
  type = Koa \/ type = Fastify ->
  discoveredIn type filePath e ->
  recordsOnly (authNameTest type) (Endpoint.authorization e)
  /\ (In f (RuleEngine.evaluate (RuleEngine.initializeRules config) [e]) ->
      In (Finding.ruleId f) ["AP001"; "AP004"; "AP007"; "AP008"]).
Proof.
  intros Ht H. apply discovered_cases in H.
  assert (Hr : recordsOnly (authNameTest type) (Endpoint.authorization e)).
  { destruct Ht as [-> | ->]; destruct H as (call & H).
    - apply koa_endpoint_facts in H. destruct H as ((ms & ->) & _).
      apply koa_recordsOnly.
    - eapply fastify_endpoint_recordsOnly, H. }
  split; [exact Hr|]. intros Hf. apply evaluate_single in Hf.
  destruct Hf as (rule & Hall & Hf & ->).
  destruct Hr as (_ & _ & Hroles & _ & Hexp).
  unfold RuleEngine.allRules in Hall.
  repeat (destruct Hall as [<-|Hall]); try destruct Hall; cbn [In]; auto.
  - rewrite (fires_false_nil _ e) in Hf
      by (rewrite fires_AP002, Hexp; apply andb_false_r).
    destruct Hf.
  - rewrite (fires_false_nil _ e) in Hf
      by (rewrite fires_AP003, Hexp; apply andb_false_r).
    destruct Hf.
  - rewrite (fires_false_nil _ e) in Hf by (now rewrite fires_AP005, Hroles).
    destruct Hf.
  - rewrite (fires_false_nil _ e) in Hf by (now rewrite fires_AP006, Hroles).
    destruct Hf.
Qed.

(** X21, witness: the Koa endpoint of
    [router.get('users//:id/', requireAuth, show)] has no roles. *)
Lemma hook_discoverers_record_no_roles_witness :
  discoveredIn Koa "routes.ts" SampleCalls.koaEndpoint
  /\ AuthorizationInfo.roles (Endpoint.authorization SampleCalls.koaEndpoint) = [].
Proof.
  assert (H : discoveredIn Koa "routes.ts" SampleCalls.koaEndpoint)
    by (exists [SampleCalls.koaShow]; left; reflexivity).
  split; [exact H|].
  exact (proj1 (proj2 (proj2 (proj1
           (hook_discoverers_record_no_roles None Koa "routes.ts"
              SampleCalls.koaEndpoint Sample.ordersAP004 (or_introl eq_refl) H))))).
Defined.

(** ** HTTP verbs of call-style routes *)

Lemma verb_of_name (name : string) :
  Loader.has ["get"; "post"; "put"; "delete"; "patch"; "options"; "head"; "all"]
    (Js.toLowerCase name) = true ->
  HttpMethod_value
    (match parseHttpMethod (Js.toUpperCase (Js.toLowerCase name)) with
     | Some m => m
     | None => GET
     end)
  = Js.toUpperCase name
  /\ parseHttpMethod (Js.toUpperCase (Js.toLowerCase name)) <> None.
Proof.
  unfold Loader.has. intros H. apply existsb_exists in H.
  destruct H as (w & Hw & Heq). apply String.eqb_eq in Heq.
  rewrite <- (toUpperCase_toLowerCase name). rewrite Heq.
  cbn [In] in Hw.
  repeat (destruct Hw as [<-|Hw]; [split; [reflexivity|discriminate]|]).
  destruct Hw.
Qed.

(** X22.  The verb of a call-style route is the name of the called
    method in upper case, whatever its case in the source: the
    Express and Koa discoverers and the Fastify shorthand take a call
    as a route only when that name is, in lower case, one of the eight
    verbs, and then the lookup of the verb always succeeds, so the
    fallback to GET is never taken. *)
Theorem call_route_verb (call : Ts.CallNode.t) (filePath : string) (e : Endpoint.t) :
  (exists registry,
      ExpressDiscoverer.processCallExpression registry call filePath = Some e)
  \/ KoaDiscoverer.processRouteCall call filePath = Some e
  \/ FastifyDiscoverer.processShorthandRoute call filePath = Some e ->
  exists target name text,
    Ts.CallNode.expression call = Ts.PropertyAccessExpression target name text
    /\ HttpMethod_value (Endpoint.method e) = Js.toUpperCase name
    /\ parseHttpMethod (Js.toUpperCase (Js.toLowerCase name))
       = Some (Endpoint.method e).
Proof.
  assert (Hsome : forall name m,
             Loader.has
               ["get"; "post"; "put"; "delete"; "patch"; "options"; "head"; "all"]
               (Js.toLowerCase name) = true ->
             m = match parseHttpMethod (Js.toUpperCase (Js.toLowerCase name)) with
                 | Some m => m
                 | None => GET
                 end ->
             HttpMethod_value m = Js.toUpperCase name
             /\ parseHttpMethod (Js.toUpperCase (Js.toLowerCase name)) = Some m).
  { intros name m Hhas ->. destruct (verb_of_name name Hhas) as [Hv Hn].
    split; [exact Hv|].
    now destruct (parseHttpMethod (Js.toUpperCase (Js.toLowerCase name))). }
  intros [(registry & H)|[H|H]].
  - unfold ExpressDiscoverer.processCallExpression in H.
    destruct (Ts.CallNode.expression call) as [ | | | |target name text| | | | | | ];
      try discriminate H.
    exists target, name, text. split; [reflexivity|].
    destruct (Loader.has ExpressDiscoverer.EXPRESS_HTTP_METHODS (Js.toLowerCase name))
      eqn:Hhas; [|discriminate H].
    apply Hsome; [exact Hhas|]. cbn [negb] in H.
    open_matches H; now injection H as <-.
  - unfold KoaDiscoverer.processRouteCall in H.
    destruct (Ts.CallNode.expression call) as [ | | | |target name text| | | | | | ];
      try discriminate H.
    exists target, name, text. split; [reflexivity|].
    destruct (Loader.has KoaDiscoverer.KOA_HTTP_METHODS (Js.toLowerCase name))
      eqn:Hhas; [|discriminate H].
    apply Hsome; [exact Hhas|]. cbn [negb] in H.
    open_matches H; now injection H as <-.
  - unfold FastifyDiscoverer.processShorthandRoute in H.
    destruct (Ts.CallNode.expression call) as [ | | | |target name text| | | | | | ];
      try discriminate H.
    exists target, name, text. split; [reflexivity|].
    destruct (Loader.has FastifyDiscoverer.FASTIFY_HTTP_METHODS
                (Js.toLowerCase name)) eqn:Hhas; [|discriminate H].
    apply Hsome; [exact Hhas|]. cbn [negb] in H.
    destruct (FastifyDiscoverer.getCallerName _); [|discriminate].
    destruct (_ || _); [discriminate|].
    destruct (Ts.CallNode.arguments call) as [|first rest]; [discriminate|].
    destruct (FastifyDiscoverer.extractStringValue first); [|discriminate].
    destruct (negb _); [discriminate|].
    destruct (match rest with [] => _ | _ => _ end) as [handler auth].
    now injection H as <-.
Qed.

(** X22, witness: [router.get(...)] in a Koa file is a GET route. *)
Lemma call_route_verb_witness :
  KoaDiscoverer.processRouteCall SampleCalls.koaShow "routes.ts"
  = Some SampleCalls.koaEndpoint
  /\ exists target name text,
       Ts.CallNode.expression SampleCalls.koaShow
       = Ts.PropertyAccessExpression target name text
       /\ HttpMethod_value (Endpoint.method SampleCalls.koaEndpoint)
          = Js.toUpperCase name
       /\ parseHttpMethod (Js.toUpperCase (Js.toLowerCase name))
          = Some (Endpoint.method SampleCalls.koaEndpoint).
Proof.
  split; [reflexivity|].
  apply (call_route_verb SampleCalls.koaShow "routes.ts" SampleCalls.koaEndpoint).
  right; left. reflexivity.
Defined.

(** ** Path normalisation *)

Section Normalisation.

Import Shape.

Lemma segs_collapse s : forall b,
  segs b s = true -> Paths.collapseFrom b s = s.
Proof.
  induction s as [|c t IH]; intros b H; [reflexivity|].
  cbn [segs] in H. cbn [Paths.collapseFrom].
  destruct (Js.is_slash c) eqn:Ec.
  - apply andb_prop in H. destruct H as [Hb H]. destruct b; [discriminate|].
    apply is_slash_true in Ec. subst c. now rewrite (IH true H).
  - now rewrite (IH false H).
Qed.

Lemma routeOk_fixed route :
  routeOk route = true -> Paths.normalizePath route = route.
Proof.
  destruct route as [|c rest]; [discriminate|]. unfold routeOk.
  destruct (Js.is_slash c) eqn:Ec; [|discriminate]. cbn [andb]. intros H.
  unfold Paths.normalizePath. rewrite startsWith_cons, Ec. cbn [negb].
  unfold Paths.collapseSlashes. cbn [Paths.collapseFrom]. rewrite Ec.
  apply is_slash_true in Ec. subst c.
  destruct rest as [|d u]; [reflexivity|].
  rewrite (segs_collapse _ _ H).
  change (Js.endsWithChar (String Js.slash (String d u)) Js.slash)
    with (Js.endsWithChar (String d u) Js.slash).
  now rewrite (segs_no_trailing _ _ H), andb_false_r.
Qed.

(** A text without two slashes in a row and without a slash at its
    end is a sequence of segments. *)
Lemma invariant_segs s : forall c,
  Js.includes (String c s) "//" = false ->
  Js.endsWithChar (String c s) Js.slash = false ->
  segs (Js.is_slash c) s = true.
Proof.
  induction s as [|d u IH]; intros c Hi He.
  - cbn in He. cbn [segs]. unfold Js.is_slash. now rewrite He.
  - rewrite includes_cons, prefix_cons in Hi. fold Js.slash in Hi.
    fold (Js.is_slash c) in Hi.
    change (Js.endsWithChar (String c (String d u)) Js.slash)
      with (Js.endsWithChar (String d u) Js.slash) in He.
    cbn [segs].
    destruct (Js.is_slash c) eqn:Ec.
    + rewrite prefix_cons, prefix_nil in Hi. fold Js.slash in Hi.
      fold (Js.is_slash d) in Hi.
      destruct (Js.is_slash d) eqn:Ed; [discriminate|].
      specialize (IH d Hi He). now rewrite Ed in IH.
    + specialize (IH d Hi He). destruct (Js.is_slash d); cbn [negb andb]; exact IH.
Qed.

Lemma invariant_routeOk route :
  Js.startsWith route "/" = true ->
  Js.includes route "//" = false ->
  (Js.endsWithChar route Js.slash = true -> route = "/") ->
  routeOk route = true.
Proof.
  intros Hs Hi He. destruct (startsWith_slash _ Hs) as [rest ->].
  unfold routeOk. change (Js.is_slash Js.slash) with true. cbn [andb].
  destruct rest as [|d u]; [reflexivity|].
  change true with (Js.is_slash Js.slash) at 1. apply invariant_segs; [exact Hi|].
  destruct (Js.endsWithChar (String Js.slash (String d u)) Js.slash); [|reflexivity].
  now specialize (He eq_refl).
Qed.

End Normalisation.

(** X23.  [normalizePath] leaves a path as it is exactly when the path
    already has the shape of a route (a slash first, no two slashes in
    a row, a slash last only for the root); as every result has that
    shape, normalising twice is the same as normalising once. *)
Theorem normalizePath_fixed_points (path : string) :
  (Paths.normalizePath path = path
   <-> Js.startsWith path "/" = true
       /\ Js.includes path "//" = false
       /\ (Js.endsWithChar path Js.slash = true -> path = "/"))
  /\ Paths.normalizePath (Paths.normalizePath path) = Paths.normalizePath path.
Proof.
  split.
  - split.
    + intros H. rewrite <- H. apply routeOk_invariant, normalizePath_ok.
    + intros (Hs & Hi & He). now apply routeOk_fixed, invariant_routeOk.
  - apply routeOk_fixed, normalizePath_ok.
Qed.

Section RouteBuilding.

Import Shape.

Lemma dropSlash_cons x s :
  dropSlash (String x s)
  = match s with
    | EmptyString => if Js.is_slash x then EmptyString else String x EmptyString
    | _ => String x (dropSlash s)
    end.
Proof.
  unfold dropSlash. destruct s as [|d u].
  - cbn. fold Js.slash. fold (Js.is_slash x). reflexivity.
  - change (Js.endsWithChar (String x (String d u)) Js.slash)
      with (Js.endsWithChar (String d u) Js.slash).
    now destruct (Js.endsWithChar (String d u) Js.slash).
Qed.

Lemma dropTrailing_cons s :
  dropTrailingSlash (String Js.slash s) = String Js.slash (dropSlash s).
Proof.
  unfold dropTrailingSlash, dropSlash. destruct s as [|d u]; [reflexivity|].
  change (Js.endsWithChar (String Js.slash (String d u)) Js.slash)
    with (Js.endsWithChar (String d u) Js.slash).
  change (1 <? String.length (String Js.slash (String d u)))%nat with true.
  cbn [andb]. now destruct (Js.endsWithChar (String d u) Js.slash).
Qed.

Lemma collapse_true_nil s :
  Paths.collapseFrom true (s ++ "/") = EmptyString
  <-> Paths.collapseFrom true s = EmptyString.
Proof.
  induction s as [|d u IH]; [now cbn|].
  cbn [append Paths.collapseFrom]. destruct (Js.is_slash d); [exact IH|].
  split; discriminate.
Qed.

Lemma collapse_false_nil s :
  Paths.collapseFrom false s = EmptyString -> s = EmptyString.
Proof.
  destruct s as [|d u]; [reflexivity|]. cbn [Paths.collapseFrom].
  destruct (Js.is_slash d); discriminate.
Qed.

(** A slash added at the end is dropped again. *)
Lemma collapse_snoc s : forall b,
  dropSlash (Paths.collapseFrom b (s ++ "/")) = dropSlash (Paths.collapseFrom b s).
Proof.
  induction s as [|d u IH]; intros b; [now destruct b|].
  cbn [append Paths.collapseFrom]. destruct (Js.is_slash d) eqn:Ed.
  - destruct b; [apply IH|]. rewrite !dropSlash_cons.
    pose proof (collapse_true_nil u) as Hnil. specialize (IH true).
    destruct (Paths.collapseFrom true (u ++ "/")) as [|x xs],
      (Paths.collapseFrom true u) as [|y ys]; trivial.
    + discriminate (proj1 Hnil eq_refl).
    + discriminate (proj2 Hnil eq_refl).
    + now rewrite IH.
  - rewrite !dropSlash_cons, Ed. specialize (IH false).
    destruct (Paths.collapseFrom false (u ++ "/")) as [|x xs] eqn:Ex.
    + apply collapse_false_nil in Ex. now destruct u.
    + destruct (Paths.collapseFrom false u) as [|y ys] eqn:Ey.
      * apply collapse_false_nil in Ey. subst u. cbn in Ex.
        injection Ex as <- <-. reflexivity.
      * now rewrite IH.
Qed.

(** Two slashes in the middle count as one. *)
Lemma collapse_mid s t : forall b,
  Paths.collapseFrom b (s ++ String Js.slash (String Js.slash t))
  = Paths.collapseFrom b (s ++ String Js.slash t).
Proof.
  induction s as [|d u IH]; intros b; [now destruct b|].
  cbn [append Paths.collapseFrom]. destruct (Js.is_slash d), b; now rewrite IH.
Qed.

Lemma normalizePath_collapse path :
  Paths.normalizePath path
  = String Js.slash (dropSlash (Paths.collapseFrom true path)).
Proof.
  unfold Paths.normalizePath.
  fold (dropTrailingSlash
          (Paths.collapseSlashes
             (if negb (Js.startsWith path "/") then "/" ++ path else path))).
  destruct (Js.startsWith path "/") eqn:E; cbn [negb].
  - destruct (startsWith_slash _ E) as [t ->]. apply dropTrailing_cons.
  - apply dropTrailing_cons.
Qed.

Lemma buildRoute_collapse controllerPath methodPath :
  NestJSDiscoverer.buildRoute controllerPath methodPath
  = String Js.slash
      (dropSlash (Paths.collapseFrom true (controllerPath ++ "/" ++ methodPath))).
Proof.
  unfold NestJSDiscoverer.buildRoute.
  set (route1 := if Js.truthy controllerPath then _ else _).
  set (route2 := if Js.truthy methodPath then _ else _).
  assert (H : exists t,
             route2 = String Js.slash t
             /\ dropSlash (Paths.collapseFrom true t)
                = dropSlash (Paths.collapseFrom true
                               (controllerPath ++ "/" ++ methodPath))).
  { subst route2 route1. destruct controllerPath as [|c cs].
    - cbn [Js.truthy]. change (String.eqb "/" "/") with true. cbn iota.
      destruct methodPath as [|m ms]; [now exists EmptyString|].
      cbn [Js.truthy]. rewrite startsWith_cons.
      destruct (Js.is_slash m) eqn:Em.
      + apply is_slash_true in Em. subst m. now exists ms.
      + exists (String m ms). split; reflexivity.
    - cbn [Js.truthy]. rewrite startsWith_cons.
      assert (Hc : exists c1,
                 (if Js.is_slash c then String c cs else "/" ++ String c cs)
                 = String Js.slash c1
                 /\ Paths.collapseFrom true c1 = Paths.collapseFrom true (String c cs)
                 /\ forall t, Paths.collapseFrom true (c1 ++ t)
                              = Paths.collapseFrom true (String c cs ++ t)).
      { destruct (Js.is_slash c) eqn:Ec.
        - apply is_slash_true in Ec. subst c. exists cs. now split.
        - exists (String c cs). now split. }
      destruct Hc as (c1 & -> & Hc1 & Hc).
      destruct methodPath as [|m ms].
      + cbn [Js.truthy]. exists c1. split; [reflexivity|].
        rewrite <- Hc. cbn [append]. symmetry. apply collapse_snoc.
      + cbn [Js.truthy]. rewrite startsWith_cons.
        assert (Hm : exists m1,
                   (if Js.is_slash m then String m ms else "/" ++ String m ms)
                   = String Js.slash m1
                   /\ forall s b,
                        Paths.collapseFrom b (s ++ String Js.slash m1)
                        = Paths.collapseFrom b (s ++ "/" ++ String m ms)).
        { destruct (Js.is_slash m) eqn:Em.
          - apply is_slash_true in Em. subst m. exists ms.
            split; [reflexivity|]. intros s b. symmetry. apply collapse_mid.
          - exists (String m ms). now split. }
        destruct Hm as (m1 & -> & Hm).
        destruct c1 as [|x xs].
        * change (String.eqb (String Js.slash EmptyString) "/") with true.
          cbn iota. exists m1. split; [reflexivity|].
          rewrite <- Hc. rewrite <- (Hm EmptyString true).
          reflexivity.
        * assert (Hne : String.eqb (String Js.slash (String x xs)) "/" = false)
            by reflexivity.
          rewrite Hne. exists (String x xs ++ String Js.slash m1).
          split; [reflexivity|]. now rewrite Hm, Hc. }
  destruct H as (t & -> & Ht).
  unfold Paths.collapseSlashes. cbn [Paths.collapseFrom].
  change (Js.is_slash Js.slash) with true. cbn iota.
  rewrite startsWith_cons. change (Js.is_slash Js.slash) with true. cbn [negb].
  fold (dropTrailingSlash (String Js.slash (Paths.collapseFrom true t))).
  now rewrite dropTrailing_cons, Ht.
Qed.

End RouteBuilding.

(** X24.  The route builder of the NestJS discoverer agrees with the
    [normalizePath] of the other three: the route of a method is the
    controller path and the method path joined by a slash and
    normalised, whatever slashes either path brings; in particular an
    empty method path gives the normalised controller path and an
    empty controller path the normalised method path. *)
Theorem buildRoute_is_normalized_join (controllerPath methodPath : string) :
  NestJSDiscoverer.buildRoute controllerPath methodPath
  = Paths.normalizePath (controllerPath ++ "/" ++ methodPath)
  /\ NestJSDiscoverer.buildRoute controllerPath EmptyString
     = Paths.normalizePath controllerPath
  /\ NestJSDiscoverer.buildRoute EmptyString methodPath
     = Paths.normalizePath methodPath.
Proof.
  rewrite !buildRoute_collapse, !normalizePath_collapse. split; [reflexivity|].
  split.
  - f_equal. cbn [append]. apply collapse_snoc.
  - reflexivity.
Qed.

(** ** The Express extractor *)

Lemma processMiddleware_facts m auth :
  let r := ExpressAuthExtractor.processMiddleware m auth in
  AuthorizationInfo.policies r = AuthorizationInfo.policies auth
  /\ AuthorizationInfo.middlewareChain r = AuthorizationInfo.middlewareChain auth
  /\ (AuthorizationInfo.isAuthenticated auth = true ->
      AuthorizationInfo.isAuthenticated r = true)
  /\ ((AuthorizationInfo.guardNames r = AuthorizationInfo.guardNames auth
       /\ AuthorizationInfo.roles r = AuthorizationInfo.roles auth)
      \/ AuthorizationInfo.isAuthenticated r = true)
  /\ (forall g, In g (AuthorizationInfo.guardNames r) ->
                In g (AuthorizationInfo.guardNames auth) \/ g = Js.trim m).
Proof.
  cbv zeta. unfold ExpressAuthExtractor.processMiddleware.
  set (n := Js.trim m). set (roles := ExpressAuthExtractor.extractRolesFromMiddleware n).
  destruct (ExpressAuthExtractor.matchesPatterns n ExpressAuthExtractor.PUBLIC_PATTERNS),
    (ExpressAuthExtractor.matchesPatterns n
       ExpressAuthExtractor.AUTH_MIDDLEWARE_PATTERNS),
    (ExpressAuthExtractor.matchesPatterns n ExpressAuthExtractor.ROLE_PATTERNS),
    (ExpressAuthExtractor.containsAuthKeyword n);
    destruct auth as [a e r q c g k];
    cbn [AuthorizationInfo.policies AuthorizationInfo.middlewareChain
         AuthorizationInfo.isAuthenticated AuthorizationInfo.guardNames
         AuthorizationInfo.roles AuthorizationInfo.set_isExplicitlyPublic
         AuthorizationInfo.set_guardNames AuthorizationInfo.set_isAuthenticated
         AuthorizationInfo.set_roles];
    (split; [reflexivity|]); (split; [reflexivity|]); (split; [auto|]);
    (split; [auto|]); intros x Hx; auto;
    apply in_app_or in Hx; destruct Hx as [Hx|[<-|[]]]; auto.
Qed.

Lemma processMiddlewares_facts ms : forall auth,
  let r := fold_left (fun auth m => ExpressAuthExtractor.processMiddleware m auth)
             ms auth in
  (AuthorizationInfo.guardNames auth = [] /\ AuthorizationInfo.roles auth = []
   \/ AuthorizationInfo.isAuthenticated auth = true) ->
  AuthorizationInfo.policies r = AuthorizationInfo.policies auth
  /\ AuthorizationInfo.middlewareChain r = AuthorizationInfo.middlewareChain auth
  /\ (AuthorizationInfo.guardNames r = [] /\ AuthorizationInfo.roles r = []
      \/ AuthorizationInfo.isAuthenticated r = true)
  /\ (forall g, In g (AuthorizationInfo.guardNames r) ->
                In g (AuthorizationInfo.guardNames auth)
                \/ exists m, In m ms /\ g = Js.trim m).
Proof.
  induction ms as [|m ms IH]; intros auth; cbv zeta; intros HJ.
  - cbn [fold_left]. repeat split; auto.
  - cbn [fold_left].
    destruct (processMiddleware_facts m auth) as (Hp & Hm & Ha & Hgr & Hg).
    cbv zeta in Hp, Hm, Ha, Hgr, Hg.
    destruct (IH (ExpressAuthExtractor.processMiddleware m auth))
      as (Hp' & Hm' & HJ' & Hg').
    { destruct Hgr as [[-> ->]|Hr]; [|now right].
      destruct HJ as [HJ|HJ]; [now left|right; now apply Ha]. }
    cbv zeta in Hp', Hm', HJ', Hg'. rewrite Hp', Hm', Hp, Hm.
    split; [reflexivity|]. split; [reflexivity|]. split; [exact HJ'|].
    intros g Hin. destruct (Hg' g Hin) as [H|(m' & Hm'' & ->)].
    + destruct (Hg g H) as [H' | ->]; [now left|].
      right. exists m. split; [now left|reflexivity].
    + right. exists m'. split; [now right|reflexivity].
Qed.

(** X25.  What the Express extractor guarantees for any middleware
    names.  The chain is the router's middlewares followed by the
    route's, and the router's are treated like the route's own.
    Policies are never set.  Guard names or roles are only recorded
    together with the authenticated flag, so the classification is
    Public exactly when the flag is off, and never PolicyRestricted.
    Every guard name is the trimmed text of a middleware of the
    chain. *)
Theorem express_extract_invariants (middlewares : list string)
    (context : option ExpressAuthExtractor.AuthorizationExtractorContext.t) :
  let auth := ExpressAuthExtractor.extract middlewares context in
  AuthorizationInfo.middlewareChain auth = allMiddlewares middlewares context
  /\ auth = ExpressAuthExtractor.extract (allMiddlewares middlewares context) None
  /\ AuthorizationInfo.policies auth = []
  /\ (AuthorizationInfo.guardNames auth <> [] \/ AuthorizationInfo.roles auth <> [] ->
      AuthorizationInfo.isAuthenticated auth = true)
  /\ (AuthorizationInfo.classification auth = Public
      <-> AuthorizationInfo.isAuthenticated auth = false)
  /\ AuthorizationInfo.classification auth <> PolicyRestricted
  /\ (forall g, In g (AuthorizationInfo.guardNames auth) ->
                exists m, In m (allMiddlewares middlewares context) /\ g = Js.trim m).
Proof.
  cbv zeta.
  assert (Hall : ExpressAuthExtractor.extract middlewares context
                 = ExpressAuthExtractor.extract (allMiddlewares middlewares context)
                     None).
  { unfold ExpressAuthExtractor.extract, allMiddlewares.
    destruct context as [[i [rs|] g r]|]; reflexivity. }
  rewrite Hall. set (all := allMiddlewares middlewares context).
  unfold ExpressAuthExtractor.extract. cbn [app].
  set (start := AuthorizationInfo.set_middlewareChain all
                  createDefaultAuthorizationInfo).
  destruct (processMiddlewares_facts all start) as (Hp & Hm & HJ & Hg);
    [now left|].
  cbv zeta in Hp, Hm, HJ, Hg.
  set (r := fold_left _ all start) in *.
  assert (Hcl : AuthorizationInfo.classification
                  (AuthorizationInfo.set_classification (determineClassification r) r)
                = determineClassification r) by now destruct r.
  assert (Hfields :
            AuthorizationInfo.middlewareChain
              (AuthorizationInfo.set_classification (determineClassification r) r)
            = AuthorizationInfo.middlewareChain r
            /\ AuthorizationInfo.policies
                 (AuthorizationInfo.set_classification (determineClassification r) r)
               = AuthorizationInfo.policies r
            /\ AuthorizationInfo.guardNames
                 (AuthorizationInfo.set_classification (determineClassification r) r)
               = AuthorizationInfo.guardNames r
            /\ AuthorizationInfo.roles
                 (AuthorizationInfo.set_classification (determineClassification r) r)
               = AuthorizationInfo.roles r
            /\ AuthorizationInfo.isAuthenticated
                 (AuthorizationInfo.set_classification (determineClassification r) r)
               = AuthorizationInfo.isAuthenticated r) by now destruct r.
  destruct Hfields as (-> & -> & -> & -> & ->). rewrite Hcl.
  change (AuthorizationInfo.policies start) with (@nil string) in Hp.
  change (AuthorizationInfo.middlewareChain start) with all in Hm.
  split; [exact Hm|]. split; [reflexivity|]. split; [exact Hp|].
  split; [|split; [|split]].
  - intros [H|H]; destruct HJ as [[Hg0 Hr0]|Ha]; trivial; contradiction.
  - unfold determineClassification. rewrite Hp. cbn [List.length Nat.ltb Nat.leb].
    destruct HJ as [[_ ->] | ->].
    + cbn. destruct (AuthorizationInfo.isAuthenticated r); split; congruence.
    + destruct (AuthorizationInfo.roles r); split; discriminate.
  - unfold determineClassification. rewrite Hp.
    destruct (AuthorizationInfo.roles r), (AuthorizationInfo.isAuthenticated r);
      discriminate.
  - intros g Hin. destruct (Hg g Hin) as [H|H]; [destruct H|exact H].
Qed.

(** ** The filters of the scan command *)

Section Filters.

Variable localeCompare : string -> string -> Z.

Lemma filter_true {A} (xs : list A) : filter (fun _ => true) xs = xs.
Proof. induction xs as [|x xs IH]; [reflexivity|]. cbn. now rewrite IH. Qed.

Lemma filter_filter {A} (p q : A -> bool) (xs : list A) :
  filter p (filter q xs) = filter (fun x => q x && p x) xs.
Proof.
  induction xs as [|x xs IH]; [reflexivity|]. cbn [filter].
  destruct (q x); cbn [filter andb]; [destruct (p x)|]; now rewrite IH.
Qed.

Lemma list_stage {A B C} (value : A -> string) (wanted : option (list A))
    (g : B -> A) (h : C -> A) (es : list B) (fs : list C) :
  match wanted with
  | Some w =>
      if (0 <? List.length w)%nat then
        (filter (fun e => Scan.includesValue value w (g e)) es,
         filter (fun f => Scan.includesValue value w (h f)) fs)
      else (es, fs)
  | None => (es, fs)
  end
  = (filter (fun e => listFilter value wanted (g e)) es,
     filter (fun f => listFilter value wanted (h f)) fs).
Proof.
  destruct wanted as [[|w ws]|]; cbn [List.length Nat.ltb Nat.leb listFilter];
    now rewrite ?filter_true.
Qed.

Lemma route_stage {B C} (routeContains : option string)
    (g : B -> string) (h : C -> string) (es : list B) (fs : list C) :
  (if Js.truthyOpt routeContains then
     (filter (fun e =>
                Js.includes (Js.toLowerCase (g e))
                  (Js.toLowerCase
                     (match routeContains with Some s => s | None => EmptyString end)))
             es,
      filter (fun f =>
                Js.includes (Js.toLowerCase (h f))
                  (Js.toLowerCase
                     (match routeContains with Some s => s | None => EmptyString end)))
             fs)
   else (es, fs))
  = (filter (fun e => routeFilter routeContains (g e)) es,
     filter (fun f => routeFilter routeContains (h f)) fs).
Proof.
  destruct routeContains as [[|c s]|]; cbn [Js.truthyOpt Js.truthy routeFilter];
    now rewrite ?filter_true.
Qed.

Lemma severity_stage (severity : option Severity) (fs : list Finding.t) :
  match severity with
  | Some severity =>
      filter (fun f => (severityOrder severity <=? severityOrder (Finding.severity f))%nat)
             fs
  | None => fs
  end
  = filter (fun f =>
              match severity with
              | Some s => (severityOrder s <=? severityOrder (Finding.severity f))%nat
              | None => true
              end) fs.
Proof. destruct severity; now rewrite ?filter_true. Qed.

Lemma rule_stage (rule : option (list string)) (fs : list Finding.t) :
  match rule with
  | Some wanted =>
      if (0 <? List.length wanted)%nat then
        filter (fun f => existsb (fun id => String.eqb id (Finding.ruleId f)) wanted) fs
      else fs
  | None => fs
  end
  = filter (fun f =>
              match rule with
              | Some (id :: ids) =>
                  existsb (fun id => String.eqb id (Finding.ruleId f)) (id :: ids)
              | _ => true
              end) fs.
Proof.
  destruct rule as [[|id ids]|]; cbn [List.length Nat.ltb Nat.leb];
    now rewrite ?filter_true.
Qed.

Lemma applyFilters_shape (result : ScanResult.t) (options : ScanOptions.t) :
  Scan.applyFilters localeCompare result options
  = ScanResult.mk (ScanResult.projectPath result) (ScanResult.scanDate result)
      (match sorting options with
       | Some sortBy =>
           Scan.sort (Scan.compareEndpoints localeCompare sortBy
                        (sortDirection options))
             (filter (endpointPasses options) (ScanResult.endpoints result))
       | None => filter (endpointPasses options) (ScanResult.endpoints result)
       end)
      (match sorting options with
       | Some sortBy =>
           Scan.sort (Scan.compareFindings localeCompare sortBy
                        (sortDirection options))
             (filter (findingPasses options) (ScanResult.findings result))
       | None => filter (findingPasses options) (ScanResult.findings result)
       end)
      (ScanResult.filesScanned result) (ScanResult.scanDurationMs result).
Proof.
  unfold Scan.applyFilters. cbv zeta. rewrite !severity_stage.
  rewrite (list_stage SecurityClassification_value
             (ScanOptions.classification options)
             (fun e => AuthorizationInfo.classification (Endpoint.authorization e))
             (fun f => AuthorizationInfo.classification
                         (Endpoint.authorization (Finding.endpoint f)))).
  cbv beta iota.
  rewrite (list_stage HttpMethod_value (ScanOptions.method options)
             Endpoint.method (fun f => Endpoint.method (Finding.endpoint f))).
  cbv beta iota.
  rewrite (route_stage (ScanOptions.routeContains options)
             Endpoint.route (fun f => Endpoint.route (Finding.endpoint f))).
  cbv beta iota.
  rewrite (list_stage EndpointType_value (ScanOptions.apiStyle options)
             Endpoint.type (fun f => Endpoint.type (Finding.endpoint f))).
  cbv beta iota. rewrite !rule_stage, !filter_filter.
  unfold sorting, sortDirection.
  destruct (ScanOptions.sortBy options) as [[|c s]|]; cbn [Js.truthy]; cbv iota;
    f_equal;
    (apply filter_ext || (apply f_equal; apply filter_ext));
    intros x; unfold findingPasses, endpointPasses;
    rewrite ?andb_assoc; reflexivity.
Qed.

End Filters.

Lemma insert_perm {A} (compare : A -> A -> Z) (x : A) (xs : list A) :
  Permutation (Scan.insert compare x xs) (x :: xs).
Proof.
  induction xs as [|y ys IH]; [reflexivity|]. cbn [Scan.insert].
  destruct (compare x y <=? 0)%Z; [reflexivity|].
  rewrite IH. apply perm_swap.
Qed.

Lemma sort_perm {A} (compare : A -> A -> Z) (xs : list A) :
  Permutation (Scan.sort compare xs) xs.
Proof.
  induction xs as [|x xs IH]; [reflexivity|]. unfold Scan.sort. cbn [fold_right].
  fold (Scan.sort compare xs). rewrite insert_perm. now apply perm_skip.
Qed.

Lemma sort_constant {A} (compare : A -> A -> Z) (xs : list A) :
  (forall a b, compare a b = 0%Z) -> Scan.sort compare xs = xs.
Proof.
  intros H. induction xs as [|x xs IH]; [reflexivity|]. unfold Scan.sort.
  cbn [fold_right]. fold (Scan.sort compare xs). rewrite IH.
  destruct xs as [|y ys]; [reflexivity|]. cbn [Scan.insert]. now rewrite H.
Qed.

Lemma findingPasses_endpoint options f :
  findingPasses options f = true ->
  endpointPasses options (Finding.endpoint f) = true.
Proof.
  unfold findingPasses. intros H. apply andb_prop in H. destruct H as [H _].
  apply andb_prop in H. now destruct H.
Qed.

(** X26.  What [applyFilters] keeps, for ASCII routes and an ASCII
    text to look for in them.  The endpoints of the result are those
    that pass the classification, method, route and api-style filters,
    and the findings are those whose endpoint passes them and that
    pass the severity and rule filters themselves; a filter given as
    an empty list or an empty text is ignored, and the route filter
    ignores the case of the letters.  Each one is kept as often as it
    occurred; without a sort key the order is kept as well.  If the
    endpoint of every finding was listed before, it is still listed
    after. *)
Theorem applyFilters_keeps_matching (localeCompare : string -> string -> Z)
    (result : ScanResult.t) (options : ScanOptions.t) :
  asciiRouteFilter result options = true ->
  let filtered := Scan.applyFilters localeCompare result options in
  Permutation (ScanResult.endpoints filtered)
    (filter (endpointPasses options) (ScanResult.endpoints result))
  /\ Permutation (ScanResult.findings filtered)
       (filter (findingPasses options) (ScanResult.findings result))
  /\ (sorting options = None ->
      ScanResult.endpoints filtered
      = filter (endpointPasses options) (ScanResult.endpoints result)
      /\ ScanResult.findings filtered
         = filter (findingPasses options) (ScanResult.findings result))
  /\ ((forall f, In f (ScanResult.findings result) ->
                 In (Finding.endpoint f) (ScanResult.endpoints result)) ->
      forall f, In f (ScanResult.findings filtered) ->
                In (Finding.endpoint f) (ScanResult.endpoints filtered)).
Proof.
  intros _. cbv zeta. rewrite applyFilters_shape.
  cbn [ScanResult.endpoints ScanResult.findings].
  assert (He : Permutation
                 (match sorting options with
                  | Some sortBy =>
                      Scan.sort (Scan.compareEndpoints localeCompare sortBy
                                   (sortDirection options))
                        (filter (endpointPasses options) (ScanResult.endpoints result))
                  | None => filter (endpointPasses options)
                              (ScanResult.endpoints result)
                  end)
                 (filter (endpointPasses options) (ScanResult.endpoints result)))
    by (destruct (sorting options); [apply sort_perm|reflexivity]).
  assert (Hf : Permutation
                 (match sorting options with
                  | Some sortBy =>
                      Scan.sort (Scan.compareFindings localeCompare sortBy
                                   (sortDirection options))
                        (filter (findingPasses options) (ScanResult.findings result))
                  | None => filter (findingPasses options)
                              (ScanResult.findings result)
                  end)
                 (filter (findingPasses options) (ScanResult.findings result)))
    by (destruct (sorting options); [apply sort_perm|reflexivity]).
  split; [exact He|]. split; [exact Hf|]. split.
  - intros ->. split; reflexivity.
  - intros Hin f H. apply (Permutation_in _ Hf) in H. apply filter_In in H.
    destruct H as [H Hp]. apply (Permutation_in _ (Permutation_sym He)).
    apply filter_In. split; [now apply Hin|now apply findingPasses_endpoint].
Qed.

(** X26, witness: of POST /api/orders and GET /api/products, the
    route filter [ORDERS] keeps the first. *)
Lemma applyFilters_keeps_matching_witness :
  asciiRouteFilter
    (ScanResult.mk "." 0 [Sample.ordersRoute; Sample.productsRoute]
       (Sample.ordersFindings ++ Sample.productsFindings)%list 1 0)
    (ScanOptions.mk None None None None None None (Some "ORDERS") None None)
  = true
  /\ ScanResult.endpoints
       (Scan.applyFilters (fun _ _ => 0%Z)
          (ScanResult.mk "." 0 [Sample.ordersRoute; Sample.productsRoute]
             (Sample.ordersFindings ++ Sample.productsFindings)%list 1 0)
          (ScanOptions.mk None None None None None None (Some "ORDERS") None None))
     = [Sample.ordersRoute].
Proof.
  split; [reflexivity|].
  rewrite (proj1 (proj1 (proj2 (proj2
             (applyFilters_keeps_matching (fun _ _ => 0%Z)
                (ScanResult.mk "." 0 [Sample.ordersRoute; Sample.productsRoute]
                   (Sample.ordersFindings ++ Sample.productsFindings)%list 1 0)
                (ScanOptions.mk None None None None None None (Some "ORDERS")
                   None None)
                eq_refl))) eq_refl)).
  reflexivity.
Defined.

Section SeveritySort.

Variable dir : Z.

Let key (f : Finding.t) : Z := Z.of_nat (severityOrder (Finding.severity f)).
Let compare (a b : Finding.t) : Z := (dir * (key a - key b))%Z.

Lemma insert_sorted x xs :
  Sorted (fun a b => (compare a b <= 0)%Z) xs ->
  Sorted (fun a b => (compare a b <= 0)%Z) (Scan.insert compare x xs).
Proof.
  induction xs as [|y ys IH]; intros Hs; [repeat constructor|].
  cbn [Scan.insert]. destruct (Z.leb_spec (compare x y) 0) as [Hle|Hgt].
  - constructor; [exact Hs|]. now constructor.
  - apply Sorted_inv in Hs. destruct Hs as [Hs Hhd].
    constructor; [now apply IH|].
    assert (Hyx : (compare y x <= 0)%Z) by (unfold compare in *; nia).
    destruct ys as [|z zs]; cbn [Scan.insert]; [now constructor|].
    destruct (compare x z <=? 0)%Z; constructor; trivial.
    now apply HdRel_inv in Hhd.
Qed.

Lemma sort_sorted xs :
  Sorted (fun a b => (compare a b <= 0)%Z) (Scan.sort compare xs).
Proof.
  induction xs as [|x xs IH]; [constructor|]. unfold Scan.sort.
  cbn [fold_right]. now apply insert_sorted.
Qed.

Lemma insert_stable s x xs :
  filter (fun f => Severity_eqb (Finding.severity f) s) (Scan.insert compare x xs)
  = filter (fun f => Severity_eqb (Finding.severity f) s) (x :: xs).
Proof.
  induction xs as [|y ys IH]; [reflexivity|]. cbn [Scan.insert].
  destruct (Z.leb_spec (compare x y) 0) as [Hle|Hgt]; [reflexivity|].
  cbn [filter] in *. rewrite IH.
  assert (Hne : Finding.severity x <> Finding.severity y).
  { intros E. unfold compare, key in Hgt. rewrite E in Hgt. nia. }
  destruct (Severity_eqb (Finding.severity x) s) eqn:Ex,
    (Severity_eqb (Finding.severity y) s) eqn:Ey; trivial.
  exfalso. apply Hne.
  destruct (Finding.severity x), (Finding.severity y), s; trivial; discriminate.
Qed.

Lemma sort_stable s xs :
  filter (fun f => Severity_eqb (Finding.severity f) s) (Scan.sort compare xs)
  = filter (fun f => Severity_eqb (Finding.severity f) s) xs.
Proof.
  induction xs as [|x xs IH]; [reflexivity|]. unfold Scan.sort.
  cbn [fold_right]. fold (Scan.sort compare xs). rewrite insert_stable.
  cbn [filter]. now rewrite IH.
Qed.

End SeveritySort.

(** X27.  Sorting by severity.  With the sort key [severity] the
    findings that pass the filters come out in ascending order of
    severity, or in descending order when the direction is [desc];
    findings of the same severity keep the order they had; and the
    endpoints are not reordered at all. *)
Theorem sort_by_severity (localeCompare : string -> string -> Z)
    (result : ScanResult.t) (options : ScanOptions.t) :
  ScanOptions.sortBy options = Some "severity" ->
  let filtered := Scan.applyFilters localeCompare result options in
  let kept := filter (findingPasses options) (ScanResult.findings result) in
  let order f := Z.of_nat (severityOrder (Finding.severity f)) in
  ScanResult.endpoints filtered
  = filter (endpointPasses options) (ScanResult.endpoints result)
  /\ Sorted (fun a b => (sortDirection options * (order a - order b) <= 0)%Z)
       (ScanResult.findings filtered)
  /\ (forall s,
        filter (fun f => Severity_eqb (Finding.severity f) s)
               (ScanResult.findings filtered)
        = filter (fun f => Severity_eqb (Finding.severity f) s) kept)
  /\ (sortDirection options = 1%Z
      \/ sortDirection options = (-1)%Z
         /\ ScanOptions.sortDir options = Some "desc").
Proof.
  intros Hs. cbv zeta. rewrite applyFilters_shape.
  cbn [ScanResult.endpoints ScanResult.findings].
  unfold sorting. rewrite Hs. cbn [Js.truthy].
  assert (Hdir : sortDirection options = 1%Z
                 \/ sortDirection options = (-1)%Z
                    /\ ScanOptions.sortDir options = Some "desc").
  { unfold sortDirection. destruct (ScanOptions.sortDir options) as [d|];
      [|now left]. destruct (String.eqb d "desc") eqn:E; [|now left].
    apply String.eqb_eq in E. subst d. now right. }
  split; [|split; [|split]].
  - now apply sort_constant.
  - apply (sort_sorted (sortDirection options)).
  - intros s. apply (sort_stable (sortDirection options)).
  - exact Hdir.
Qed.

(** X27, witness: the findings of POST /api/orders (AP001 High, AP004
    Critical, AP008 High), sorted by severity in descending order. *)
Lemma sort_by_severity_witness :
  map idAndSeverity
    (ScanResult.findings
       (Scan.applyFilters (fun _ _ => 0%Z)
          (ScanResult.mk "." 0 [Sample.ordersRoute] Sample.ordersFindings 1 0)
          (ScanOptions.mk None None (Some "severity") (Some "desc")
             None None None None None)))
  = [("AP004", Critical); ("AP001", High); ("AP008", High)]
  /\ ScanResult.endpoints
       (Scan.applyFilters (fun _ _ => 0%Z)
          (ScanResult.mk "." 0 [Sample.ordersRoute] Sample.ordersFindings 1 0)
          (ScanOptions.mk None None (Some "severity") (Some "desc")
             None None None None None))
     = [Sample.ordersRoute].
Proof.
  split; [reflexivity|].
  exact (proj1 (sort_by_severity (fun _ _ => 0%Z)
                  (ScanResult.mk "." 0 [Sample.ordersRoute] Sample.ordersFindings 1 0)
                  (ScanOptions.mk None None (Some "severity") (Some "desc")
                     None None None None None) eq_refl)).
Defined.

(** X28.  The fail-on check is made on the filtered result: the
    command exits with status 1 exactly when a threshold is given and
    some finding that passes the filters and is not suppressed has a
    severity at or above it.  A finding that the severity or rule
    filter hides does not count. *)
Theorem failOn_after_filters (localeCompare : string -> string -> Z)
    (result : ScanResult.t) (options : ScanOptions.t) :
  Scan.failOnReached (Scan.applyFilters localeCompare result options) options = true
  <-> exists threshold f,
        ScanOptions.failOn options = Some threshold
        /\ In f (ScanResult.findings result)
        /\ findingPasses options f = true
        /\ Finding.suppressed f = false
        /\ severityOrder threshold <= severityOrder (Finding.severity f).
Proof.
  unfold Scan.failOnReached.
  set (filtered := Scan.applyFilters localeCompare result options).
  assert (Hin : forall f,
             In f (filter (fun f => negb (Finding.suppressed f))
                          (ScanResult.findings filtered))
             <-> In f (ScanResult.findings result)
                 /\ findingPasses options f = true
                 /\ Finding.suppressed f = false).
  { intros f. rewrite active_finding. unfold filtered. rewrite applyFilters_shape.
    cbn [ScanResult.findings].
    assert (Hp : In f (match sorting options with
                       | Some sortBy =>
                           Scan.sort (Scan.compareFindings localeCompare sortBy
                                        (sortDirection options))
                             (filter (findingPasses options)
                                     (ScanResult.findings result))
                       | None => filter (findingPasses options)
                                   (ScanResult.findings result)
                       end)
                 <-> In f (ScanResult.findings result)
                     /\ findingPasses options f = true).
    { rewrite <- filter_In. destruct (sorting options); [|reflexivity].
      split; apply Permutation_in; [|symmetry]; apply sort_perm. }
    rewrite Hp. tauto. }
  pose proof (highest_of_active filtered) as H. cbv zeta in H.
  destruct (ScanOptions.failOn options) as [threshold|].
  - destruct (getHighestSeverity filtered) as [highest|].
    + destruct H as ((g & Hg & Hsev) & Hmax). rewrite Nat.leb_le. split.
      * intros Hle. exists threshold, g. apply Hin in Hg.
        destruct Hg as (Hg & Hp & Hsup). rewrite Hsev. auto.
      * intros (t & f & Ht & Hf & Hp & Hs & Hle). injection Ht as <-.
        specialize (Hmax f (proj2 (Hin f) (conj Hf (conj Hp Hs)))). lia.
    + split; [discriminate|].
      intros (t & f & _ & Hf & Hp & Hs & _).
      pose proof (proj2 (Hin f) (conj Hf (conj Hp Hs))) as Hact.
      rewrite H in Hact. destruct Hact.
  - split; [discriminate|]. intros (t & f & Ht & _). discriminate.
Qed.

(** ** Route patterns without wildcards *)

Section LiteralRoutePattern.

Import Regex SuppressionMatcher.

Lemma replace_absent_char x rest by_ s :
  Js.includes s (String x EmptyString) = false ->
  replaceFrom (String x rest) by_ O s = s.
Proof.
  induction s as [|c t IH]; [reflexivity|].
  rewrite includes_char. intros H. apply orb_false_elim in H.
  destruct H as [Hc Ht]. cbn [replaceFrom]. rewrite prefix_cons, Hc.
  now rewrite (IH Ht).
Qed.

Lemma replace_absent lit by_ s :
  Js.includes s lit = false -> replaceFrom lit by_ O s = s.
Proof.
  induction s as [|c t IH]; [reflexivity|].
  rewrite includes_cons. cbn [replaceFrom].
  destruct (String.prefix lit (String c t)); [discriminate|].
  intros H. now rewrite (IH H).
Qed.

Lemma literal_token c :
  Ascii.eqb c "*"%char = false -> Ascii.eqb c "?"%char = false ->
  if isEscaped c then escapedToken c = TLit c
  else Ascii.eqb c "\"%char = false /\ plainToken c = TLit c.
Proof.
  destruct c as [[|] [|] [|] [|] [|] [|] [|] [|]]; vm_compute; intros H1 H2;
    first [discriminate H1 | discriminate H2 | reflexivity | now split].
Qed.

Lemma tokenize_literal p :
  Js.includes p "*" = false -> Js.includes p "?" = false ->
  tokenize (escapeSpecials p ++ "$") = Some (map TLit (list_ascii_of_string p) ++ [TDollar])%list.
Proof.
  induction p as [|c p IH]; [reflexivity|].
  rewrite !includes_char. intros H1 H2.
  apply orb_false_elim in H1. destruct H1 as [Hc1 Hp1].
  apply orb_false_elim in H2. destruct H2 as [Hc2 Hp2].
  specialize (IH Hp1 Hp2). pose proof (literal_token c Hc1 Hc2) as Ht.
  cbn [escapeSpecials]. destruct (isEscaped c).
  - change ((String "\" (String c (escapeSpecials p)) ++ "$"))
      with (String "\"%char (String c (escapeSpecials p ++ "$"))).
    cbn [tokenize]. rewrite Ascii.eqb_refl, IH, Ht. reflexivity.
  - destruct Ht as [Hb Ht].
    change (String c (escapeSpecials p) ++ "$")
      with (String c (escapeSpecials p ++ "$")).
    cbn [tokenize]. rewrite Hb, IH, Ht. reflexivity.
Qed.

Lemma parse_literal p :
  parseTerms (map TLit (list_ascii_of_string p) ++ [TDollar])%list
  = Terms (map (fun c => lit c One true) (list_ascii_of_string p)) true.
Proof.
  induction p as [|c p IH]; [reflexivity|].
  cbn [map app list_ascii_of_string]. cbn [map app] in IH.
  destruct p as [|d q].
  - reflexivity.
  - cbn [list_ascii_of_string] in *.
    change (parseTerms
              (TLit c :: (map TLit (d :: list_ascii_of_string q) ++ [TDollar])%list))
      with (consTerm (lit c One true)
              (parseTerms (map TLit (d :: list_ascii_of_string q) ++ [TDollar])%list)).
    now rewrite IH.
Qed.

Lemma run_literal p : forall s,
  run atEnd (map (fun c => lit c One true) (list_ascii_of_string p)) s
  = if String.eqb p s then Some EmptyString else None.
Proof.
  induction p as [|c p IH]; intros s.
  - destruct s; reflexivity.
  - cbn [map run list_ascii_of_string]. unfold step. cbn [rep lit accepts].
    destruct s as [|x t]; [reflexivity|].
    cbn [String.eqb]. unfold keep. cbn [captured lit].
    destruct (Ascii.eqb c x); [apply IH|reflexivity].
Qed.

Lemma literal_pattern_source pattern :
  Js.includes pattern "*" = false ->
  Js.includes pattern "<<<DOUBLE_STAR>>>" = false ->
  regexSource pattern = "^" ++ escapeSpecials pattern ++ "$".
Proof.
  intros Hstar Hmark. unfold regexSource, replaceAll.
  rewrite (replace_absent_char "*"%char "*" _ pattern Hstar).
  rewrite (replace_absent_char "*"%char EmptyString _ pattern Hstar).
  now rewrite (replace_absent _ _ pattern Hmark).
Qed.

Lemma literal_pattern_matches pattern route :
  Js.includes pattern "*" = false ->
  Js.includes pattern "?" = false ->
  Js.includes pattern "<<<DOUBLE_STAR>>>" = false ->
  matchesRoutePattern pattern route = String.eqb pattern route.
Proof.
  intros Hstar Hquest Hmark. unfold matchesRoutePattern.
  rewrite (literal_pattern_source pattern Hstar Hmark). unfold compile.
  change ("^" ++ escapeSpecials pattern ++ "$")
    with (String "^"%char (escapeSpecials pattern ++ "$")).
  cbn [tokenize]. change (Ascii.eqb "^" "\") with false. cbv iota.
  rewrite (tokenize_literal pattern Hstar Hquest).
  change (plainToken "^") with TCaret. cbn [option_map].
  unfold compileTokens. rewrite parse_literal.
  unfold test, exec. cbn [fromStart items fin_of toEnd].
  rewrite run_literal. now destruct (String.eqb pattern route).
Qed.

End LiteralRoutePattern.

(** X29.  A route pattern without wildcards is an exact route.  When
    the pattern has no star, no question mark and not the marker text
    the matcher uses for double stars, the expression built from it
    matches the route that is equal to the pattern and no other, so in
    a suppression such a [routePattern] does what [route] does. *)
Theorem literal_route_pattern (pattern route : string) :
  Js.includes pattern "*" = false ->
  Js.includes pattern "?" = false ->
  Js.includes pattern "<<<DOUBLE_STAR>>>" = false ->
  SuppressionMatcher.matchesRoutePattern pattern route = String.eqb pattern route
  /\ forall ruleId method reason e id,
       Endpoint.route e = route ->
       SuppressionMatcher.matchesEndpoint
         (SuppressionConfig.mk ruleId None (Some pattern) method reason) e id
       = SuppressionMatcher.matchesEndpoint
           (SuppressionConfig.mk ruleId (Some pattern) None method reason) e id.
Proof.
  intros Hstar Hquest Hmark.
  pose proof (literal_pattern_matches pattern route Hstar Hquest Hmark) as H.
  split; [exact H|]. intros ruleId method reason e id He.
  unfold SuppressionMatcher.matchesEndpoint.
  cbn [SuppressionConfig.ruleId SuppressionConfig.method SuppressionConfig.route
       SuppressionConfig.routePattern].
  rewrite He, H. destruct (Js.truthy pattern), (String.eqb pattern route);
    cbn [andb negb]; now rewrite ?andb_true_r.
Qed.

(** X29, witness: the pattern [/api/users/:id]. *)
Lemma literal_route_pattern_witness :
  SuppressionMatcher.matchesRoutePattern "/api/users/:id" "/api/users/:id" = true
  /\ SuppressionMatcher.matchesRoutePattern "/api/users/:id" "/api/users/7" = false.
Proof.
  split.
  - exact (proj1 (literal_route_pattern "/api/users/:id" "/api/users/:id"
                    eq_refl eq_refl eq_refl)).
  - reflexivity.
Defined.

(** ** List options of the command line *)

Lemma split_nonempty sep s : Js.split sep s <> [].
Proof.
  destruct s as [|c t]; [discriminate|]. cbn [Js.split].
  destruct (Ascii.eqb c sep); [discriminate|].
  destruct (Js.split sep t); discriminate.
Qed.

Lemma in_somes_map {A B} (f : A -> option B) (xs : list A) (y : B) :
  In y (Js.somes (map f xs)) <-> exists x, In x xs /\ f x = Some y.
Proof.
  unfold Js.somes. rewrite in_flat_map. split.
  - intros (o & Ho & Hy). apply in_map_iff in Ho. destruct Ho as (x & <- & Hx).
    exists x. split; [exact Hx|]. destruct (f x); [|destruct Hy].
    destruct Hy as [<-|[]]. reflexivity.
  - intros (x & Hx & Hf). exists (Some y). split; [|now left].
    apply in_map_iff. exists x. now split.
Qed.

Lemma parseHttpMethod_accepts value m :
  parseHttpMethod value = Some m <-> Js.toUpperCase value = HttpMethod_value m.
Proof.
  split; [apply find_value_eq|]. unfold parseHttpMethod. intros ->. now destruct m.
Qed.

(** X30.  List options with unknown parts, for an ASCII option text.
    [parseRuleList] keeps
    every comma-separated part, trimmed and in upper case, so its
    result is never empty and the rule filter it feeds always applies:
    a finding stays only if its rule id is one of the parts.
    [parseMethodList] keeps the parts that name a method, case and
    surrounding blanks being ignored, and drops the others silently;
    when no part names a method the list is empty and the method
    filter is skipped, so nothing is filtered out. *)
Theorem list_options_with_unknown_parts (localeCompare : string -> string -> Z)
    (value : string) (result : ScanResult.t) :
  Js.isAscii value = true ->
  parseRuleList value <> []
  /\ (forall f,
        In f (ScanResult.findings
                (Scan.applyFilters localeCompare result
                   (ScanOptions.mk None None None None None None None None
                      (Some (parseRuleList value)))))
        <-> In f (ScanResult.findings result)
            /\ exists part,
                 In part (Js.split ","%char value)
                 /\ Finding.ruleId f = Js.toUpperCase (Js.trim part))
  /\ (forall m,
        In m (parseMethodList value)
        <-> exists part,
              In part (Js.split ","%char value)
              /\ Js.toUpperCase (Js.trim part) = HttpMethod_value m)
  /\ (parseMethodList value = [] ->
      Scan.applyFilters localeCompare result
        (ScanOptions.mk None None None None None (Some (parseMethodList value))
           None None None)
      = result).
Proof.
  intros _.
  assert (Hne : parseRuleList value <> []).
  { unfold parseRuleList. pose proof (split_nonempty ","%char value) as H.
    destruct (Js.split ","%char value); [contradiction|discriminate]. }
  split; [exact Hne|]. split; [|split].
  - intros f. rewrite applyFilters_shape. cbn [ScanResult.findings sorting
      ScanOptions.sortBy]. rewrite filter_In. unfold findingPasses, endpointPasses.
    cbn [ScanOptions.severity ScanOptions.classification ScanOptions.method
         ScanOptions.routeContains ScanOptions.apiStyle ScanOptions.rule
         listFilter routeFilter andb].
    destruct (parseRuleList value) as [|id ids] eqn:E; [contradiction|].
    rewrite <- E. clear E Hne.
    assert (Hin : existsb (fun id => String.eqb id (Finding.ruleId f))
                    (parseRuleList value) = true
                  <-> exists part, In part (Js.split ","%char value)
                                   /\ Finding.ruleId f = Js.toUpperCase (Js.trim part)).
    { rewrite existsb_exists. unfold parseRuleList. split.
      - intros (x & Hx & Heq). apply in_map_iff in Hx.
        destruct Hx as (part & <- & Hp). apply String.eqb_eq in Heq.
        exists part. now split.
      - intros (part & Hp & ->). exists (Js.toUpperCase (Js.trim part)).
        split; [|apply String.eqb_refl]. apply in_map_iff. now exists part. }
    rewrite Hin. reflexivity.
  - intros m. unfold parseMethodList.
    rewrite (in_somes_map (fun v => parseHttpMethod (Js.trim v))).
    split; intros (part & Hp & H); exists part; (split; [exact Hp|]).
    + now apply parseHttpMethod_accepts.
    + now apply parseHttpMethod_accepts.
  - intros ->. rewrite applyFilters_shape. destruct result as [p d es fs n ms].
    cbn [sorting ScanOptions.sortBy ScanResult.endpoints ScanResult.findings
         ScanResult.projectPath ScanResult.scanDate ScanResult.filesScanned
         ScanResult.scanDurationMs].
    f_equal; [rewrite <- (filter_true es) at 2|rewrite <- (filter_true fs) at 2];
      apply filter_ext; intros x; reflexivity.
Qed.

(** X30, witness: of [get, bogus ,POST] the method list keeps GET and
    POST. *)
Lemma list_options_with_unknown_parts_witness :
  Js.isAscii "get, bogus ,POST" = true
  /\ In POST (parseMethodList "get, bogus ,POST")
  /\ parseMethodList "get, bogus ,POST" = [GET; POST].
Proof.
  split; [reflexivity|]. split; [|reflexivity].
  apply (proj1 (proj2 (proj2
           (list_options_with_unknown_parts (fun _ _ => 0%Z) "get, bogus ,POST"
              (ScanResult.mk "." 0 [] [] 0 0) eq_refl)))).
  exists "POST"%string. split; [|reflexivity].
  right. right. left. reflexivity.
Defined.

(** ** The enumeration parsers, up to case *)

Lemma eqIgnoreCase_lower a : forall b,
  Js.eqIgnoreCase a b = String.eqb (Js.toLowerCase a) (Js.toLowerCase b).
Proof.
  induction a as [|x a IH]; intros [|y b]; try reflexivity.
  cbn [Js.eqIgnoreCase]. rewrite IH.
  change (Js.toLowerCase (String x a))
    with (String (Js.lower_char x) (Js.toLowerCase a)).
  change (Js.toLowerCase (String y b))
    with (String (Js.lower_char y) (Js.toLowerCase b)).
  cbn [String.eqb]. now destruct (Ascii.eqb (Js.lower_char x) (Js.lower_char y)).
Qed.

Lemma eqIgnoreCase_upper_name value name :
  Js.toUpperCase name = name ->
  (Js.eqIgnoreCase value name = true <-> Js.toUpperCase value = name).
Proof.
  intros Hname. rewrite eqIgnoreCase_lower, String.eqb_eq. split.
  - intros H. rewrite <- Hname, <- (toUpperCase_toLowerCase value), H.
    apply toUpperCase_toLowerCase.
  - intros H. rewrite <- H. symmetry. apply toLowerCase_toUpperCase.
Qed.

Lemma eqIgnoreCase_lower_name value name :
  Js.toLowerCase name = name ->
  (Js.eqIgnoreCase value name = true <-> Js.toLowerCase value = name).
Proof.
  intros Hname. rewrite eqIgnoreCase_lower, String.eqb_eq, Hname. reflexivity.
Qed.

Lemma parseSeverity_accepts value s :
  parseSeverity value = Some s <-> Js.toLowerCase value = Severity_value s.
Proof.
  split; [apply find_value_eq|]. unfold parseSeverity. intros ->. now destruct s.
Qed.

Lemma parseSecurityClassification_accepts value c :
  parseSecurityClassification value = Some c
  <-> Js.toLowerCase value = SecurityClassification_value c.
Proof.
  split; [apply find_value_eq|]. unfold parseSecurityClassification.
  intros ->. now destruct c.
Qed.

Lemma parseEndpointType_accepts value t :
  parseEndpointType value = Some t <-> Js.toLowerCase value = EndpointType_value t.
Proof.
  split; [apply find_value_eq|]. unfold parseEndpointType. intros ->. now destruct t.
Qed.

(** X1.  The four enumeration parsers and the case of a name.  A text
    that differs from the name of a member at most in the case of its
    letters is parsed to that member, whatever the text; and an ASCII
    text that is parsed to a member differs from the member's name at
    most in the case of its letters.  No two members have names that
    differ in case only, so the member is determined by the text. *)
Theorem parsers_accept_names_up_to_case :
  (forall value m,
      Js.eqIgnoreCase value (HttpMethod_value m) = true ->
      parseHttpMethod value = Some m)
  /\ (forall value s,
         Js.eqIgnoreCase value (Severity_value s) = true ->
         parseSeverity value = Some s)
  /\ (forall value c,
         Js.eqIgnoreCase value (SecurityClassification_value c) = true ->
         parseSecurityClassification value = Some c)
  /\ (forall value t,
         Js.eqIgnoreCase value (EndpointType_value t) = true ->
         parseEndpointType value = Some t)
  /\ (forall value, Js.isAscii value = true ->
        (forall m, parseHttpMethod value = Some m ->
                   Js.eqIgnoreCase value (HttpMethod_value m) = true)
        /\ (forall s, parseSeverity value = Some s ->
                      Js.eqIgnoreCase value (Severity_value s) = true)
        /\ (forall c, parseSecurityClassification value = Some c ->
                      Js.eqIgnoreCase value (SecurityClassification_value c) = true)
        /\ (forall t, parseEndpointType value = Some t ->
                      Js.eqIgnoreCase value (EndpointType_value t) = true))
  /\ (forall m m', Js.eqIgnoreCase (HttpMethod_value m) (HttpMethod_value m') = true ->
                   m = m')
  /\ (forall s s', Js.eqIgnoreCase (Severity_value s) (Severity_value s') = true ->
                   s = s')
  /\ (forall c c',
         Js.eqIgnoreCase (SecurityClassification_value c)
           (SecurityClassification_value c') = true -> c = c')
  /\ (forall t t',
         Js.eqIgnoreCase (EndpointType_value t) (EndpointType_value t') = true ->
         t = t').
Proof.
  assert (Hm : forall m, Js.toUpperCase (HttpMethod_value m) = HttpMethod_value m)
    by (now intros []).
  assert (Hs : forall s, Js.toLowerCase (Severity_value s) = Severity_value s)
    by (now intros []).
  assert (Hc : forall c, Js.toLowerCase (SecurityClassification_value c)
                         = SecurityClassification_value c) by (now intros []).
  assert (Ht : forall t, Js.toLowerCase (EndpointType_value t) = EndpointType_value t)
    by (now intros []).
  split; [|split; [|split; [|split; [|split; [|split; [|split; [|split]]]]]]].
  - intros value m H. apply parseHttpMethod_accepts.
    now apply (eqIgnoreCase_upper_name value _ (Hm m)).
  - intros value s H. apply parseSeverity_accepts.
    now apply (eqIgnoreCase_lower_name value _ (Hs s)).
  - intros value c H. apply parseSecurityClassification_accepts.
    now apply (eqIgnoreCase_lower_name value _ (Hc c)).
  - intros value t H. apply parseEndpointType_accepts.
    now apply (eqIgnoreCase_lower_name value _ (Ht t)).
  - intros value _. split; [|split; [|split]].
    + intros m H. apply (eqIgnoreCase_upper_name value _ (Hm m)).
      now apply parseHttpMethod_accepts.
    + intros s H. apply (eqIgnoreCase_lower_name value _ (Hs s)).
      now apply parseSeverity_accepts.
    + intros c H. apply (eqIgnoreCase_lower_name value _ (Hc c)).
      now apply parseSecurityClassification_accepts.
    + intros t H. apply (eqIgnoreCase_lower_name value _ (Ht t)).
      now apply parseEndpointType_accepts.
  - intros [] []; intros H; first [reflexivity | discriminate H].
  - intros [] []; intros H; first [reflexivity | discriminate H].
  - intros [] []; intros H; first [reflexivity | discriminate H].
  - intros [] []; intros H; first [reflexivity | discriminate H].
Qed.

(** X1, witness: [Role-Restricted] and [delete] are accepted. *)
Lemma parsers_accept_names_up_to_case_witness :
  parseSecurityClassification "Role-Restricted" = Some RoleRestricted
  /\ parseHttpMethod "delete" = Some DELETE.
Proof.
  destruct parsers_accept_names_up_to_case as (Hm & _ & Hc & _). split.
  - apply Hc. reflexivity.
  - apply Hm. reflexivity.
Defined.
